(** * tube-engine: the multi-source ingestion pipeline

    A shallow embedding of the ingestion path of the repository:

    - [app/indexers/base.py]      the run coordinator and the catalog writer
                                  ([BaseIndexer]),
    - [app/services/scheduler.py] the scheduler ([IndexingScheduler]),
    - [app/indexers/reddit.py], [github.py], [dynamic.py], [websearch.py]
                                  the collectors the properties talk about,
    - [app/indexers/youtube.py], [moltbook.py], [huggingface.py], [civitai.py]
                                  further collectors and their parsers,
    - [app/services/search.py], [app/api/entities.py]
                                  the catalog service and the endpoints.

    Python code is embedded as state-passing functions in a state-and-
    exception monad: a computation takes the current state and returns either
    a value or a raised exception, together with the state it left behind (a
    Python exception does not undo the mutations made before it). *)

From Stdlib Require Import ZArith String Ascii List Lia Bool.
From stdpp Require Import base tactics option list gmap strings.

Set Warnings "-register-all,-clear-no-such-hyp".

(* ===================================================================== *)
(** ** Python: exceptions, state, loops *)
(* ===================================================================== *)

Module Py.

(** An exception is represented by its message, the [str(e)] the code logs
    and returns.  Every exception of the model is an [Exception]: the
    handlers of the code are all [except Exception] (or bare). *)
Definition Exn := string.

Inductive Res (A : Type) : Type :=
| Ok (a : A)
| Raise (e : Exn).
Arguments Ok {A} a.
Arguments Raise {A} e.

Definition M (S A : Type) : Type := S -> Res A * S.

Definition ret {S A} (a : A) : M S A := fun s => (Ok a, s).

Definition bind {S A B} (m : M S A) (k : A -> M S B) : M S B :=
  fun s => match m s with
           | (Ok a, s') => k a s'
           | (Raise e, s') => (Raise e, s')
           end.

Definition raise {S A} (e : Exn) : M S A := fun s => (Raise e, s).

(** [try: m  except Exception as e: h e] *)
Definition try_except {S A} (m : M S A) (h : Exn -> M S A) : M S A :=
  fun s => match m s with
           | (Ok a, s') => (Ok a, s')
           | (Raise e, s') => h e s'
           end.

(** A pure step that may raise (an attribute error, a validation error). *)
Definition lift_res {S A} (r : Res A) : M S A := fun s => (r, s).

Definition get {S} : M S S := fun s => (Ok s, s).
Definition gets {S A} (f : S -> A) : M S A := fun s => (Ok (f s), s).
Definition modify {S} (f : S -> S) : M S unit := fun s => (Ok tt, f s).

(** Run a computation on a component of the state. *)
Definition zoom {S T A} (proj : S -> T) (inj : T -> S -> S) (m : M T A) : M S A :=
  fun s => match m (proj s) with (r, t') => (r, inj t' s) end.

(** [for x in l: body x] *)
Fixpoint for_each {S A} (l : list A) (body : A -> M S unit) : M S unit :=
  match l with
  | [] => ret tt
  | x :: l' => bind (body x) (fun _ => for_each l' body)
  end.

(** A loop body that may [break]. *)
Inductive Flow := Next | Break.

Fixpoint for_each_break {S A} (l : list A) (body : A -> M S Flow) : M S unit :=
  match l with
  | [] => ret tt
  | x :: l' =>
      bind (body x) (fun f =>
        match f with
        | Next => for_each_break l' body
        | Break => ret tt
        end)
  end.

(** Local variables of a function that its [try] blocks and loops update:
    they sit next to the state, so that what was appended before an
    exception is still there in the handler. *)
Definition with_locals {S L A} (init : L) (m : M (S * L) A) : M S A :=
  fun s => match m (s, init) with (r, (s', _)) => (r, s') end.

Definition outer {S L A} (m : M S A) : M (S * L) A :=
  zoom fst (fun s' sl => (s', snd sl)) m.

Definition local_get {S L} : M (S * L) L := gets snd.

Definition local_modify {S L} (f : L -> L) : M (S * L) unit :=
  modify (fun sl => (fst sl, f (snd sl))).

(** [m] followed by [fin] on both exits, as the exit of a [with] block: the
    outcome of [m] stands unless [fin] itself raises. *)
Definition finally {S A} (m : M S A) (fin : M S unit) : M S A :=
  fun s => match m s with
           | (r, s') => match fin s' with
                        | (Ok _, s'') => (r, s'')
                        | (Raise e, s'') => (Raise e, s'')
                        end
           end.

(** [asyncio.gather] of the tasks with [return_exceptions=True]: every task runs
    to its end and the results come in the order of the tasks, an exception
    in the place of the task that raised it.  The event loop interleaves the
    tasks at their await points; the model runs them in their declared
    order. *)
Fixpoint gather {S A} (tasks : list (M S A)) : M S (list (Res A)) :=
  match tasks with
  | [] => ret []
  | t :: ts =>
      fun s => match t s with
               | (r, s') => bind (gather ts) (fun rs => ret (r :: rs)) s'
               end
  end.

(** [res_bind] is [bind] for pure steps. *)
Definition res_bind {A B} (r : Res A) (k : A -> Res B) : Res B :=
  match r with
  | Ok a => k a
  | Raise e => Raise e
  end.

(** ** Slices and integer division *)

(** [l[:n]] for a Python integer [n]: a negative [n] counts from the end. *)
Definition slice_to {A} (n : Z) (l : list A) : list A :=
  if (0 <=? n)%Z then take (Z.to_nat n) l
  else take (length l - Z.to_nat (- n)) l.

(** [a // b] is floor division, which is [Z.div]. *)
Definition floordiv (a b : Z) : Z := (a / b)%Z.

(** ** Strings

    Strings are byte strings: positions count characters of the 8-bit
    alphabet. *)

Definition str_slice_to (n : Z) (s : string) : string :=
  string_of_list_ascii (slice_to n (list_ascii_of_string s)).

Fixpoint str_drop (n : nat) (s : string) : string :=
  match n, s with
  | O, _ => s
  | S n', EmptyString => EmptyString
  | S n', String _ s' => str_drop n' s'
  end.

Definition startswith (s p : string) : bool := String.prefix p s.

(** [needle in s] *)
Fixpoint str_contains (needle s : string) : bool :=
  String.prefix needle s ||
  match s with
  | EmptyString => false
  | String _ s' => str_contains needle s'
  end.

Definition is_space (c : ascii) : bool :=
  let n := nat_of_ascii c in
  (n =? 32) || ((9 <=? n) && (n <=? 13)) || ((28 <=? n) && (n <=? 31)).

Fixpoint lstrip (s : string) : string :=
  match s with
  | EmptyString => EmptyString
  | String c s' => if is_space c then lstrip s' else s
  end.

Fixpoint rstrip (s : string) : string :=
  match s with
  | EmptyString => EmptyString
  | String c s' =>
      match rstrip s' with
      | EmptyString => if is_space c then EmptyString else String c EmptyString
      | r => String c r
      end
  end.

Definition strip (s : string) : string := rstrip (lstrip s).

(** [s.split("\n")]: always at least one piece. *)
Fixpoint split_lines (s : string) : list string :=
  match s with
  | EmptyString => [EmptyString]
  | String c s' =>
      if Ascii.eqb c "010"%char then EmptyString :: split_lines s'
      else match split_lines s' with
           | [] => [String c EmptyString]
           | l :: ls => String c l :: ls
           end
  end.

(** [s.replace(old, "")] for a non-empty [old], left to right. *)
Fixpoint remove_all (fuel : nat) (old s : string) : string :=
  match fuel with
  | O => s
  | S fuel' =>
      match s with
      | EmptyString => EmptyString
      | String c s' =>
          if String.prefix old s
          then remove_all fuel' old (str_drop (String.length old) s)
          else String c (remove_all fuel' old s')
      end
  end.

End Py.

Export Py.

Declare Scope py_scope.
Delimit Scope py_scope with py.
Notation "'let*' x ':=' m 'in' k" := (Py.bind m (fun x => k))
  (at level 10, x name, m at level 100, k at level 200) : py_scope.
Notation "'let*' ' p ':=' m 'in' k" := (Py.bind m (fun x => match x with p => k end))
  (at level 10, p pattern, m at level 100, k at level 200) : py_scope.
Notation "m '>>' k" := (Py.bind m (fun _ => k))
  (at level 100, k at level 200, right associativity) : py_scope.
Open Scope py_scope.

(* ===================================================================== *)
(** ** Raw records: the values [response.json()] produces *)
(* ===================================================================== *)

Module Json.

(** A decoded JSON document.  A Python [dict] keeps its insertion order and
    has one entry per key, so it is an association list read by its first
    match and written in place.  Only integers occur as numbers in the
    fields the collectors read. *)
Inductive JVal : Type :=
| JNull
| JBool (b : bool)
| JNum (n : Z)
| JStr (s : string)
| JList (l : list JVal)
| JDict (d : list (string * JVal)).

(** Truth value of a Python object: [None], [False], [0], [""], [[]] and
    [{}] are false. *)
Definition truthy (v : JVal) : bool :=
  match v with
  | JNull => false
  | JBool b => b
  | JNum n => negb (n =? 0)%Z
  | JStr s => negb (String.eqb s "")
  | JList l => match l with [] => false | _ => true end
  | JDict d => match d with [] => false | _ => true end
  end.

Fixpoint assoc_get (d : list (string * JVal)) (k : string) : option JVal :=
  match d with
  | [] => None
  | (k', v) :: d' => if String.eqb k' k then Some v else assoc_get d' k
  end.

(** [d[k] = v] *)
Fixpoint assoc_set (d : list (string * JVal)) (k : string) (v : JVal)
  : list (string * JVal) :=
  match d with
  | [] => [(k, v)]
  | (k', v') :: d' =>
      if String.eqb k' k then (k', v) :: d' else (k', v') :: assoc_set d' k v
  end.

(** [x.get(k, default)]: only a dict has [get]. *)
Definition py_get (x : JVal) (k : string) (default : JVal) : Res JVal :=
  match x with
  | JDict d => Ok (match assoc_get d k with Some v => v | None => default end)
  | _ => Raise "AttributeError: object has no attribute 'get'"
  end.

(** [x[k] = v] for a string key: only a dict supports it. *)
Definition py_setitem (x : JVal) (k : string) (v : JVal) : Res JVal :=
  match x with
  | JDict d => Ok (JDict (assoc_set d k v))
  | _ => Raise "TypeError: object does not support item assignment"
  end.

(** The elements [for y in x] visits. *)
Definition py_iter (x : JVal) : Res (list JVal) :=
  match x with
  | JList l => Ok l
  | JDict d => Ok (map (fun kv => JStr (fst kv)) d)
  | JStr s => Ok (map (fun c => JStr (String c EmptyString)) (list_ascii_of_string s))
  | _ => Raise "TypeError: object is not iterable"
  end.

(** [x[:n]] *)
Definition py_slice_to (n : Z) (x : JVal) : Res JVal :=
  match x with
  | JStr s => Ok (JStr (str_slice_to n s))
  | JList l => Ok (JList (slice_to n l))
  | _ => Raise "TypeError: object is not subscriptable"
  end.

(** [needle in x] for a string [needle]. *)
Definition py_in (needle : string) (x : JVal) : Res bool :=
  match x with
  | JStr s => Ok (str_contains needle s)
  | JList l =>
      Ok (existsb (fun v => match v with JStr s => String.eqb s needle | _ => false end) l)
  | JDict d => Ok (existsb (fun kv => String.eqb (fst kv) needle) d)
  | _ => Raise "TypeError: argument is not iterable"
  end.

(** What pydantic accepts for a field declared [str], [Optional[str]] and
    [List[str]]. *)
Definition validate_str (v : JVal) : Res string :=
  match v with
  | JStr s => Ok s
  | _ => Raise "ValidationError: Input should be a valid string"
  end.

Definition validate_opt_str (v : JVal) : Res (option string) :=
  match v with
  | JNull => Ok None
  | JStr s => Ok (Some s)
  | _ => Raise "ValidationError: Input should be a valid string"
  end.

Fixpoint validate_list_str (l : list JVal) : Res (list string) :=
  match l with
  | [] => Ok []
  | v :: l' =>
      res_bind (validate_str v) (fun s =>
      res_bind (validate_list_str l') (fun ss => Ok (s :: ss)))
  end.

End Json.

Export Json.

(* ===================================================================== *)
(** ** The catalog: [app/schemas/entity.py] and [app/models/entity.py] *)
(* ===================================================================== *)

(** [ContentCreate(ContentBase)]: the normalized item a collector produces. *)
Module ContentCreate.
Record t : Type := Build {
  agent_id_external : string;
  content_type : string;
  title : string;
  description : option string;
  content : option string;
  content_url : option string;
  thumbnail_url : option string;
  source_platform : option string;
  source_url : option string;
  tags : option (list string);
  categories : option (list string);
  language : option string;
  license : option string
}.
End ContentCreate.

(** A row of table [agents].  The ingestion path sets [agent_id] and [name]
    and counts [total_creations]; the columns it never reads or writes
    (display name, avatar, bio, ...) keep their defaults and are left out. *)
Module Agent.
Record t : Type := Build {
  id : nat;
  agent_id : string;
  name : string;
  total_creations : option nat
}.
End Agent.

(** A row of table [agent_contents]: the fields of the item, the owning
    agent and the engagement counters, which start at their default 0. *)
Module AgentContent.
Record t : Type := Build {
  id : nat;
  agent_id : nat;
  content_type : string;
  title : string;
  description : option string;
  content : option string;
  content_url : option string;
  thumbnail_url : option string;
  source_platform : option string;
  source_url : option string;
  tags : option (list string);
  categories : option (list string);
  language : option string;
  license : option string;
  view_count : nat;
  like_count : nat;
  share_count : nat;
  download_count : nat
}.
End AgentContent.

(* ===================================================================== *)
(** ** The persistence layer: an [AsyncSession] over the two tables *)
(* ===================================================================== *)

Module Db.

Record Store : Type := {
  agents : list Agent.t;
  contents : list AgentContent.t
}.

(** The operations of a session that reach the database. *)
Inductive DbOp := OpOpen | OpExecute | OpFlush | OpCommit | OpRollback.

(** [app/db/database.py] is not part of the sources: the session it makes is
    taken as SQLAlchemy's [AsyncSession] with its defaults.  [durable] is
    what has been committed, [session] is what the open session sees (the
    committed rows and the objects added or changed since; a query flushes
    before it runs).  [fault op n] tells whether the [n]-th operation on the
    database, being an [op], raises: the environment's schedule of
    persistence failures.  A failing operation raises and changes nothing
    else. *)
Record Db : Type := {
  durable : Store;
  session : Store;
  ops : nat;
  fault : DbOp -> nat -> bool
}.

Definition set_session (f : Store -> Store) (d : Db) : Db :=
  {| durable := durable d; session := f (session d);
     ops := ops d; fault := fault d |}.

Definition set_durable (f : Store -> Store) (d : Db) : Db :=
  {| durable := f (durable d); session := session d;
     ops := ops d; fault := fault d |}.

(** One round trip to the database. *)
Definition db_step (op : DbOp) : M Db unit :=
  fun d =>
    let d' := {| durable := durable d; session := session d;
                 ops := S (ops d); fault := fault d |} in
    if fault d op (ops d)
    then (Raise "OperationalError: database operation failed", d')
    else (Ok tt, d').

(** [result.scalar_one_or_none()] *)
Definition scalar_one_or_none {A} (rows : list A) : Res (option A) :=
  match rows with
  | [] => Ok None
  | [x] => Ok (Some x)
  | _ => Raise "MultipleResultsFound: Multiple rows were found when one or none was required"
  end.

(** The rows [select(Agent).where(Agent.agent_id == agent_id)] finds in a
    store. *)
Definition rows_of_agent (agent_id : string) (s : Store) : list Agent.t :=
  filter (fun a => Agent.agent_id a = agent_id) (agents s).

(** The rows [select(AgentContent).where(AgentContent.source_url == source_url)]
    finds: a row whose [source_url] is NULL matches nothing. *)
Definition rows_with_url (source_url : string) (s : Store) : list AgentContent.t :=
  filter (fun c => AgentContent.source_url c = Some source_url) (contents s).

(** [await db.execute(stmt)] for the two queries *)
Definition select_agent (agent_id : string) : M Db (list Agent.t) :=
  db_step OpExecute >>
  gets (fun d => rows_of_agent agent_id (session d)).

Definition select_content (source_url : string) : M Db (list AgentContent.t) :=
  db_step OpExecute >>
  gets (fun d => rows_with_url source_url (session d)).

(** A fresh primary key. *)
Definition fresh_id (ids : list nat) : nat := S (max_list ids).

(** The row of [Agent(agent_id=agent_id, name=name)] once it is in the
    session: it has its primary key and the column default
    [total_creations = 0]. *)
Definition new_agent (agent_id name : string) (rows : list Agent.t) : Agent.t :=
  {| Agent.id := fresh_id (Agent.id <$> rows);
     Agent.agent_id := agent_id;
     Agent.name := name;
     Agent.total_creations := Some 0 |}.

(** [db.add(agent)] *)
Definition add_agent (agent_id name : string) : M Db Agent.t :=
  fun d =>
    let a := new_agent agent_id name (agents (session d)) in
    (Ok a, set_session (fun s => {| agents := agents s ++ [a]; contents := contents s |}) d).

(** The row built from [content.model_dump(exclude={"agent_id_external"})]
    with [agent_id] set: every field of the item is copied. *)
Definition new_content (content : ContentCreate.t) (agent_id : nat) (id : nat)
  : AgentContent.t :=
  {| AgentContent.id := id;
     AgentContent.agent_id := agent_id;
     AgentContent.content_type := ContentCreate.content_type content;
     AgentContent.title := ContentCreate.title content;
     AgentContent.description := ContentCreate.description content;
     AgentContent.content := ContentCreate.content content;
     AgentContent.content_url := ContentCreate.content_url content;
     AgentContent.thumbnail_url := ContentCreate.thumbnail_url content;
     AgentContent.source_platform := ContentCreate.source_platform content;
     AgentContent.source_url := ContentCreate.source_url content;
     AgentContent.tags := ContentCreate.tags content;
     AgentContent.categories := ContentCreate.categories content;
     AgentContent.language := ContentCreate.language content;
     AgentContent.license := ContentCreate.license content;
     AgentContent.view_count := 0;
     AgentContent.like_count := 0;
     AgentContent.share_count := 0;
     AgentContent.download_count := 0 |}.

(** [db.add(db_content)] *)
Definition add_content (content : ContentCreate.t) (agent_id : nat) : M Db AgentContent.t :=
  fun d =>
    let c := new_content content agent_id
               (fresh_id (AgentContent.id <$> contents (session d))) in
    (Ok c, set_session (fun s => {| agents := agents s; contents := contents s ++ [c] |}) d).

(** [agent.total_creations = v] on the object the session holds under
    primary key [pk]. *)
Definition with_total_creations (pk : nat) (v : option nat) (a : Agent.t) : Agent.t :=
  if decide (Agent.id a = pk)
  then {| Agent.id := Agent.id a;
          Agent.agent_id := Agent.agent_id a;
          Agent.name := Agent.name a;
          Agent.total_creations := v |}
  else a.

Definition set_total_creations (pk : nat) (v : option nat) : M Db unit :=
  modify (set_session (fun s =>
    {| agents := with_total_creations pk v <$> agents s;
       contents := contents s |})).

Definition flush : M Db unit := db_step OpFlush.

(** [await db.commit()]: what the session holds becomes durable. *)
Definition commit : M Db unit :=
  db_step OpCommit >> modify (fun d => set_durable (fun _ => session d) d).

(** [await db.rollback()]: the session goes back to what is durable. *)
Definition rollback : M Db unit :=
  db_step OpRollback >> modify (fun d => set_session (fun _ => durable d) d).

(** [async with async_session_maker() as db: body]: a new session sees the
    durable rows; leaving the block closes it and drops what it did not
    commit. *)
Definition open_session : M Db unit :=
  db_step OpOpen >> modify (fun d => set_session (fun _ => durable d) d).

Definition close_session : M Db unit :=
  modify (fun d => set_session (fun _ => durable d) d).

End Db.

(* ===================================================================== *)
(** ** The upstreams: [httpx.AsyncClient] and the event loop's clock *)
(* ===================================================================== *)

Module Http.

Record Request : Type := {
  url : string;
  params : list (string * JVal)
}.

(** [json] is what [response.json()] gives: a document or a decoding error. *)
Record Response : Type := {
  status_code : Z;
  json : Res JVal;
  text : string
}.

Inductive Event :=
| Sent (client : nat) (r : Request)
| Slept (ms : Z).

(** The world outside: [upstream n r] is what the [n]-th request sent in
    this process is answered with, a response or an exception of the
    transport (time-out, connection error); [log] records what was sent and
    slept, in order; [opened] lists the clients that are inside their
    [async with] block; [clock] is the time in milliseconds.  The headers of
    a request are fixed per collector and are not recorded. *)
Record Env : Type := {
  upstream : nat -> Request -> Res Response;
  log : list Event;
  sent : nat;
  next_client : nat;
  opened : list nat;
  clock : Z
}.

(** [httpx.AsyncClient(...)] entered *)
Definition open_client : M Env nat :=
  fun e => (Ok (next_client e),
            {| upstream := upstream e; log := log e; sent := sent e;
               next_client := S (next_client e);
               opened := next_client e :: opened e;
               clock := clock e |}).

Definition close_client (c : nat) : M Env unit :=
  modify (fun e => {| upstream := upstream e; log := log e; sent := sent e;
                      next_client := next_client e;
                      opened := filter (fun c' => c' <> c) (opened e);
                      clock := clock e |}).

(** [await client.get(url, params=...)]: a closed client refuses to send. *)
Definition client_get (c : nat) (r : Request) : M Env Response :=
  fun e =>
    if bool_decide (c ∈ opened e)
    then (upstream e (sent e) r,
          {| upstream := upstream e; log := log e ++ [Sent c r]; sent := S (sent e);
             next_client := next_client e; opened := opened e;
             clock := clock e |})
    else (Raise "RuntimeError: Cannot send a request, as the client has been closed.", e).

(** [await asyncio.sleep(ms / 1000)] *)
Definition sleep (ms : Z) : M Env unit :=
  modify (fun e => {| upstream := upstream e; log := log e ++ [Slept ms]; sent := sent e;
                      next_client := next_client e; opened := opened e;
                      clock := (clock e + ms)%Z |}).

(** [datetime.utcnow()] *)
Definition utcnow : M Env Z := gets clock.

(** [async with httpx.AsyncClient(...) as client: body client], in a function
    with locals [L]. *)
Definition async_with_client {L A} (body : nat -> M (Env * L) A) : M (Env * L) A :=
  let* client := outer open_client in
  finally (body client) (outer (close_client client)).

(** The requests of a log, in the order they were sent. *)
Definition requests (l : list Event) : list Request :=
  omap (fun ev => match ev with Sent _ r => Some r | Slept _ => None end) l.

End Http.

(* ===================================================================== *)
(** ** [app/indexers/base.py]: [BaseIndexer] *)
(* ===================================================================== *)

Module Base.
Import Db Http.

(** [self.stats] *)
Record Stats : Type := {
  indexed : nat;
  skipped : nat;
  errors : nat
}.

Definition zero_stats : Stats := {| indexed := 0; skipped := 0; errors := 0 |}.

(** The two abstract methods a platform indexer provides.  [fetch_content]
    talks to the upstreams only; [parse_content] is a plain function that
    returns an item, [None], or raises. *)
Record Indexer : Type := {
  platform_id : string;
  platform_name : string;
  fetch_content : option Z -> Z -> M Env (list JVal);
  parse_content : JVal -> Res (option ContentCreate.t)
}.

(** An indexer object at work: its session [self.db], its counters
    [self.stats], and the world its collector reaches. *)
Record Self : Type := {
  env : Env;
  db : Db;
  stats : Stats
}.

Definition on_env {A} (m : M Env A) : M Self A :=
  zoom env (fun e s => {| env := e; db := db s; stats := stats s |}) m.

Definition on_db {A} (m : M Db A) : M Self A :=
  zoom db (fun d s => {| env := env s; db := d; stats := stats s |}) m.

Definition set_stats (f : Stats -> Stats) : M Self unit :=
  modify (fun s => {| env := env s; db := db s; stats := f (stats s) |}).

(** [self.stats["indexed"] += 1] and its siblings *)
Definition incr_indexed : M Self unit :=
  set_stats (fun st => {| indexed := indexed st + 1; skipped := skipped st;
                          errors := errors st |}).

Definition incr_skipped : M Self unit :=
  set_stats (fun st => {| indexed := indexed st; skipped := skipped st + 1;
                          errors := errors st |}).

Definition incr_errors : M Self unit :=
  set_stats (fun st => {| indexed := indexed st; skipped := skipped st;
                          errors := errors st + 1 |}).

Definition get_or_create_agent (agent_id name : string) : M Db Agent.t :=
  let* rows := select_agent agent_id in
  let* agent := lift_res (scalar_one_or_none rows) in
  match agent with
  | Some a => ret a
  | None =>
      let* a := add_agent agent_id name in
      flush >>
      ret a
  end.

Definition content_exists (source_url : string) : M Db bool :=
  let* rows := select_content source_url in
  let* row := lift_res (scalar_one_or_none rows) in
  ret (match row with Some _ => true | None => false end).

(** [content.source_url and await self.content_exists(content.source_url)]:
    [None] and the empty string are false and the query is not made. *)
Definition is_duplicate (content : ContentCreate.t) : M Db bool :=
  match ContentCreate.source_url content with
  | Some u => if String.eqb u "" then ret false else content_exists u
  | None => ret false
  end.

(** [agent.total_creations or 0] *)
Definition or_zero (v : option nat) : nat :=
  match v with Some n => n | None => 0 end.

(** The [try] block of [index_content]. *)
Definition write_content (content : ContentCreate.t) : M Self (option AgentContent.t) :=
  let* dup := on_db (is_duplicate content) in
  if dup then
    incr_skipped >>
    ret None
  else
    let* agent := on_db (get_or_create_agent
                           (ContentCreate.agent_id_external content)
                           (ContentCreate.agent_id_external content)) in
    let* db_content := on_db (add_content content (Agent.id agent)) in
    on_db (set_total_creations (Agent.id agent)
             (Some (or_zero (Agent.total_creations agent) + 1))) >>
    incr_indexed >>
    ret (Some db_content).

Definition index_content (content : ContentCreate.t) : M Self (option AgentContent.t) :=
  try_except
    (write_content content)
    (fun e =>
       incr_errors >>
       ret None).

(** The body of the loop of [run] over one raw item. *)
Definition process_item (self : Indexer) (raw_item : JVal) : M Self unit :=
  try_except
    (let* content := lift_res (parse_content self raw_item) in
     match content with
     | Some c => index_content c >> ret tt
     | None => ret tt
     end)
    (fun e => incr_errors).

Definition run (self : Indexer) (since : option Z) (limit : Z) : M Self Stats :=
  try_except
    (let* raw_items := on_env (fetch_content self since limit) in
     for_each raw_items (process_item self) >>
     on_db commit)
    (fun e => on_db rollback) >>
  gets stats.

End Base.

(* ===================================================================== *)
(** ** [app/services/scheduler.py]: [IndexingScheduler] *)
(* ===================================================================== *)

Module Scheduler.
Import Db Http Base.

(** The nine indexer classes the scheduler imports. *)
Record Indexers : Type := {
  GitHubIndexer : Indexer;
  HuggingFaceIndexer : Indexer;
  CivitaiIndexer : Indexer;
  YouTubeIndexer : Indexer;
  RedditIndexer : Indexer;
  ArxivIndexer : Indexer;
  DynamicWebIndexer : Indexer;
  MoltbookIndexer : Indexer;
  WebSearchIndexer : Indexer
}.

(** The table of [get_indexer]; an unknown platform gives [None]. *)
Definition get_indexer (I : Indexers) (platform : string) : option Indexer :=
  if String.eqb platform "github" then Some (GitHubIndexer I)
  else if String.eqb platform "huggingface" then Some (HuggingFaceIndexer I)
  else if String.eqb platform "civitai" then Some (CivitaiIndexer I)
  else if String.eqb platform "youtube" then Some (YouTubeIndexer I)
  else if String.eqb platform "reddit" then Some (RedditIndexer I)
  else if String.eqb platform "arxiv" then Some (ArxivIndexer I)
  else if String.eqb platform "dynamic" then Some (DynamicWebIndexer I)
  else if String.eqb platform "moltbook" then Some (MoltbookIndexer I)
  else if String.eqb platform "websearch" then Some (WebSearchIndexer I)
  else None.

(** What [run_indexer] returns: the statistics of the run or
    [{"error": reason}]. *)
Inductive RunResult :=
| Statistics (st : Stats)
| ErrorEntry (reason : string).

(** The scheduler object ([self.last_run]) and the world it runs in: the
    upstreams and the database behind [async_session_maker]. *)
Record Sched : Type := {
  last_run : gmap string Z;
  world : Env;
  database : Db
}.

Definition on_world {A} (m : M Env A) : M Sched A :=
  zoom world (fun e s => {| last_run := last_run s; world := e; database := database s |}) m.

Definition on_database {A} (m : M Db A) : M Sched A :=
  zoom database (fun d s => {| last_run := last_run s; world := world s; database := d |}) m.

(** [await indexer.run(since=since, limit=limit)] on a newly built indexer
    object: [self.stats] starts at zero, [self.db] is the open session. *)
Definition indexer_run (indexer : Indexer) (since : option Z) (limit : Z) : M Sched Stats :=
  zoom (fun s => {| env := world s; db := database s; stats := zero_stats |})
       (fun o s => {| last_run := last_run s; world := env o; database := db o |})
       (run indexer since limit).

Definition set_last_run (platform : string) (now : Z) : M Sched unit :=
  modify (fun s => {| last_run := <[platform := now]> (last_run s);
                      world := world s; database := database s |}).

Definition run_indexer (I : Indexers) (platform : string) (limit : Z) : M Sched RunResult :=
  on_database open_session >>
  finally
    (match get_indexer I platform with
     | None => ret (ErrorEntry ("Unknown platform: " +:+ platform))
     | Some indexer =>
         try_except
           (let* since := gets (fun s => last_run s !! platform) in
            let* stats := indexer_run indexer since limit in
            let* now := on_world utcnow in
            set_last_run platform now >>
            ret (Statistics stats))
           (fun e => ret (ErrorEntry e))
     end)
    (on_database close_session).

(** The loop of [run_all_indexers] over a list of platforms; [results] is
    its local dictionary. *)
Definition run_platforms (I : Indexers) (platforms : list string) (limit : Z)
  : M Sched (gmap string RunResult) :=
  with_locals (∅ : gmap string RunResult)
    (for_each platforms (fun platform =>
       try_except
         (let* r := outer (run_indexer I platform limit) in
          local_modify (<[platform := r]>) >>
          outer (on_world (sleep 2000)))
         (fun e => local_modify (<[platform := ErrorEntry e]>))) >>
     local_get).

Definition platforms : list string :=
  ["websearch"; "dynamic"; "github"; "huggingface"; "civitai"; "reddit"; "arxiv"].

Definition run_all_indexers (I : Indexers) (limit : Z) : M Sched (gmap string RunResult) :=
  run_platforms I platforms limit.

End Scheduler.

(* ===================================================================== *)
(** ** [app/indexers/reddit.py]: [RedditIndexer.fetch_content] *)
(* ===================================================================== *)

Module Reddit.
Import Http.

Definition AI_SUBREDDITS : list string :=
  ["LocalLLaMA"; "ChatGPT"; "artificial"; "MachineLearning"; "OpenAI";
   "AnthropicAI"; "AutoGPT"; "LangChain"; "StableDiffusion"; "SillyTavernAI"].

Definition base_url : string := "https://www.reddit.com".

Definition hot_request (subreddit : string) (limit : Z) : Request :=
  {| url := base_url +:+ "/r/" +:+ subreddit +:+ "/hot.json";
     params := [("limit", JNum (floordiv limit (Z.of_nat (length (take 5 AI_SUBREDDITS)))))] |}.

(** The body of the loop over the subreddits; [items] is the local list. *)
Definition fetch_subreddit (client : nat) (limit : Z) (subreddit : string)
  : M (Env * list JVal) Flow :=
  try_except
    (let* response := outer (client_get client (hot_request subreddit limit)) in
     if (status_code response =? 200)%Z then
       let* data := lift_res (json response) in
       let* listing := lift_res (py_get data "data" (JDict [])) in
       let* children := lift_res (py_get listing "children" (JList [])) in
       let* posts := lift_res (py_iter children) in
       for_each posts (fun post =>
         let* post_data := lift_res (py_get post "data" (JDict [])) in
         let* post_data := lift_res (py_setitem post_data "_subreddit" (JStr subreddit)) in
         local_modify (fun items => items ++ [post_data])) >>
       ret Next
     else if (status_code response =? 429)%Z then
       ret Break
     else
       ret Next)
    (fun e => ret Next).

(** [fetch_content] with the list its loop walks as a parameter. *)
Definition fetch_subreddits (subreddits : list string) (limit : Z) : M Env (list JVal) :=
  with_locals []
    (async_with_client (fun client =>
       for_each_break subreddits (fetch_subreddit client limit)) >>
     let* items := local_get in
     ret (slice_to limit items)).

Definition fetch_content (since : option Z) (limit : Z) : M Env (list JVal) :=
  fetch_subreddits (take 5 AI_SUBREDDITS) limit.

End Reddit.

(* ===================================================================== *)
(** ** [app/indexers/github.py]: [GitHubIndexer.fetch_content] *)
(* ===================================================================== *)

Module GitHub.
Import Http.

Definition AI_KEYWORDS : list string :=
  ["ai-agent"; "autonomous-agent"; "llm-agent"; "gpt-agent"; "auto-gpt";
   "babyagi"; "langchain"; "crewai"; "autogen"; "llamaindex";
   "agent-framework"; "ai-assistant"; "ai-generated"; "auto-generated";
   "llm-generated"].

Definition base_url : string := "https://api.github.com".

(** [strftime] renders a timestamp as [%Y-%m-%dT%H:%M:%SZ]. *)
Definition search_request (strftime : Z -> string) (keyword : string)
    (since : option Z) (limit : Z) : Request :=
  let q := keyword +:+ " in:name,description,topics" in
  {| url := base_url +:+ "/search/repositories";
     params :=
       [("q", JStr (match since with
                    | Some t => q +:+ " pushed:>" +:+ strftime t
                    | None => q
                    end));
        ("sort", JStr "updated");
        ("order", JStr "desc");
        ("per_page",
         JNum (Z.min (floordiv limit (Z.of_nat (length (take 5 AI_KEYWORDS)))) 30))] |}.

Definition fetch_keyword (strftime : Z -> string) (client : nat)
    (since : option Z) (limit : Z) (keyword : string)
  : M (Env * list JVal) Flow :=
  try_except
    (let* response := outer (client_get client (search_request strftime keyword since limit)) in
     if (status_code response =? 200)%Z then
       let* data := lift_res (json response) in
       let* found := lift_res (py_get data "items" (JList [])) in
       let* repos := lift_res (py_iter found) in
       local_modify (fun items => items ++ repos) >>
       ret Next
     else if (status_code response =? 403)%Z then
       ret Break
     else
       ret Next)
    (fun e => ret Next).

(** [fetch_content] with the list its loop walks as a parameter. *)
Definition fetch_keywords (strftime : Z -> string) (keywords : list string)
    (since : option Z) (limit : Z) : M Env (list JVal) :=
  with_locals []
    (async_with_client (fun client =>
       for_each_break keywords (fetch_keyword strftime client since limit)) >>
     let* items := local_get in
     ret (slice_to limit items)).

Definition fetch_content (strftime : Z -> string) (since : option Z) (limit : Z)
  : M Env (list JVal) :=
  fetch_keywords strftime (take 5 AI_KEYWORDS) since limit.

End GitHub.

(* ===================================================================== *)
(** ** [app/indexers/dynamic.py]: [DynamicWebIndexer.fetch_content] *)
(* ===================================================================== *)

Module Dynamic.
Import Http.

(** The four sub-fetchers, each a coroutine taking its share of the limit. *)
Record SubFetchers : Type := {
  _fetch_hackernews : Z -> M Env (list JVal);
  _fetch_devto : Z -> M Env (list JVal);
  _fetch_producthunt : Z -> M Env (list JVal);
  _fetch_medium : Z -> M Env (list JVal)
}.

(** The loop over the gathered results: a list extends [items], an
    exception is logged. *)
Definition merge_results (results : list (Res (list JVal))) (items : list JVal)
  : list JVal :=
  foldl (fun items result =>
           match result with
           | Ok l => items ++ l
           | Raise e => items
           end) items results.

Definition fetch_content (self : SubFetchers) (since : option Z) (limit : Z)
  : M Env (list JVal) :=
  let tasks := [_fetch_hackernews self (floordiv limit 4);
                _fetch_devto self (floordiv limit 4);
                _fetch_producthunt self (floordiv limit 4);
                _fetch_medium self (floordiv limit 4)] in
  let* results := gather tasks in
  ret (slice_to limit (merge_results results [])).

End Dynamic.

(* ===================================================================== *)
(** ** [app/indexers/websearch.py]: [WebSearchIndexer] *)
(* ===================================================================== *)

Module WebSearch.
Import Http.

Definition SEARCH_QUERIES : list string :=
  ["AI agent autonomous"; "GPT agent framework"; "LLM agent tutorial";
   "AI coding assistant"; "autonomous AI bot"; "AI generated content";
   "agent workflow automation"].

Definition duckduckgo_request (query : string) : Request :=
  {| url := "https://api.duckduckgo.com/";
     params := [("q", JStr query); ("format", JStr "json");
                ("no_html", JNum 1); ("skip_disambig", JNum 1)] |}.

Definition search_item (title url description : JVal) (query : string) : JVal :=
  JDict [("title", title); ("url", url); ("description", description);
         ("_source", JStr "duckduckgo"); ("_query", JStr query)].

Definition _search_duckduckgo (client : nat) (query : string) (limit : Z)
  : M Env (list JVal) :=
  with_locals []
    (try_except
       (let* response := outer (client_get client (duckduckgo_request query)) in
        if (status_code response =? 200)%Z then
          let* data := lift_res (json response) in
          let* related := lift_res (py_get data "RelatedTopics" (JList [])) in
          let* related := lift_res (py_slice_to limit related) in
          let* topics := lift_res (py_iter related) in
          for_each topics (fun topic =>
            match topic with
            | JDict _ =>
                let* first_url := lift_res (py_get topic "FirstURL" JNull) in
                if truthy first_url then
                  let* text := lift_res (py_get topic "Text" (JStr "")) in
                  let* title := lift_res (py_slice_to 200 text) in
                  let* url := lift_res (py_get topic "FirstURL" (JStr "")) in
                  let* description := lift_res (py_get topic "Text" (JStr "")) in
                  local_modify (fun items => items ++ [search_item title url description query])
                else ret tt
            | _ => ret tt
            end) >>
          let* abstract := lift_res (py_get data "Abstract" JNull) in
          if truthy abstract then
            let* title := lift_res (py_get data "Heading" (JStr query)) in
            let* url := lift_res (py_get data "AbstractURL" (JStr "")) in
            let* description := lift_res (py_get data "Abstract" (JStr "")) in
            local_modify (fun items => items ++ [search_item title url description query])
          else ret tt
        else ret tt)
       (fun e => ret tt) >>
     local_get).

Definition feeds : list (string * string) :=
  [("https://r.jina.ai/http://feeds.feedburner.com/oreilly/radar", "oreilly");
   ("https://r.jina.ai/http://feeds.arxiv.org/arxiv/cs.AI", "arxiv-rss");
   ("https://r.jina.ai/https://www.artificialintelligence-news.com/feed/", "ai-news")].

(** [current_item.get(k)] is true *)
Definition has (current_item : list (string * JVal)) (k : string) : bool :=
  match assoc_get current_item k with
  | Some v => truthy v
  | None => false
  end.

(** One line of a feed: [items] and [current_item] after it. *)
Definition feed_line (source : string)
    (st : list JVal * list (string * JVal)) (line : string)
  : list JVal * list (string * JVal) :=
  let '(items, current_item) := st in
  if startswith line "Title:" then
    (if has current_item "title"
     then items ++ [JDict (assoc_set current_item "_source" (JStr source))]
     else items,
     [("title", JStr (strip (str_drop 6 line)))])
  else if startswith line "URL:" then
    (items, assoc_set current_item "url" (JStr (strip (str_drop 4 line))))
  else if has current_item "title" && negb (has current_item "description") then
    (items, assoc_set current_item "description" (JStr (str_slice_to 500 line)))
  else (items, current_item).

(** The articles of one feed body, appended to [items]. *)
Definition feed_articles (source : string) (content : string) (items : list JVal)
  : list JVal :=
  let '(items, current_item) :=
    foldl (feed_line source) (items, []) (split_lines content) in
  if has current_item "title"
  then items ++ [JDict (assoc_set current_item "_source" (JStr source))]
  else items.

Definition _fetch_discovery_feeds (client : nat) (limit : Z) : M Env (list JVal) :=
  with_locals []
    (for_each (take 2 feeds) (fun '(feed_url, source) =>
       try_except
         (let* response := outer (client_get client {| url := feed_url; params := [] |}) in
          if (status_code response =? 200)%Z then
            local_modify (feed_articles source (text response))
          else ret tt)
         (fun e => ret tt)) >>
     let* items := local_get in
     ret (slice_to limit items)).

(** The [async with] block of [fetch_content]: the searches, one after the
    other; [items] is the local list.  It returns the client it used. *)
Definition search_queries (limit : Z) : M (Env * list JVal) nat :=
  async_with_client (fun client =>
    for_each (take 5 SEARCH_QUERIES) (fun query =>
      try_except
        (let* search_items := outer (_search_duckduckgo client query (floordiv limit 5)) in
         local_modify (fun items => items ++ search_items) >>
         outer (sleep 500))
        (fun e => ret tt)) >>
    ret client).

(** [client] is still bound after its [async with] block, where the
    discovery feeds are fetched. *)
Definition fetch_content (since : option Z) (limit : Z) : M Env (list JVal) :=
  with_locals []
    (let* client := search_queries limit in
     try_except
       (let* discovery_items := outer (_fetch_discovery_feeds client (floordiv limit 2)) in
        local_modify (fun items => items ++ discovery_items))
       (fun e => ret tt) >>
     let* items := local_get in
     ret (slice_to limit items)).

(** What [fetch_content] would be without its discovery step: the searches
    alone, cut to [limit]. *)
Definition search_results_only (since : option Z) (limit : Z) : M Env (list JVal) :=
  with_locals []
    (let* client := search_queries limit in
     let* items := local_get in
     ret (slice_to limit items)).

Section Parse.

(** From the Python library: [urllib.parse.urlparse(url).netloc], which may
    raise, and [repr], which an f-string applies to a value that is not a
    string. *)
Variable netloc : string -> Res string.
Variable repr : JVal -> string.

(** [f"{v}"] *)
Definition format (v : JVal) : string :=
  match v with
  | JStr s => s
  | _ => repr v
  end.

(** [a or b] on two tests that may raise: [b] is not evaluated when [a]
    holds. *)
Definition or_else (a : Res bool) (b : Res bool) : Res bool :=
  res_bind a (fun x => if x then Ok true else b).

Definition content_type_of (url : JVal) : Res string :=
  res_bind (or_else (py_in "youtube.com" url) (py_in "vimeo.com" url)) (fun video =>
  if video then Ok "video" else
  res_bind (py_in "github.com" url) (fun code =>
  if code then Ok "code" else
  res_bind (py_in "arxiv.org" url) (fun research =>
  if research then Ok "research" else
  res_bind (or_else (py_in "medium.com" url) (py_in "blog" url)) (fun document =>
  if document then Ok "document" else Ok "post")))).

(** [try: domain = urlparse(url).netloc.replace("www.", "")  except: domain = source] *)
Definition domain_of (url source : JVal) : JVal :=
  match url with
  | JStr u =>
      match netloc u with
      | Ok n => JStr (remove_all (S (String.length n)) "www." n)
      | Raise _ => source
      end
  | _ => source
  end.

Definition parse_content (raw_data : JVal) : Res (option ContentCreate.t) :=
  if negb (truthy raw_data) then Ok None else
  res_bind (py_get raw_data "_source" (JStr "web")) (fun source =>
  res_bind (py_get raw_data "title" (JStr "")) (fun title =>
  res_bind (py_get raw_data "url" (JStr "")) (fun url =>
  res_bind (py_get raw_data "description" (JStr "")) (fun description =>
  res_bind (py_get raw_data "_query" (JStr "ai")) (fun query =>
  if negb (truthy url) || negb (truthy title) then Ok None else
  res_bind (content_type_of url) (fun content_type =>
  let domain := domain_of url source in
  res_bind (if truthy description then py_slice_to 500 description
            else Ok (JStr ("Found via search: " +:+ format query))) (fun description =>
  res_bind (py_slice_to 50 domain) (fun source_platform =>
  res_bind (validate_str title) (fun title =>
  res_bind (validate_opt_str description) (fun description =>
  res_bind (validate_opt_str url) (fun url =>
  res_bind (validate_opt_str source_platform) (fun source_platform =>
  res_bind (validate_list_str [query; source; JStr content_type]) (fun tags =>
  Ok (Some
    {| ContentCreate.agent_id_external := "web:" +:+ format domain;
       ContentCreate.content_type := content_type;
       ContentCreate.title := title;
       ContentCreate.description := description;
       ContentCreate.content := None;
       ContentCreate.content_url := url;
       ContentCreate.thumbnail_url := None;
       ContentCreate.source_platform := source_platform;
       ContentCreate.source_url := url;
       ContentCreate.tags := Some tags;
       ContentCreate.categories := Some [];
       ContentCreate.language := None;
       ContentCreate.license := None |})))))))))))))).

Definition WebSearchIndexer : Base.Indexer :=
  {| Base.platform_id := "websearch";
     Base.platform_name := "Web Search";
     Base.fetch_content := fetch_content;
     Base.parse_content := parse_content |}.

End Parse.

End WebSearch.

(* ===================================================================== *)
(** ** More operations on raw records *)
(* ===================================================================== *)

Module Values.

(** [x[k]] for a string key *)
Definition py_getitem (x : JVal) (k : string) : Res JVal :=
  match x with
  | JDict d =>
      match assoc_get d k with
      | Some v => Ok v
      | None => Raise ("KeyError: " +:+ k)
      end
  | _ => Raise "TypeError: indices must be integers or slices, not str"
  end.

(** The integer a number or a boolean stands for in arithmetic. *)
Definition as_int (v : JVal) : option Z :=
  match v with
  | JNum n => Some n
  | JBool b => Some (if b then 1 else 0)%Z
  | _ => None
  end.

(** [a + b] *)
Definition py_add (a b : JVal) : Res JVal :=
  match a, b with
  | JStr s, JStr t => Ok (JStr (s +:+ t))
  | JList l, JList m => Ok (JList (l ++ m))
  | _, _ =>
      match as_int a, as_int b with
      | Some n, Some m => Ok (JNum (n + m))
      | _, _ => Raise "TypeError: unsupported operand type(s) for +"
      end
  end.

(** [x.lower()], with [lower] the function of the Python library on
    strings: only a string has the method. *)
Definition py_lower (lower : string -> string) (x : JVal) : Res string :=
  match x with
  | JStr s => Ok (lower s)
  | _ => Raise "AttributeError: object has no attribute 'lower'"
  end.

(** [x == s] for a string [s] *)
Definition eq_str (x : JVal) (s : string) : bool :=
  match x with
  | JStr t => String.eqb t s
  | _ => false
  end.

(** [a or b] on values *)
Definition py_or (a b : JVal) : JVal := if truthy a then a else b.

(** [any(kw in s for kw in kws)] *)
Definition any_in (kws : list string) (s : string) : bool :=
  existsb (fun kw => str_contains kw s) kws.

(** What pydantic accepts for a field declared [Optional[List[str]]]. *)
Definition validate_opt_tags (v : JVal) : Res (option (list string)) :=
  match v with
  | JNull => Ok None
  | JList l => res_bind (validate_list_str l) (fun tags => Ok (Some tags))
  | _ => Raise "ValidationError: Input should be a valid list"
  end.

End Values.


(* ===================================================================== *)
(** ** [app/indexers/youtube.py]: [YouTubeIndexer.fetch_content] *)
(* ===================================================================== *)

Module YouTubeIndexer.
Import Http.

Definition AI_SEARCH_TERMS : list string :=
  ["AI generated video"; "autonomous AI agent"; "AI art timelapse"; "GPT-4 demo";
   "Claude AI"; "AI music generation"].

Definition base_url : string := "https://www.googleapis.com/youtube/v3".

Definition search_request (api_key query : string) (limit : Z) : Request :=
  {| url := base_url +:+ "/search";
     params :=
       [("part", JStr "snippet");
        ("q", JStr query);
        ("type", JStr "video");
        ("order", JStr "date");
        ("maxResults",
         JNum (Z.min (floordiv limit (Z.of_nat (length (take 5 AI_SEARCH_TERMS)))) 20));
        ("key", JStr api_key)] |}.

(** The body of the loop over the search terms; [items] is the local list. *)
Definition fetch_term (api_key : string) (client : nat) (limit : Z) (query : string)
  : M (Env * list JVal) Flow :=
  try_except
    (let* response := outer (client_get client (search_request api_key query limit)) in
     if (status_code response =? 200)%Z then
       let* data := lift_res (json response) in
       let* found := lift_res (py_get data "items" (JList [])) in
       let* videos := lift_res (py_iter found) in
       for_each videos (fun item =>
         let* item := lift_res (py_setitem item "_query" (JStr query)) in
         local_modify (fun items => items ++ [item])) >>
       ret Next
     else if (status_code response =? 403)%Z then
       ret Break
     else
       ret Next)
    (fun e => ret Next).

(** The search with an API key, with the list its loop walks as a
    parameter. *)
Definition fetch_terms (api_key : string) (terms : list string) (limit : Z)
  : M Env (list JVal) :=
  with_locals []
    (async_with_client (fun client =>
       for_each_break terms (fetch_term api_key client limit)) >>
     let* items := local_get in
     ret (slice_to limit items)).

(** [_fetch_via_rss] reads the feeds with [feedparser], which is not part
    of the sources: it is a parameter.  [not self.api_key] holds for [None]
    and for the empty string. *)
Definition fetch_content (_fetch_via_rss : Z -> M Env (list JVal))
    (api_key : option string) (since : option Z) (limit : Z) : M Env (list JVal) :=
  match api_key with
  | None => _fetch_via_rss limit
  | Some key =>
      if String.eqb key "" then _fetch_via_rss limit
      else fetch_terms key (take 5 AI_SEARCH_TERMS) limit
  end.

End YouTubeIndexer.


(* ===================================================================== *)
(** ** [app/indexers/dynamic.py]: the sub-fetchers and parsers of
       [DynamicWebIndexer] *)
(* ===================================================================== *)

Module DynamicWebIndexer.
Import Http Values.

Definition producthunt_posts (limit : Z) : Request :=
  {| url := "https://www.producthunt.com/v1/posts/all";
     params := [("per_page", JNum limit)] |}.

Definition producthunt_feed : Request :=
  {| url := "https://www.producthunt.com/feed"; params := [] |}.

(** Both responses are dropped: nothing is ever appended to [items]. *)
Definition _fetch_producthunt (limit : Z) : M Env (list JVal) :=
  with_locals ([] : list JVal)
    (async_with_client (fun client =>
       try_except
         (let* response := outer (client_get client (producthunt_posts limit)) in
          if negb (status_code response =? 200)%Z then
            let* response := outer (client_get client producthunt_feed) in
            ret tt
          else ret tt)
         (fun e => ret tt)) >>
     local_get).

Definition devto_request (tag : string) (limit : Z) : Request :=
  {| url := "https://dev.to/api/articles";
     params := [("tag", JStr tag); ("per_page", JNum (floordiv limit 2)); ("top", JNum 7)] |}.

Definition devto_tags : list string := ["ai"; "machinelearning"; "llm"; "chatgpt"].

Definition _fetch_devto (limit : Z) : M Env (list JVal) :=
  with_locals []
    (async_with_client (fun client =>
       for_each (take 2 devto_tags) (fun tag =>
         try_except
           (let* response := outer (client_get client (devto_request tag limit)) in
            if (status_code response =? 200)%Z then
              let* articles := lift_res (json response) in
              let* articles := lift_res (py_iter articles) in
              for_each articles (fun article =>
                let* article := lift_res (py_setitem article "_source" (JStr "devto")) in
                local_modify (fun items => items ++ [article]))
            else ret tt)
           (fun e => ret tt))) >>
     local_get).

Section Library.

(** From the Python library: [str.lower], and [repr], which an f-string
    applies to a value that is not a string. *)
Variable lower : string -> string.
Variable repr : JVal -> string.

Definition TRENDING_AI_TOPICS : list string :=
  ["AI agent"; "autonomous agent"; "GPT-4"; "Claude"; "LLM"; "LangChain";
   "AutoGPT"; "CrewAI"; "RAG"; "vector database"; "AI coding"; "AI music";
   "AI art"; "Stable Diffusion"; "AI video"].

Definition topstories : Request :=
  {| url := "https://hacker-news.firebaseio.com/v0/topstories.json"; params := [] |}.

Definition story_request (story_id : JVal) : Request :=
  {| url := "https://hacker-news.firebaseio.com/v0/item/"
            +:+ WebSearch.format repr story_id +:+ ".json";
     params := [] |}.

(** The body of the loop over the story ids; [except: continue] passes over
    whatever goes wrong with one story. *)
Definition fetch_story (client : nat) (story_id : JVal) : M (Env * list JVal) unit :=
  try_except
    (let* story_resp := outer (client_get client (story_request story_id)) in
     let* story := lift_res (json story_resp) in
     if truthy story then
       let* url := lift_res (py_get story "url" JNull) in
       if truthy url then
         let* title := lift_res (py_get story "title" JNull) in
         if truthy title then
           let* title := lift_res (py_get story "title" (JStr "")) in
           let* title := lift_res (py_lower lower title) in
           if existsb (fun topic => str_contains (lower topic) title) TRENDING_AI_TOPICS
           then
             let* story := lift_res (py_setitem story "_source" (JStr "hackernews")) in
             local_modify (fun items => items ++ [story])
           else ret tt
         else ret tt
       else ret tt
     else ret tt)
    (fun e => ret tt).

Definition _fetch_hackernews (limit : Z) : M Env (list JVal) :=
  with_locals []
    (async_with_client (fun client =>
       try_except
         (let* response := outer (client_get client topstories) in
          let* ids := lift_res (json response) in
          let* story_ids := lift_res (py_slice_to (limit * 2) ids) in
          let* first := lift_res (py_slice_to limit story_ids) in
          let* first := lift_res (py_iter first) in
          for_each first (fetch_story client))
         (fun e => ret tt)) >>
     local_get).

(** What pydantic accepts for a field declared [List[str]]. *)
Definition validate_tags (v : JVal) : Res (list string) :=
  match v with
  | JList l => validate_list_str l
  | _ => Raise "ValidationError: Input should be a valid list"
  end.

Definition _parse_hackernews (data : JVal) : Res (option ContentCreate.t) :=
  res_bind (py_get data "title" (JStr "")) (fun title =>
  res_bind (py_get data "url" (JStr "")) (fun url =>
  res_bind (py_get data "by" (JStr "unknown")) (fun by_ =>
  res_bind (py_get data "score" (JNum 0)) (fun score =>
  res_bind (if negb (truthy url) then
              res_bind (py_get data "id" JNull) (fun id =>
              Ok (JStr ("https://news.ycombinator.com/item?id="
                        +:+ WebSearch.format repr id)))
            else Ok url) (fun url =>
  res_bind (py_get data "text" JNull) (fun has_text =>
  res_bind (if truthy has_text then
              res_bind (py_get data "text" (JStr "")) (fun text =>
              res_bind (py_slice_to 200 text) (fun text =>
              Ok (WebSearch.format repr text)))
            else Ok ""%string) (fun text =>
  let description :=
    "Hacker News post with " +:+ WebSearch.format repr score +:+ " points. " +:+ text in
  res_bind (validate_str title) (fun title =>
  res_bind (validate_opt_str url) (fun url =>
  Ok (Some
    {| ContentCreate.agent_id_external := "hackernews:" +:+ WebSearch.format repr by_;
       ContentCreate.content_type := "post";
       ContentCreate.title := title;
       ContentCreate.description := Some description;
       ContentCreate.content := None;
       ContentCreate.content_url := url;
       ContentCreate.thumbnail_url := None;
       ContentCreate.source_platform := Some "hackernews"%string;
       ContentCreate.source_url := url;
       ContentCreate.tags := Some ["hackernews"; "community"; "tech"]%string;
       ContentCreate.categories := Some [];
       ContentCreate.language := None;
       ContentCreate.license := None |})))))))))).

Definition _parse_devto (data : JVal) : Res (option ContentCreate.t) :=
  res_bind (py_get data "title" (JStr "")) (fun title =>
  res_bind (py_get data "url" (JStr "")) (fun url =>
  res_bind (py_get data "user" (JDict [])) (fun user =>
  res_bind (py_get user "username" (JStr "unknown")) (fun user =>
  res_bind (py_get data "description" (JStr "")) (fun description =>
  res_bind (if truthy description then Ok description
            else res_bind (py_get data "body_markdown" (JStr "")) (fun body =>
                 py_slice_to 500 body)) (fun desc =>
  res_bind (py_get data "tag_list" (JList [JStr "dev"])) (fun tags =>
  res_bind (if truthy tags then py_slice_to 10 tags else Ok (JList [JStr "dev"]))
    (fun tags =>
  res_bind (validate_str title) (fun title =>
  res_bind (validate_opt_str desc) (fun desc =>
  res_bind (validate_opt_str url) (fun url =>
  res_bind (validate_tags tags) (fun tags =>
  Ok (Some
    {| ContentCreate.agent_id_external := "devto:" +:+ WebSearch.format repr user;
       ContentCreate.content_type := "document";
       ContentCreate.title := title;
       ContentCreate.description := desc;
       ContentCreate.content := None;
       ContentCreate.content_url := url;
       ContentCreate.thumbnail_url := None;
       ContentCreate.source_platform := Some "devto"%string;
       ContentCreate.source_url := url;
       ContentCreate.tags := Some tags;
       ContentCreate.categories := Some [];
       ContentCreate.language := None;
       ContentCreate.license := None |}))))))))))))).

Definition _parse_medium (data : JVal) : Res (option ContentCreate.t) :=
  res_bind (py_get data "title" (JStr "")) (fun title =>
  res_bind (py_get data "link" (JStr "")) (fun url =>
  res_bind (py_get data "description" (JStr "")) (fun description =>
  res_bind (py_slice_to 500 description) (fun desc =>
  res_bind (validate_str title) (fun title =>
  res_bind (validate_opt_str desc) (fun desc =>
  res_bind (validate_opt_str url) (fun url =>
  Ok (Some
    {| ContentCreate.agent_id_external := "medium:author";
       ContentCreate.content_type := "document";
       ContentCreate.title := title;
       ContentCreate.description := desc;
       ContentCreate.content := None;
       ContentCreate.content_url := url;
       ContentCreate.thumbnail_url := None;
       ContentCreate.source_platform := Some "medium"%string;
       ContentCreate.source_url := url;
       ContentCreate.tags := Some ["medium"; "article"; "ai"]%string;
       ContentCreate.categories := Some [];
       ContentCreate.language := None;
       ContentCreate.license := None |})))))))).

Definition parse_content (raw_data : JVal) : Res (option ContentCreate.t) :=
  if negb (truthy raw_data) then Ok None else
  res_bind (py_get raw_data "_source" (JStr "unknown")) (fun source =>
  if eq_str source "hackernews" then _parse_hackernews raw_data
  else if eq_str source "devto" then _parse_devto raw_data
  else if eq_str source "medium" then _parse_medium raw_data
  else Ok None).

End Library.

End DynamicWebIndexer.


(* ===================================================================== *)
(** ** [app/indexers/reddit.py]: [RedditIndexer.parse_content] *)
(* ===================================================================== *)

Module RedditIndexer.
Import Values.

Section Parse.

(** From the Python library: [str.lower], and [repr], which an f-string
    applies to a value that is not a string. *)
Variable lower : string -> string.
Variable repr : JVal -> string.

Definition ai_keywords : list string :=
  ["ai"; "agent"; "gpt"; "llm"; "autonomous"; "generated"; "bot"].

Definition parse_content (raw_data : JVal) : Res (option ContentCreate.t) :=
  if negb (truthy raw_data) then Ok None else
  res_bind (py_get raw_data "title" (JStr "")) (fun title =>
  res_bind (py_get raw_data "selftext" (JStr "")) (fun self_text =>
  res_bind (py_get raw_data "_subreddit" (JStr "unknown")) (fun subreddit =>
  res_bind (py_add title (JStr " ")) (fun text =>
  res_bind (py_add text self_text) (fun text =>
  res_bind (py_lower lower text) (fun content_lower =>
  if negb (any_in ai_keywords content_lower) then Ok None else
  res_bind (py_get raw_data "author" (JStr "unknown")) (fun author =>
  res_bind (py_get raw_data "id" (JStr "")) (fun post_id =>
  res_bind (py_get raw_data "permalink" (JStr "")) (fun permalink =>
  let url := "https://reddit.com" +:+ WebSearch.format repr permalink in
  res_bind (py_get raw_data "url" JNull) (fun link =>
  res_bind (py_get raw_data "is_self" JNull) (fun is_self =>
  let is_link := truthy link && negb (truthy is_self) in
  res_bind (py_lower lower subreddit) (fun subreddit_lower =>
  let tags := ["reddit"%string; subreddit_lower] in
  res_bind (py_get raw_data "link_flair_text" JNull) (fun flair =>
  res_bind (if truthy flair then
              res_bind (py_getitem raw_data "link_flair_text") (fun flair =>
              res_bind (py_lower lower flair) (fun flair_lower =>
              Ok (tags ++ [flair_lower])))
            else Ok tags) (fun tags =>
  res_bind (if truthy self_text then py_slice_to 500 self_text
            else Ok (JStr ("Post in r/" +:+ WebSearch.format repr subreddit)))
    (fun description =>
  res_bind (validate_str title) (fun title =>
  res_bind (validate_opt_str description) (fun description =>
  res_bind (validate_opt_str (if is_link then link else JNull)) (fun content =>
  Ok (Some
    {| ContentCreate.agent_id_external := "reddit:" +:+ WebSearch.format repr author;
       ContentCreate.content_type := "post";
       ContentCreate.title := title;
       ContentCreate.description := description;
       ContentCreate.content := content;
       ContentCreate.content_url := Some url;
       ContentCreate.thumbnail_url := None;
       ContentCreate.source_platform := Some "reddit"%string;
       ContentCreate.source_url := Some url;
       ContentCreate.tags := Some (slice_to 10 tags);
       ContentCreate.categories := Some [];
       ContentCreate.language := None;
       ContentCreate.license := None |}))))))))))))))))))).

End Parse.

End RedditIndexer.


(* ===================================================================== *)
(** ** [app/indexers/github.py]: [GitHubIndexer.parse_content] *)
(* ===================================================================== *)

Module GitHubIndexer.
Import Values.

Section Parse.

Variable repr : JVal -> string.

(** [tags = [t for t in topics if t]], and the default when none is left *)
Definition tags_of (topics : list JVal) : list JVal :=
  match List.filter truthy topics with
  | [] => [JStr "code"; JStr "repository"]
  | tags => tags
  end.

Definition parse_content (raw_data : JVal) : Res (option ContentCreate.t) :=
  if negb (truthy raw_data) then Ok None else
  res_bind (py_get raw_data "html_url" (JStr "")) (fun repo_url =>
  res_bind (py_get raw_data "owner" (JDict [])) (fun owner =>
  res_bind (py_get owner "login" (JStr "unknown")) (fun owner =>
  res_bind (py_get raw_data "name" (JStr "unknown")) (fun name =>
  res_bind (py_get raw_data "topics" (JList [])) (fun topics =>
  res_bind (py_get raw_data "description" (JStr "")) (fun description =>
  let description := py_or description (JStr "") in
  res_bind (py_iter topics) (fun topics =>
  let tags := tags_of topics in
  res_bind (py_get raw_data "full_name" name) (fun title =>
  res_bind (if truthy description then py_slice_to 500 description
            else Ok (JStr ("Repository by " +:+ WebSearch.format repr owner)))
    (fun description =>
  res_bind (py_get raw_data "private" JNull) (fun private =>
  let categories := if negb (truthy private) then ["open-source"%string] else [] in
  res_bind (py_get raw_data "language" JNull) (fun language =>
  res_bind (py_get raw_data "license" JNull) (fun has_license =>
  res_bind (if truthy has_license then
              res_bind (py_get raw_data "license" (JDict [])) (fun license =>
              py_get license "spdx_id" JNull)
            else Ok JNull) (fun license =>
  res_bind (validate_str title) (fun title =>
  res_bind (validate_opt_str description) (fun description =>
  res_bind (validate_opt_str repo_url) (fun repo_url =>
  res_bind (validate_list_str (slice_to 10 tags)) (fun tags =>
  res_bind (validate_opt_str language) (fun language =>
  res_bind (validate_opt_str license) (fun license =>
  Ok (Some
    {| ContentCreate.agent_id_external := "github:" +:+ WebSearch.format repr owner;
       ContentCreate.content_type := "code";
       ContentCreate.title := title;
       ContentCreate.description := description;
       ContentCreate.content := None;
       ContentCreate.content_url := repo_url;
       ContentCreate.thumbnail_url := None;
       ContentCreate.source_platform := Some "github"%string;
       ContentCreate.source_url := repo_url;
       ContentCreate.tags := Some tags;
       ContentCreate.categories := Some categories;
       ContentCreate.language := language;
       ContentCreate.license := license |})))))))))))))))))))).

End Parse.

End GitHubIndexer.


(* ===================================================================== *)
(** ** [app/indexers/moltbook.py]: [MoltbookIndexer] *)
(* ===================================================================== *)

Module MoltbookIndexer.
Import Http Values.

(** [self.api_url], as the scheduler builds the indexer: the default. *)
Definition api_url : string := "https://moltbook.com/api".

Definition posts_request (limit : Z) : Request :=
  {| url := api_url +:+ "/posts";
     params := [("limit", JNum limit); ("sort", JStr "popular"); ("type", JStr "agent")] |}.

Definition accounts : list string :=
  ["autogpt"; "crewaiinc"; "langchainai"; "anthropicai"; "openai"].

Definition nitter_request (account : string) : Request :=
  {| url := "https://nitter.net/" +:+ account; params := [] |}.

(** The record made for an account whose page answers. *)
Definition twitter_item (account : string) : JVal :=
  JDict [("title", JStr ("Latest from @" +:+ account));
         ("content", JStr ("AI agent posts from " +:+ account));
         ("url", JStr ("https://x.com/" +:+ account));
         ("author", JStr account);
         ("_source", JStr "twitter")].

Definition _fetch_twitter_ai_posts (client : nat) (limit : Z) : M Env (list JVal) :=
  with_locals []
    (try_except
       (for_each (take 3 accounts) (fun account =>
          try_except
            (let* response := outer (client_get client (nitter_request account)) in
             if (status_code response =? 200)%Z then
               local_modify (fun items => items ++ [twitter_item account])
             else ret tt)
            (fun e => ret tt)))
       (fun e => ret tt) >>
     local_get).

Definition bluesky_request (limit : Z) : Request :=
  {| url := "https://public.api.bsky.app/xrpc/app.bsky.feed.searchPosts";
     params := [("q", JStr "AI agent OR autonomous OR LLM"); ("limit", JNum limit)] |}.

Definition _fetch_bluesky_posts (client : nat) (limit : Z) : M Env (list JVal) :=
  with_locals []
    (try_except
       (let* response := outer (client_get client (bluesky_request limit)) in
        if (status_code response =? 200)%Z then
          let* data := lift_res (json response) in
          let* posts := lift_res (py_get data "posts" (JList [])) in
          let* posts := lift_res (py_iter posts) in
          for_each posts (fun post =>
            let* post := lift_res (py_setitem post "_source" (JStr "bluesky")) in
            local_modify (fun items => items ++ [post]))
        else ret tt)
       (fun e => ret tt) >>
     local_get).

(** [data if isinstance(data, list) else []] *)
Definition list_or_empty (data : JVal) : JVal :=
  match data with
  | JList _ => data
  | _ => JList []
  end.

(** The first [try] block: the posts of the platform's own API. *)
Definition fetch_posts (client : nat) (limit : Z) : M (Env * list JVal) unit :=
  try_except
    (let* response := outer (client_get client (posts_request limit)) in
     if (status_code response =? 200)%Z then
       let* data := lift_res (json response) in
       let* posts := lift_res (py_get data "posts" (list_or_empty data)) in
       let* posts := lift_res (py_iter posts) in
       for_each posts (fun post =>
         let* post := lift_res (py_setitem post "_source" (JStr "moltbook")) in
         local_modify (fun items => items ++ [post]))
     else ret tt)
    (fun e => ret tt).

Definition fetch_content (since : option Z) (limit : Z) : M Env (list JVal) :=
  with_locals []
    (async_with_client (fun client =>
       fetch_posts client limit >>
       try_except
         (let* twitter_items := outer (_fetch_twitter_ai_posts client (floordiv limit 2)) in
          local_modify (fun items => items ++ twitter_items))
         (fun e => ret tt) >>
       try_except
         (let* bluesky_items := outer (_fetch_bluesky_posts client (floordiv limit 2)) in
          local_modify (fun items => items ++ bluesky_items))
         (fun e => ret tt)) >>
     let* items := local_get in
     ret (slice_to limit items)).

Section Parse.

Variable repr : JVal -> string.

Definition _parse_moltbook (data : JVal) : Res (option ContentCreate.t) :=
  res_bind (py_get data "agent_name" (JStr "unknown")) (fun agent_name =>
  res_bind (py_get data "author" agent_name) (fun author =>
  res_bind (py_get data "content" (JStr "")) (fun content =>
  res_bind (py_slice_to 100 content) (fun head =>
  res_bind (py_get data "title" head) (fun title =>
  res_bind (py_get data "body" (JStr "")) (fun body =>
  res_bind (py_get data "content" body) (fun content =>
  res_bind (py_get data "link" (JStr "")) (fun link =>
  res_bind (py_get data "url" link) (fun url =>
  res_bind (py_slice_to 500 content) (fun description =>
  res_bind (py_get data "tags" (JList [JStr "agent"; JStr "post"])) (fun tags =>
  res_bind (validate_str title) (fun title =>
  res_bind (validate_opt_str description) (fun description =>
  res_bind (validate_opt_str url) (fun url =>
  res_bind (validate_opt_tags tags) (fun tags =>
  Ok (Some
    {| ContentCreate.agent_id_external := "moltbook:" +:+ WebSearch.format repr author;
       ContentCreate.content_type := "post";
       ContentCreate.title := title;
       ContentCreate.description := description;
       ContentCreate.content := None;
       ContentCreate.content_url := url;
       ContentCreate.thumbnail_url := None;
       ContentCreate.source_platform := Some "moltbook"%string;
       ContentCreate.source_url := url;
       ContentCreate.tags := tags;
       ContentCreate.categories := Some [];
       ContentCreate.language := None;
       ContentCreate.license := None |})))))))))))))))).

Definition _parse_bluesky (data : JVal) : Res (option ContentCreate.t) :=
  res_bind (py_get data "record" (JDict [])) (fun record =>
  res_bind (py_get data "author" (JDict [])) (fun author =>
  res_bind (py_get author "handle" (JStr "unknown")) (fun author =>
  res_bind (py_get record "text" (JStr "")) (fun text =>
  res_bind (if truthy text then py_slice_to 100 text else Ok (JStr "Bluesky post"))
    (fun title =>
  res_bind (py_slice_to 500 text) (fun description =>
  let url := "https://bsky.app/profile/" +:+ WebSearch.format repr author in
  res_bind (validate_str title) (fun title =>
  res_bind (validate_opt_str description) (fun description =>
  Ok (Some
    {| ContentCreate.agent_id_external := "bluesky:" +:+ WebSearch.format repr author;
       ContentCreate.content_type := "post";
       ContentCreate.title := title;
       ContentCreate.description := description;
       ContentCreate.content := None;
       ContentCreate.content_url := Some url;
       ContentCreate.thumbnail_url := None;
       ContentCreate.source_platform := Some "bluesky"%string;
       ContentCreate.source_url := Some url;
       ContentCreate.tags := Some ["bluesky"; "social"; "agent"]%string;
       ContentCreate.categories := Some [];
       ContentCreate.language := None;
       ContentCreate.license := None |}))))))))).

Definition _parse_twitter (data : JVal) : Res (option ContentCreate.t) :=
  res_bind (py_get data "author" (JStr "unknown")) (fun author =>
  res_bind (py_get data "text" (JStr "")) (fun text =>
  res_bind (py_get data "content" text) (fun content =>
  res_bind (py_get data "url" (JStr ("https://x.com/" +:+ WebSearch.format repr author)))
    (fun url =>
  res_bind (if truthy content then py_slice_to 100 content
            else Ok (JStr ("Post by @" +:+ WebSearch.format repr author))) (fun title =>
  res_bind (py_slice_to 500 content) (fun description =>
  res_bind (validate_str title) (fun title =>
  res_bind (validate_opt_str description) (fun description =>
  res_bind (validate_opt_str url) (fun url =>
  Ok (Some
    {| ContentCreate.agent_id_external := "twitter:" +:+ WebSearch.format repr author;
       ContentCreate.content_type := "post";
       ContentCreate.title := title;
       ContentCreate.description := description;
       ContentCreate.content := None;
       ContentCreate.content_url := url;
       ContentCreate.thumbnail_url := None;
       ContentCreate.source_platform := Some "twitter"%string;
       ContentCreate.source_url := url;
       ContentCreate.tags := Some ["twitter"; "social"; "ai"]%string;
       ContentCreate.categories := Some [];
       ContentCreate.language := None;
       ContentCreate.license := None |})))))))))).

Definition parse_content (raw_data : JVal) : Res (option ContentCreate.t) :=
  if negb (truthy raw_data) then Ok None else
  res_bind (py_get raw_data "_source" (JStr "moltbook")) (fun source =>
  if eq_str source "bluesky" then _parse_bluesky raw_data
  else if eq_str source "twitter" then _parse_twitter raw_data
  else _parse_moltbook raw_data).

End Parse.

End MoltbookIndexer.

(* ===================================================================== *)
(** ** [app/indexers/huggingface.py]: [HuggingFaceIndexer] *)
(* ===================================================================== *)

Module HuggingFaceIndexer.
Import Http Values.

Definition base_url : string := "https://huggingface.co/api".

Definition listing_request (kind : string) (limit : Z) : Request :=
  {| url := base_url +:+ "/" +:+ kind;
     params := [("limit", JNum limit); ("full", JStr "true"); ("sort", JStr "downloads");
                ("direction", JStr "-1")] |}.

(** One of the two [try] blocks: a listing is fetched and every record of
    it is marked with its content type. *)
Definition fetch_listing (client : nat) (kind content_type : string) (limit : Z)
  : M (Env * list JVal) unit :=
  try_except
    (let* response := outer (client_get client (listing_request kind limit)) in
     if (status_code response =? 200)%Z then
       let* records := lift_res (json response) in
       let* records := lift_res (py_iter records) in
       for_each records (fun record =>
         let* record := lift_res (py_setitem record "_content_type" (JStr content_type)) in
         local_modify (fun items => items ++ [record]))
     else ret tt)
    (fun e => ret tt).

Definition fetch_content (since : option Z) (limit : Z) : M Env (list JVal) :=
  with_locals []
    (async_with_client (fun client =>
       fetch_listing client "models" "model" limit >>
       fetch_listing client "datasets" "dataset" (floordiv limit 2)) >>
     let* items := local_get in
     ret (slice_to limit items)).

Section Parse.

(** From the Python library: [repr], and [str.title]. *)
Variable repr : JVal -> string.
Variable title_case : string -> string.

(** [x.title()]: only a string has the method. *)
Definition py_title (x : JVal) : Res string :=
  match x with
  | JStr s => Ok (title_case s)
  | _ => Raise "AttributeError: object has no attribute 'title'"
  end.

Definition parse_content (raw_data : JVal) : Res (option ContentCreate.t) :=
  if negb (truthy raw_data) then Ok None else
  res_bind (py_get raw_data "id" (JStr "")) (fun model_id =>
  res_bind (py_get raw_data "_content_type" (JStr "model")) (fun content_type =>
  res_bind (py_get raw_data "author" (JStr "unknown")) (fun author =>
  let url :=
    if eq_str content_type "dataset"
    then "https://huggingface.co/datasets/" +:+ WebSearch.format repr model_id
    else "https://huggingface.co/" +:+ WebSearch.format repr model_id in
  res_bind (py_get raw_data "tags" (JList [])) (fun tags =>
  res_bind (py_slice_to 10 tags) (fun tags =>
  let tags := if negb (truthy tags) then JList [content_type; JStr "ai"] else tags in
  res_bind (py_get raw_data "cardData" (JDict [])) (fun card_data =>
  res_bind (py_get card_data "description" (JStr "")) (fun description =>
  res_bind (if truthy description then Ok description
            else py_get raw_data "description" (JStr "")) (fun description =>
  res_bind (if truthy description then py_slice_to 500 description
            else res_bind (py_title content_type) (fun kind =>
                 Ok (JStr (kind +:+ " by " +:+ WebSearch.format repr author))))
    (fun description =>
  res_bind (py_get card_data "license" JNull) (fun license =>
  res_bind (validate_str content_type) (fun content_type =>
  res_bind (validate_str model_id) (fun title =>
  res_bind (validate_opt_str description) (fun description =>
  res_bind (validate_opt_tags tags) (fun tags =>
  res_bind (validate_opt_str license) (fun license =>
  Ok (Some
    {| ContentCreate.agent_id_external := "huggingface:" +:+ WebSearch.format repr author;
       ContentCreate.content_type := content_type;
       ContentCreate.title := title;
       ContentCreate.description := description;
       ContentCreate.content := None;
       ContentCreate.content_url := Some url;
       ContentCreate.thumbnail_url := None;
       ContentCreate.source_platform := Some "huggingface"%string;
       ContentCreate.source_url := Some url;
       ContentCreate.tags := tags;
       ContentCreate.categories := Some [content_type];
       ContentCreate.language := None;
       ContentCreate.license := license |})))))))))))))))).

End Parse.

End HuggingFaceIndexer.

(* ===================================================================== *)
(** ** [app/indexers/civitai.py]: [CivitaiIndexer.fetch_content] *)
(* ===================================================================== *)

Module CivitaiIndexer.
Import Http.

Definition base_url : string := "https://civitai.com/api/v1".

Definition models_request (limit : Z) : Request :=
  {| url := base_url +:+ "/models";
     params := [("limit", JNum limit); ("sort", JStr "Newest")] |}.

(** [items] is rebound to what the reply holds under [items], whatever it
    is, and returned as it is. *)
Definition fetch_content (since : option Z) (limit : Z) : M Env JVal :=
  with_locals (JList [])
    (async_with_client (fun client =>
       try_except
         (let* response := outer (client_get client (models_request limit)) in
          if (status_code response =? 200)%Z then
            let* data := lift_res (json response) in
            let* items := lift_res (py_get data "items" (JList [])) in
            local_modify (fun _ => items)
          else ret tt)
         (fun e => ret tt)) >>
     local_get).

End CivitaiIndexer.

(* ===================================================================== *)
(** ** [app/services/search.py]: [SearchService] *)
(* ===================================================================== *)

Module SearchService.
Import Db.

(** [await self.db.refresh(obj)]: one more query, which reloads the row. *)
Definition refresh : M Db unit := db_step OpExecute.

(** [create_agent(AgentCreate(agent_id=..., name=...))]: the other fields of
    the schema keep their defaults. *)
Definition create_agent (agent_id name : string) : M Db Agent.t :=
  let* db_agent := add_agent agent_id name in
  commit >>
  refresh >>
  ret db_agent.

Definition get_or_create_agent (agent_id name : string) : M Db Agent.t :=
  let* rows := select_agent agent_id in
  let* agent := lift_res (scalar_one_or_none rows) in
  match agent with
  | Some a => ret a
  | None => create_agent agent_id name
  end.

Definition create_content (content : ContentCreate.t) : M Db AgentContent.t :=
  let* rows := select_agent (ContentCreate.agent_id_external content) in
  let* agent := lift_res (scalar_one_or_none rows) in
  let* agent :=
    match agent with
    | Some a => ret a
    | None => create_agent (ContentCreate.agent_id_external content)
                (ContentCreate.agent_id_external content)
    end in
  let* db_content := add_content content (Agent.id agent) in
  set_total_creations (Agent.id agent)
    (Some (Base.or_zero (Agent.total_creations agent) + 1)) >>
  commit >>
  refresh >>
  ret db_content.

(** [SearchQuery]: the fields of the query that page the result;
    [page >= 1] and [1 <= page_size <= 100] are checked when it is built. *)
Record Paging : Type := {
  page : nat;
  page_size : nat
}.

Section Search.

(** The rows that the statement of [search_content] selects in a store, in
    its order, before [offset] and [limit] are applied: the filter and the
    sort are evaluated by the database. *)
Variable selected : Store -> list AgentContent.t.

(** [search_content]: the number of selected rows, and the rows of the
    page. *)
Definition search_content (query : Paging)
  : M Db (list AgentContent.t * nat) :=
  db_step OpExecute >>
  let* total := gets (fun d => length (selected (session d))) in
  db_step OpExecute >>
  let* rows := gets (fun d =>
    take (page_size query) (drop ((page query - 1) * page_size query)
                              (selected (session d)))) in
  ret (rows, total).

End Search.

End SearchService.

(* ===================================================================== *)
(** ** [app/api/entities.py]: the admin endpoints *)
(* ===================================================================== *)

Module Api.
Import Scheduler.

Definition valid_platforms : list string :=
  ["websearch"; "dynamic"; "moltbook"; "github"; "huggingface"; "civitai";
   "reddit"; "arxiv"; "youtube"].

(** The body [{"platform": ..., "status": ..., "result": ...}] *)
Record IndexReply : Type := {
  platform : string;
  status : string;
  result : RunResult
}.

(** [raise HTTPException(status_code=400, detail=...)]; the detail shows the
    list of platforms as Python prints it. *)
Definition invalid_platform : Exn :=
  "400: Invalid platform. Choose from: ['websearch', 'dynamic', 'moltbook', 'github', 'huggingface', 'civitai', 'reddit', 'arxiv', 'youtube']".

(** [POST /admin/index/{platform}]; the framework has checked
    [1 <= limit <= 200] before the body runs. *)
Definition trigger_index (I : Indexers) (platform : string) (limit : Z)
  : M Sched IndexReply :=
  if negb (bool_decide (platform ∈ valid_platforms)) then raise invalid_platform
  else
    let* result := run_indexer I platform limit in
    ret {| platform := platform; status := "completed"; result := result |}.

(** The fields of [SearchResult] that the paging decides. *)
Record SearchResult : Type := {
  rows : list AgentContent.t;
  total : nat;
  total_pages : nat
}.

(** [(total + page_size - 1) // page_size if total > 0 else 0] *)
Definition pages (total page_size : nat) : nat :=
  if 0 <? total then (total + page_size - 1) / page_size else 0.

(** [GET /search] *)
Definition search (selected : Db.Store -> list AgentContent.t)
    (page page_size : nat) : M Db.Db SearchResult :=
  let* '(found, total) :=
    SearchService.search_content selected
      {| SearchService.page := page; SearchService.page_size := page_size |} in
  ret {| rows := found; total := total; total_pages := pages total page_size |}.

(** The body [{"status": ..., "results": ...}] *)
Record IndexAllReply : Type := {
  all_status : string;
  results : gmap string RunResult
}.

(** [POST /admin/index-all] *)
Definition trigger_index_all (I : Indexers) (limit : Z) : M Sched IndexAllReply :=
  let* result := run_all_indexers I limit in
  ret {| all_status := "completed"; results := result |}.

End Api.

(* ===================================================================== *)
(** ** Specifications *)
(* ===================================================================== *)

(** [m] keeps the invariant [I] of the state, whether it returns or raises. *)
Definition preserves {S A} (I : S -> Prop) (m : M S A) : Prop :=
  forall s, I s -> I (m s).2.

(** Whatever [m] returns satisfies [Q]. *)
Definition returns_only {S A} (Q : A -> Prop) (m : M S A) : Prop :=
  forall s a s', m s = (Ok a, s') -> Q a.

(** [m] never raises. *)
Definition total {S A} (m : M S A) : Prop :=
  forall s, exists a s', m s = (Ok a, s').

(** No operation on the database fails. *)
Definition no_faults (d : Db.Db) : Prop :=
  forall op n, Db.fault d op n = false.

(** [await db.rollback()] does not itself fail. *)
Definition rollback_works (d : Db.Db) : Prop :=
  forall n, Db.fault d Db.OpRollback n = false.

(** The unique constraint on [agents.agent_id]. *)
Definition unique_agents (s : Db.Store) : Prop :=
  NoDup (Agent.agent_id <$> Db.agents s).

(** What a successful [index_content] of item [c] makes of the session:
    the agent is the row found under the item's agent id, or a new row; its
    counter goes up by one; the item's row is added. *)
Definition written (c : ContentCreate.t) (s : Db.Store) : Db.Store :=
  let row pk :=
    Db.new_content c pk (Db.fresh_id (AgentContent.id <$> Db.contents s)) in
  match Db.rows_of_agent (ContentCreate.agent_id_external c) s with
  | [] =>
      let ag := Db.new_agent (ContentCreate.agent_id_external c)
                  (ContentCreate.agent_id_external c) (Db.agents s) in
      {| Db.agents :=
           Db.with_total_creations (Agent.id ag)
             (Some (Base.or_zero (Agent.total_creations ag) + 1))
           <$> (Db.agents s ++ [ag]);
         Db.contents := Db.contents s ++ [row (Agent.id ag)] |}
  | ag :: _ =>
      {| Db.agents :=
           Db.with_total_creations (Agent.id ag)
             (Some (Base.or_zero (Agent.total_creations ag) + 1))
           <$> Db.agents s;
         Db.contents := Db.contents s ++ [row (Agent.id ag)] |}
  end.

(** Item [c] is no duplicate in store [s]: it has no source URL, or no row
    has that URL. *)
Definition not_duplicate (c : ContentCreate.t) (s : Db.Store) : Prop :=
  match ContentCreate.source_url c with
  | Some u => u = ""%string \/ Db.rows_with_url u s = []
  | None => True
  end.

(** The source URL of an item as the duplicate check sees it: [None] and
    the empty string are no URL. *)
Definition checked_url (c : ContentCreate.t) : option string :=
  match ContentCreate.source_url c with
  | Some u => if String.eqb u "" then None else Some u
  | None => None
  end.

(** The items [cs] are new to store [s]: their URLs are not in [s] and
    differ from each other. *)
Definition new_urls (cs : list ContentCreate.t) (s : Db.Store) : Prop :=
  NoDup (omap checked_url cs) /\
  forall u, u ∈ omap checked_url cs -> Db.rows_with_url u s = [].

(** Raw records that [parse_content] turns into the given items. *)
Definition parses_to (self : Base.Indexer) (raws : list JVal)
    (cs : list ContentCreate.t) : Prop :=
  Forall2 (fun raw c => Base.parse_content self raw = Ok (Some c)) raws cs.

(** The counters after one more item indexed, skipped, failed. *)
Definition one_more_indexed (st : Base.Stats) : Base.Stats :=
  {| Base.indexed := Base.indexed st + 1; Base.skipped := Base.skipped st;
     Base.errors := Base.errors st |}.

Definition one_more_skipped (st : Base.Stats) : Base.Stats :=
  {| Base.indexed := Base.indexed st; Base.skipped := Base.skipped st + 1;
     Base.errors := Base.errors st |}.

Definition one_more_error (st : Base.Stats) : Base.Stats :=
  {| Base.indexed := Base.indexed st; Base.skipped := Base.skipped st;
     Base.errors := Base.errors st + 1 |}.

(** [row] is the row written for item [c]. *)
Definition stores_item (row : AgentContent.t) (c : ContentCreate.t) : Prop :=
  exists agent_id id, row = Db.new_content c agent_id id.

(** The events of [e'] that came after those of [e]. *)
Definition new_events (e e' : Http.Env) : list Http.Event :=
  drop (length (Http.log e)) (Http.log e').

(** [e'] is [e] after some more events, all of which satisfy [P]. *)
Definition extends_by (P : Http.Event -> Prop) (e e' : Http.Env) : Prop :=
  exists evs, Http.log e' = Http.log e ++ evs /\ Forall P evs.

(** An event that is no request to anything but the search API. *)
Definition duckduckgo_only (ev : Http.Event) : Prop :=
  match ev with
  | Http.Sent _ r => Http.url r = "https://api.duckduckgo.com/"
  | Http.Slept _ => True
  end.

(** A raw record made by [_search_duckduckgo]. *)
Definition is_search_item (v : JVal) : Prop :=
  exists title url description query,
    v = WebSearch.search_item title url description query.

(** The requests a run of [fetch] from [e] sends, in order. *)
Definition requests_of {A} (fetch : M Http.Env A) (e : Http.Env) : list Http.Request :=
  Http.requests (new_events e (fetch e).2).

(** The reply to the [i]-th request of a run that starts in [e]. *)
Definition reply_to (e : Http.Env) (i : nat) (r : Http.Request) : Res Http.Response :=
  Http.upstream e (Http.sent e + i) r.

Definition has_status (code : Z) (reply : Res Http.Response) : Prop :=
  exists response, reply = Ok response /\ Http.status_code response = code.

(** A collector stops on the status codes [codes]: in every run, a request
    answered with one of them is the last request of the run. *)
Definition stops_on {A} (codes : list Z) (fetch : M Http.Env A) : Prop :=
  forall e i r code,
    requests_of fetch e !! i = Some r ->
    code ∈ codes ->
    has_status code (reply_to e i r) ->
    length (requests_of fetch e) = S i.

(** The world after an open client has sent [r]. *)
Definition after_get (c : nat) (r : Http.Request) (e : Http.Env) : Http.Env :=
  {| Http.upstream := Http.upstream e;
     Http.log := Http.log e ++ [Http.Sent c r];
     Http.sent := S (Http.sent e);
     Http.next_client := Http.next_client e;
     Http.opened := Http.opened e;
     Http.clock := Http.clock e |}.

(** What the loop of a collector does after a reply, when it stops on
    [code]: a 200 is read and the loop goes on, [code] ends the loop, and
    anything else, an exception included, is passed over. *)
Definition flow_of (code : Z) (reply : Res Http.Response) : Flow :=
  match reply with
  | Ok response =>
      if (Http.status_code response =? 200)%Z then Next
      else if (Http.status_code response =? code)%Z then Break
      else Next
  | Raise _ => Next
  end.

(** The shape the Reddit and GitHub collectors share: inside an
    [async with] block, a loop with [break] over a list, then
    [return items[:limit]]. *)
Definition loop_collector {X} (body : nat -> X -> M (Http.Env * list JVal) Flow)
    (limit : Z) (xs : list X) : M Http.Env (list JVal) :=
  with_locals []
    (Http.async_with_client (fun client => for_each_break xs (body client)) >>
     let* items := local_get in
     ret (slice_to limit items)).

(** *** Worlds to run the collectors in *)

Definition quiet (upstream : nat -> Http.Request -> Res Http.Response) : Http.Env :=
  {| Http.upstream := upstream; Http.log := []; Http.sent := 0;
     Http.next_client := 0; Http.opened := []; Http.clock := 0 |}.

Definition reddit_post (id : string) : JVal :=
  JDict [("data", JDict [("id", JStr id); ("title", JStr ("An AI agent " +:+ id))])].

Definition reddit_listing (posts : list JVal) : Http.Response :=
  {| Http.status_code := 200;
     Http.json := Ok (JDict [("data", JDict [("children", JList posts)])]);
     Http.text := "" |}.

Definition status_only (code : Z) : Http.Response :=
  {| Http.status_code := code; Http.json := Raise "JSONDecodeError"; Http.text := "" |}.

(** Two subreddits answer with three posts each, the others with none. *)
Definition two_by_three : Http.Env :=
  quiet (fun n _ =>
           if n <? 2
           then Ok (reddit_listing [reddit_post "a"; reddit_post "b"; reddit_post "c"])
           else Ok (reddit_listing [])).

(** Every request is answered with the given status. *)
Definition always (code : Z) : Http.Env := quiet (fun _ _ => Ok (status_only code)).

(** The second request is answered with [code], the others with one post. *)
Definition second_is (code : Z) : Http.Env :=
  quiet (fun n _ =>
           if n =? 1 then Ok (status_only code)
           else Ok (reddit_listing [reddit_post "a"])).

(** Store [s'] holds what [s] holds and maybe more: the content rows of [s]
    are the first content rows of [s'], and likewise the agents, by their
    external ids. *)
Definition store_extends (s s' : Db.Store) : Prop :=
  Db.contents s `prefix_of` Db.contents s' /\
  (Agent.agent_id <$> Db.agents s) `prefix_of` (Agent.agent_id <$> Db.agents s').

(** A database that holds what store [s0] holds: its committed rows extend
    [s0], and its session extends its committed rows. *)
Definition keeps_store (s0 : Db.Store) (d : Db.Db) : Prop :=
  store_extends s0 (Db.durable d) /\ store_extends (Db.durable d) (Db.session d).

(** The scheduler after the pause of [run_all_indexers]. *)
Definition paused (s : Scheduler.Sched) : Scheduler.Sched :=
  (Scheduler.on_world (Http.sleep 2000) s).2.

(** The scheduler when the next source starts: after the pause if the
    source returned, at once if it raised. *)
Definition next_start (r : Res Scheduler.RunResult) (s : Scheduler.Sched)
  : Scheduler.Sched :=
  match r with
  | Ok _ => paused s
  | Raise _ => s
  end.

(** The entry [run_all_indexers] records for a source. *)
Definition entry_of (r : Res Scheduler.RunResult) : Scheduler.RunResult :=
  match r with
  | Ok result => result
  | Raise e => Scheduler.ErrorEntry e
  end.

(** *** Indexers, catalogs and schedulers to run the pipeline on *)

(** An indexer whose [fetch_content] raises, as when its upstream client
    cannot be set up. *)
Definition failing_indexer (id msg : string) : Base.Indexer :=
  {| Base.platform_id := id;
     Base.platform_name := id;
     Base.fetch_content := fun _ _ => raise msg;
     Base.parse_content := fun _ => Ok None |}.

(** An indexer whose upstream answers with the records [raws] at every
    fetch, parsed as web search results. *)
Definition replaying_indexer (id : string) (raws : list JVal) : Base.Indexer :=
  {| Base.platform_id := id;
     Base.platform_name := id;
     Base.fetch_content := fun _ _ => ret raws;
     Base.parse_content := WebSearch.parse_content (fun u => Ok u) (fun _ => ""%string) |}.

Definition search_result (title url : string) : JVal :=
  WebSearch.search_item (JStr title) (JStr url) (JStr "") "AI agent".

(** A record whose [url] is a number: [parse_content] raises on it. *)
Definition malformed_result : JVal :=
  JDict [("title", JStr "broken"); ("url", JNum 7)].

(** A record with neither [title] nor [url]. *)
Definition anonymous_result : JVal :=
  JDict [("description", JStr "no title, no url")].

Definition batch_of_five : list JVal :=
  [search_result "one" "https://example.org/1";
   search_result "two" "https://example.org/2";
   malformed_result;
   search_result "four" "https://github.com/a/4";
   search_result "five" "https://example.org/5"].

(** The item [parse_content] makes of [search_result title url]. *)
Definition found_item (title url content_type : string) : ContentCreate.t :=
  {| ContentCreate.agent_id_external := "web:" +:+ url;
     ContentCreate.content_type := content_type;
     ContentCreate.title := title;
     ContentCreate.description := Some "Found via search: AI agent"%string;
     ContentCreate.content := None;
     ContentCreate.content_url := Some url;
     ContentCreate.thumbnail_url := None;
     ContentCreate.source_platform := Some url;
     ContentCreate.source_url := Some url;
     ContentCreate.tags := Some ["AI agent"%string; "duckduckgo"%string; content_type];
     ContentCreate.categories := Some [];
     ContentCreate.language := None;
     ContentCreate.license := None |}.

(** A post of agent [agent]. *)
Definition post_by (agent title url : string) : ContentCreate.t :=
  {| ContentCreate.agent_id_external := agent;
     ContentCreate.content_type := "post";
     ContentCreate.title := title;
     ContentCreate.description := None;
     ContentCreate.content := None;
     ContentCreate.content_url := Some url;
     ContentCreate.thumbnail_url := None;
     ContentCreate.source_platform := Some "reddit"%string;
     ContentCreate.source_url := Some url;
     ContentCreate.tags := Some ["reddit"%string];
     ContentCreate.categories := Some [];
     ContentCreate.language := None;
     ContentCreate.license := None |}.

Definition empty_store : Db.Store := {| Db.agents := []; Db.contents := [] |}.

(** A database with nothing in it, whose operations fail as [fault] says. *)
Definition empty_db (fault : Db.DbOp -> nat -> bool) : Db.Db :=
  {| Db.durable := empty_store; Db.session := empty_store;
     Db.ops := 0; Db.fault := fault |}.

Definition reliable : Db.DbOp -> nat -> bool := fun _ _ => false.

(** The [n]-th operation on the database fails if it opens a session. *)
Definition open_fails_at (n : nat) : Db.DbOp -> nat -> bool :=
  fun op k => match op with Db.OpOpen => k =? n | _ => false end.

(** The [n]-th operation on the database fails if it is a rollback. *)
Definition rollback_fails_at (n : nat) : Db.DbOp -> nat -> bool :=
  fun op k => match op with Db.OpRollback => k =? n | _ => false end.

Definition offline : Http.Env := quiet (fun _ _ => Raise "ConnectError").

(** A new indexer object over an empty catalog. *)
Definition new_indexer_object : Base.Self :=
  {| Base.env := offline; Base.db := empty_db reliable; Base.stats := Base.zero_stats |}.

(** The nine indexers: GitHub, Reddit and arXiv find one repository, one
    post and nothing; the arXiv indexer can be replaced. *)
Definition indexers_with (arxiv : Base.Indexer) : Scheduler.Indexers :=
  {| Scheduler.GitHubIndexer :=
       replaying_indexer "github" [search_result "repo" "https://github.com/a/repo"];
     Scheduler.HuggingFaceIndexer := replaying_indexer "huggingface" [];
     Scheduler.CivitaiIndexer := replaying_indexer "civitai" [];
     Scheduler.YouTubeIndexer := replaying_indexer "youtube" [];
     Scheduler.RedditIndexer :=
       replaying_indexer "reddit" [search_result "post" "https://reddit.com/r/x/1"];
     Scheduler.ArxivIndexer := arxiv;
     Scheduler.DynamicWebIndexer := replaying_indexer "dynamic" [];
     Scheduler.MoltbookIndexer := replaying_indexer "moltbook" [];
     Scheduler.WebSearchIndexer := replaying_indexer "websearch" batch_of_five |}.

(** A scheduler that has run nothing yet, over an empty catalog. *)
Definition new_scheduler (fault : Db.DbOp -> nat -> bool) : Scheduler.Sched :=
  {| Scheduler.last_run := ∅; Scheduler.world := offline;
     Scheduler.database := empty_db fault |}.

(** *** Accounting *)

(** A raw record a run accounts for: [parse_content] makes an item of it, or
    raises on it. *)
Definition counted (self : Base.Indexer) (raw : JVal) : bool :=
  match Base.parse_content self raw with
  | Ok None => false
  | _ => true
  end.

(** The records the counters account for. *)
Definition handled (st : Base.Stats) : nat :=
  Base.indexed st + Base.skipped st + Base.errors st.

(** The content rows attributed to the agent with primary key [pk]. *)
Definition creations_of (pk : nat) (s : Db.Store) : nat :=
  length (filter (fun c => AgentContent.agent_id c = pk) (Db.contents s)).

(** A store whose denormalized counters are right: primary keys of agents
    are unique, every agent's [total_creations] is the number of content rows
    attributed to it, and every content row belongs to an agent of the
    store. *)
Definition counters_agree (s : Db.Store) : Prop :=
  NoDup (Agent.id <$> Db.agents s) /\
  (forall a, a ∈ Db.agents s ->
     Base.or_zero (Agent.total_creations a) = creations_of (Agent.id a) s) /\
  (forall c, c ∈ Db.contents s ->
     AgentContent.agent_id c ∈ Agent.id <$> Db.agents s).

(** Both views of a database have right counters. *)
Definition consistent (d : Db.Db) : Prop :=
  counters_agree (Db.session d) /\ counters_agree (Db.durable d).

(** No session is open: nothing is pending. *)
Definition at_rest (d : Db.Db) : Prop := Db.session d = Db.durable d.

(** An indexer object over a catalog that holds the same post twice under
    one agent, as two posts of it to the API leave it. *)
Definition posted_twice : Base.Self :=
  let c := post_by "reddit:alice" "first" "https://reddit.com/r/x/1" in
  let s := {| Db.agents := [{| Agent.id := 1; Agent.agent_id := "reddit:alice";
                               Agent.name := "reddit:alice";
                               Agent.total_creations := Some 2 |}];
              Db.contents := [Db.new_content c 1 1; Db.new_content c 1 2] |} in
  {| Base.env := offline;
     Base.db := {| Db.durable := s; Db.session := s; Db.ops := 0; Db.fault := reliable |};
     Base.stats := Base.zero_stats |}.

(** The platform names [get_indexer] has an indexer for. *)
Definition registered : list string :=
  ["github"; "huggingface"; "civitai"; "youtube"; "reddit"; "arxiv"; "dynamic";
   "moltbook"; "websearch"].

(** The world after a client has been opened in [e]. *)
Definition after_open (e : Http.Env) : Http.Env :=
  {| Http.upstream := Http.upstream e; Http.log := Http.log e;
     Http.sent := Http.sent e; Http.next_client := S (Http.next_client e);
     Http.opened := Http.next_client e :: Http.opened e;
     Http.clock := Http.clock e |}.

(** A reply that is a response with another status than 200. *)
Definition not_ok (reply : Res Http.Response) : bool :=
  match reply with
  | Ok response => negb (Http.status_code response =? 200)%Z
  | Raise _ => false
  end.

(** A raw record marked as coming from [source]. *)
Definition from_source (source : string) (item : JVal) : Prop :=
  exists d, item = JDict d /\ assoc_get d "_source" = Some (JStr source).

(** Lower case of the letters A to Z, as [str.lower] acts on ASCII text. *)
Definition ascii_lower (s : string) : string :=
  string_of_list_ascii
    (map (fun c => let n := nat_of_ascii c in
                   if (65 <=? n) && (n <=? 90) then ascii_of_nat (n + 32) else c)
       (list_ascii_of_string s)).

(** A Reddit post as [fetch_content] hands it on, without a permalink. *)
Definition reddit_record (id title : string) : JVal :=
  JDict [("id", JStr id); ("title", JStr title); ("selftext", JStr "");
         ("author", JStr "alice"); ("_subreddit", JStr "LocalLLaMA")].

(** A repository as the GitHub search returns it, without its URL. *)
Definition github_record (name : string) (topics : list JVal) : JVal :=
  JDict [("name", JStr name); ("owner", JDict [("login", JStr "alice")]);
         ("topics", JList topics)].

(** The sources the dynamic collector parses. *)
Definition dynamic_sources : list string := ["hackernews"; "devto"; "medium"].

(** The content types the web search assigns. *)
Definition websearch_types : list string :=
  ["video"; "code"; "research"; "document"; "post"].

(** Hacker News answering with three story ids, then with a story about an
    AI agent for each id. *)
Definition hackernews_world : Http.Env :=
  quiet (fun n _ =>
           if n =? 0
           then Ok {| Http.status_code := 200;
                      Http.json := Ok (JList [JNum 1; JNum 2; JNum 3]);
                      Http.text := "" |}
           else Ok {| Http.status_code := 200;
                      Http.json := Ok (JDict [("title", JStr "My AI Agent");
                                              ("url", JStr "https://example.org/a")]);
                      Http.text := "" |}).

(** The rows of a search reply; none when the search raised. *)
Definition rows_of (r : Res Api.SearchResult * Db.Db) : list AgentContent.t :=
  match r.1 with
  | Ok reply => Api.rows reply
  | Raise _ => []
  end.

(** A raw record marked with the content type [content_type]. *)
Definition of_content_type (content_type : string) (item : JVal) : Prop :=
  exists d, item = JDict d /\ assoc_get d "_content_type" = Some (JStr content_type).

(** The record [d] after [d[key] = value]. *)
Definition marked (key value : string) (d : list (string * JVal)) : JVal :=
  JDict (assoc_set d key (JStr value)).

(** A listing of [n] records, as the Hugging Face API answers. *)
Definition hub_listing (n : nat) : Http.Response :=
  {| Http.status_code := 200;
     Http.json := Ok (JList (JDict <$> replicate n [("id", JStr "org/name")]));
     Http.text := "" |}.

(** The hub answering every request with a full listing: as many records
    as the [limit] parameter of the request asks for. *)
Definition hub_world : Http.Env :=
  quiet (fun n r =>
           match assoc_get (Http.params r) "limit" with
           | Some (JNum limit) => Ok (hub_listing (Z.to_nat limit))
           | _ => Ok (status_only 400)
           end).

(** The sources the Moltbook collector marks its records with. *)
Definition moltbook_sources : list string := ["moltbook"; "twitter"; "bluesky"].

(** A record marked with one of the sources [sources]. *)
Definition from_one_of (sources : list string) (item : JVal) : Prop :=
  exists source, source ∈ sources /\ from_source source item.

(** The platform answering the request for posts with a bare JSON list of
    two posts, and nothing else answering. *)
Definition bare_list_world : Http.Env :=
  quiet (fun n _ =>
           if n =? 0
           then Ok {| Http.status_code := 200;
                      Http.json := Ok (JList [JDict [("title", JStr "one")];
                                              JDict [("title", JStr "two")]]);
                      Http.text := "" |}
           else Raise "ConnectError").

(** The platform answering the request for posts with an object that holds
    two posts, and nothing else answering. *)
Definition posts_world : Http.Env :=
  quiet (fun n _ =>
           if n =? 0
           then Ok {| Http.status_code := 200;
                      Http.json := Ok (JDict [("posts",
                                               JList [JDict [("title", JStr "one")];
                                                      JDict [("title", JStr "two")]])]);
                      Http.text := "" |}
           else Raise "ConnectError").

(** Civitai answering every request with three models, whatever the limit
    asked for. *)
Definition three_models : list JVal :=
  [JDict [("id", JNum 1)]; JDict [("id", JNum 2)]; JDict [("id", JNum 3)]].

Definition civitai_world : Http.Env :=
  quiet (fun _ _ => Ok {| Http.status_code := 200;
                          Http.json := Ok (JDict [("items", JList three_models)]);
                          Http.text := "" |}).

(** Where the Hugging Face parser puts a record of the content type. *)
Definition hub_prefix (content_type : string) : string :=
  if String.eqb content_type "dataset" then "https://huggingface.co/datasets/"
  else "https://huggingface.co/".

(* ===================================================================== *)
(** * Properties *)
(* ===================================================================== *)

(** ** The monad *)

Section Preserves.
Context {S : Type} (I : S -> Prop).

Lemma preserves_ret {A} (a : A) : preserves I (ret a).
Proof. by intros s Hs. Qed.

Lemma preserves_lift_res {A} (r : Res A) : preserves I (lift_res r).
Proof. by intros s Hs. Qed.

Lemma preserves_gets {A} (f : S -> A) : preserves I (gets f).
Proof. by intros s Hs. Qed.

Lemma preserves_modify (f : S -> S) :
  (forall s, I s -> I (f s)) -> preserves I (modify f).
Proof. intros Hf s Hs. by apply Hf. Qed.

Lemma preserves_bind {A B} (m : M S A) (k : A -> M S B) :
  preserves I m -> (forall a, preserves I (k a)) -> preserves I (Py.bind m k).
Proof.
  intros Hm Hk s Hs. specialize (Hm s Hs). unfold Py.bind.
  destruct (m s) as [[a|e] s1]; [exact (Hk a s1 Hm) | exact Hm].
Qed.

Lemma preserves_try {A} (m : M S A) (h : Exn -> M S A) :
  preserves I m -> (forall e, preserves I (h e)) -> preserves I (try_except m h).
Proof.
  intros Hm Hh s Hs. specialize (Hm s Hs). unfold try_except.
  destruct (m s) as [[a|e] s1]; [exact Hm | exact (Hh e s1 Hm)].
Qed.

Lemma preserves_for_each {A} (l : list A) (body : A -> M S unit) :
  (forall x, preserves I (body x)) -> preserves I (for_each l body).
Proof.
  intros Hb. induction l as [|x l IH]; [apply preserves_ret|].
  apply preserves_bind; [apply Hb | intros _; apply IH].
Qed.

Lemma preserves_for_each_break {A} (l : list A) (body : A -> M S Flow) :
  (forall x, preserves I (body x)) -> preserves I (for_each_break l body).
Proof.
  intros Hb. induction l as [|x l IH]; [apply preserves_ret|].
  apply preserves_bind; [apply Hb | intros [|]; [apply IH | apply preserves_ret]].
Qed.

Lemma preserves_finally {A} (m : M S A) (fin : M S unit) :
  preserves I m -> preserves I fin -> preserves I (finally m fin).
Proof.
  intros Hm Hf s Hs. specialize (Hm s Hs). unfold finally.
  destruct (m s) as [r s1]. specialize (Hf s1 Hm).
  destruct (fin s1) as [[[]|e] s2]; exact Hf.
Qed.

End Preserves.

Lemma for_each_app {S A} (l1 l2 : list A) (body : A -> M S unit) s :
  for_each (l1 ++ l2) body s = (for_each l1 body >> for_each l2 body) s.
Proof.
  revert s. induction l1 as [|x l1 IH]; intros s; [reflexivity|].
  cbn [for_each app]. unfold Py.bind at 1 2 3.
  destruct (body x s) as [[[]|e] s1]; [|reflexivity].
  rewrite IH. reflexivity.
Qed.

(** *** Computations that never raise *)

Section Total.
Context {S : Type}.

Lemma total_ret {A} (a : A) : total (ret a : M S A).
Proof. intros s. by exists a, s. Qed.

Lemma total_bind {A B} (m : M S A) (k : A -> M S B) :
  total m -> (forall a, total (k a)) -> total (Py.bind m k).
Proof.
  intros Hm Hk s. destruct (Hm s) as (a & s1 & H1).
  destruct (Hk a s1) as (b & s2 & H2).
  exists b, s2. unfold Py.bind. by rewrite H1.
Qed.

Lemma total_try {A} (m : M S A) (h : Exn -> M S A) :
  (forall e, total (h e)) -> total (try_except m h).
Proof.
  intros Hh s. unfold try_except.
  destruct (m s) as [[a|e] s1]; [by exists a, s1 | apply Hh].
Qed.

Lemma total_gets {A} (f : S -> A) : total (gets f).
Proof. intros s. by exists (f s), s. Qed.

Lemma total_modify (f : S -> S) : total (modify f).
Proof. intros s. by exists tt, (f s). Qed.

Lemma total_for_each {A} (l : list A) (body : A -> M S unit) :
  (forall x, total (body x)) -> total (for_each l body).
Proof.
  intros Hb. induction l as [|x l IH]; [apply total_ret|].
  apply total_bind; [apply Hb | intros _; apply IH].
Qed.

Lemma total_for_each_break {A} (l : list A) (body : A -> M S Flow) :
  (forall x, total (body x)) -> total (for_each_break l body).
Proof.
  intros Hb. induction l as [|x l IH]; [apply total_ret|].
  apply total_bind; [apply Hb | intros [|]; [apply IH | apply total_ret]].
Qed.

Lemma total_finally {A} (m : M S A) (fin : M S unit) :
  total m -> total fin -> total (finally m fin).
Proof.
  intros Hm Hf s. destruct (Hm s) as (a & s1 & H1).
  destruct (Hf s1) as ([] & s2 & H2).
  exists a, s2. unfold finally. by rewrite H1, H2.
Qed.

Lemma total_outer {L A} (m : M S A) : total m -> total (outer m : M (S * L) A).
Proof.
  intros Hm [s l]. destruct (Hm s) as (a & s1 & H1).
  exists a, (s1, l). unfold outer, zoom. cbn. by rewrite H1.
Qed.

Lemma total_with_locals {L A} (init : L) (m : M (S * L) A) :
  total m -> total (with_locals init m).
Proof.
  intros Hm s. destruct (Hm (s, init)) as (a & [s1 l1] & H1).
  exists a, s1. unfold with_locals. by rewrite H1.
Qed.

Lemma total_gather {A} (tasks : list (M S A)) : total (gather tasks).
Proof.
  induction tasks as [|t ts IH]; [apply total_ret|].
  intros s. cbn [gather]. destruct (t s) as [r s1].
  destruct (IH s1) as (rs & s2 & H2).
  exists (r :: rs), s2. unfold Py.bind. by rewrite H2.
Qed.

(** A function that ends in [return f(items)] after a part that never
    raises returns [f] of some list. *)
Lemma with_locals_return {L A B} (init : L) (m : M (S * L) A) (f : L -> B) s :
  total m ->
  exists items s',
    with_locals init (m >> let* items := local_get in ret (f items)) s
    = (Ok (f items), s').
Proof.
  intros Hm. destruct (Hm (s, init)) as (a & [s1 l1] & H1).
  exists l1, s1. unfold with_locals, Py.bind. by rewrite H1.
Qed.

End Total.

(** ** Slices *)

Lemma slice_to_length {A} (limit : Z) (l : list A) :
  (0 <= limit)%Z -> (Z.of_nat (length (slice_to limit l)) <= limit)%Z.
Proof.
  intros H. unfold slice_to.
  destruct (Z.leb_spec 0 limit) as [_|?]; [|lia].
  rewrite length_take. lia.
Qed.

Lemma slice_to_all {A} (limit : Z) (l : list A) :
  (Z.of_nat (length l) <= limit)%Z -> slice_to limit l = l.
Proof.
  intros H. unfold slice_to.
  destruct (Z.leb_spec 0 limit) as [_|?]; [|lia].
  apply take_ge. lia.
Qed.

(** ** The collectors never raise *)

Lemma total_open_client : total Http.open_client.
Proof. intros e. by eexists _, _. Qed.

Lemma total_close_client c : total (Http.close_client c).
Proof. apply total_modify. Qed.

Lemma total_async_with_client {L A} (body : nat -> M (Http.Env * L) A) :
  (forall c, total (body c)) -> total (Http.async_with_client body).
Proof.
  intros Hb. unfold Http.async_with_client.
  apply total_bind; [apply total_outer, total_open_client|].
  intros c. apply total_finally; [apply Hb | apply total_outer, total_close_client].
Qed.

Lemma total_fetch_subreddit client limit subreddit :
  total (Reddit.fetch_subreddit client limit subreddit).
Proof. apply total_try. intros e. apply total_ret. Qed.

Lemma total_fetch_keyword strftime client since limit keyword :
  total (GitHub.fetch_keyword strftime client since limit keyword).
Proof. apply total_try. intros e. apply total_ret. Qed.

Lemma total_search_queries limit : total (WebSearch.search_queries limit).
Proof.
  apply total_async_with_client. intros c.
  apply total_bind; [|intros _; apply total_ret].
  apply total_for_each. intros q. apply total_try. intros e. apply total_ret.
Qed.

Lemma fetch_subreddits_returns subreddits limit e :
  exists items e',
    Reddit.fetch_subreddits subreddits limit e = (Ok (slice_to limit items), e').
Proof.
  apply with_locals_return, total_async_with_client. intros c.
  apply total_for_each_break. intros x. apply total_fetch_subreddit.
Qed.

Lemma fetch_keywords_returns strftime keywords since limit e :
  exists items e',
    GitHub.fetch_keywords strftime keywords since limit e
    = (Ok (slice_to limit items), e').
Proof.
  apply with_locals_return, total_async_with_client. intros c.
  apply total_for_each_break. intros x. apply total_fetch_keyword.
Qed.

Lemma dynamic_fetch_returns self since limit e :
  exists items e',
    Dynamic.fetch_content self since limit e = (Ok (slice_to limit items), e').
Proof.
  unfold Dynamic.fetch_content.
  destruct (total_gather
              [Dynamic._fetch_hackernews self (floordiv limit 4);
               Dynamic._fetch_devto self (floordiv limit 4);
               Dynamic._fetch_producthunt self (floordiv limit 4);
               Dynamic._fetch_medium self (floordiv limit 4)] e) as (rs & e' & H).
  exists (Dynamic.merge_results rs []), e'. unfold Py.bind. by rewrite H.
Qed.

(** ** The web search collector and its closed client *)

Lemma client_get_closed c r e :
  c ∉ Http.opened e ->
  Http.client_get c r e
  = (Raise "RuntimeError: Cannot send a request, as the client has been closed.", e).
Proof.
  intros H. unfold Http.client_get. by rewrite bool_decide_eq_false_2.
Qed.

(** Leaving the [async with] block closes the client it opened. *)
Lemma search_queries_closes limit s :
  exists client s',
    WebSearch.search_queries limit s = (Ok client, s') /\
    client ∉ Http.opened (fst s').
Proof.
  destruct s as [e items].
  unfold WebSearch.search_queries, Http.async_with_client.
  unfold Py.bind at 1. cbn [outer zoom Http.open_client fst snd].
  set (c := Http.next_client e). set (s1 := (_, items)).
  unfold finally, Py.bind at 1.
  destruct (total_for_each (take 5 WebSearch.SEARCH_QUERIES)
              (fun query =>
                 try_except
                   (let* search_items :=
                      outer (WebSearch._search_duckduckgo c query (floordiv limit 5)) in
                    local_modify (fun items => items ++ search_items) >>
                    outer (Http.sleep 500))
                   (fun e => ret tt))
              ltac:(intros q; apply total_try; intros ?; apply total_ret) s1)
    as ([] & [e2 items2] & H2).
  rewrite H2. cbn.
  eexists _, _. split; [reflexivity|]. cbn.
  rewrite list_elem_of_filter. tauto.
Qed.

(** On a closed client no feed is requested and no item is found: the
    function returns the empty list and leaves the world as it was. *)
Lemma discovery_feeds_closed client limit e :
  client ∉ Http.opened e ->
  WebSearch._fetch_discovery_feeds client limit e = (Ok [], e).
Proof.
  intros H. unfold WebSearch._fetch_discovery_feeds, with_locals.
  cbn [take WebSearch.feeds for_each].
  unfold Py.bind, try_except, outer, zoom. cbn [fst snd].
  repeat (rewrite client_get_closed by done; cbn).
  unfold slice_to. destruct (0 <=? limit)%Z; by rewrite take_nil.
Qed.

Lemma websearch_fetch_is_search_only since limit e :
  WebSearch.fetch_content since limit e = WebSearch.search_results_only since limit e.
Proof.
  unfold WebSearch.fetch_content, WebSearch.search_results_only, with_locals.
  unfold Py.bind at 1 5.
  destruct (search_queries_closes limit (e, [])) as (c & [e1 items] & -> & Hc).
  cbn [fst] in Hc.
  unfold Py.bind, try_except, outer, zoom. cbn [fst snd].
  rewrite discovery_feeds_closed by done. cbn.
  by rewrite app_nil_r.
Qed.

(** *** Invariants of a function with locals *)

Section Locals.
Context {S L : Type} (IS : S -> Prop) (IL : L -> Prop).

Lemma preserves_outer {A} (m : M S A) :
  preserves IS m -> preserves (fun sl => IS sl.1 /\ IL sl.2) (outer m : M (S * L) A).
Proof.
  intros Hm [s l] [Hs Hl]. specialize (Hm s Hs).
  unfold outer, zoom. cbn. destruct (m s) as [r s1]. by split.
Qed.

Lemma preserves_local_modify (f : L -> L) :
  (forall l, IL l -> IL (f l)) ->
  preserves (fun sl : S * L => IS sl.1 /\ IL sl.2) (local_modify f).
Proof. intros Hf [s l] [Hs Hl]. split; [done | by apply Hf]. Qed.

(** What a function with locals returns, and the state it leaves, when its
    body never raises and keeps an invariant. *)
Lemma with_locals_inv {A B} (init : L) (m : M (S * L) A) (f : L -> B) s :
  total m ->
  preserves (fun sl => IS sl.1 /\ IL sl.2) m ->
  IS s -> IL init ->
  exists items s',
    with_locals init (m >> let* items := local_get in ret (f items)) s
    = (Ok (f items), s') /\ IS s' /\ IL items.
Proof.
  intros Ht Hm Hs Hi. specialize (Hm (s, init) (conj Hs Hi)).
  destruct (Ht (s, init)) as (a & [s1 l1] & H1). rewrite H1 in Hm.
  exists l1, s1. unfold with_locals, Py.bind. rewrite H1. cbn. by destruct Hm.
Qed.

Lemma with_locals_get_inv {A} (init : L) (m : M (S * L) A) s :
  total m ->
  preserves (fun sl => IS sl.1 /\ IL sl.2) m ->
  IS s -> IL init ->
  exists items s',
    with_locals init (m >> local_get) s = (Ok items, s') /\ IS s' /\ IL items.
Proof. exact (with_locals_inv init m id s). Qed.

End Locals.

Lemma extends_by_refl P e : extends_by P e e.
Proof. exists []. by rewrite app_nil_r. Qed.

Lemma preserves_client_get (P : Http.Event -> Prop) e0 c r :
  P (Http.Sent c r) -> preserves (extends_by P e0) (Http.client_get c r).
Proof.
  intros HP e (evs & Hl & Hevs). unfold Http.client_get.
  case_bool_decide; cbn; [|by exists evs].
  exists (evs ++ [Http.Sent c r]). rewrite Hl, app_assoc. split; [done|].
  apply Forall_app. split; [done|]. by constructor.
Qed.

Lemma preserves_sleep (P : Http.Event -> Prop) e0 ms :
  P (Http.Slept ms) -> preserves (extends_by P e0) (Http.sleep ms).
Proof.
  intros HP e (evs & Hl & Hevs). cbn.
  exists (evs ++ [Http.Slept ms]). rewrite Hl, app_assoc. split; [done|].
  apply Forall_app. split; [done|]. by constructor.
Qed.

Lemma preserves_open_client (P : Http.Event -> Prop) e0 :
  preserves (extends_by P e0) Http.open_client.
Proof. by intros e (evs & Hl & Hevs); exists evs. Qed.

Lemma preserves_close_client (P : Http.Event -> Prop) e0 c :
  preserves (extends_by P e0) (Http.close_client c).
Proof. by intros e (evs & Hl & Hevs); exists evs. Qed.

Lemma preserves_async_with_client {L A} (I : Http.Env * L -> Prop)
    (body : nat -> M (Http.Env * L) A) :
  preserves I (outer Http.open_client) ->
  (forall c, preserves I (outer (Http.close_client c))) ->
  (forall c, preserves I (body c)) ->
  preserves I (Http.async_with_client body).
Proof.
  intros Ho Hc Hb. unfold Http.async_with_client.
  apply preserves_bind; [done|]. intros c. by apply preserves_finally.
Qed.

(** Steps through a computation whose every step keeps the invariant for a
    plain reason: the state is untouched, or the step is one of the
    combinators above. *)
Ltac keeps :=
  repeat first
    [ apply preserves_ret
    | apply preserves_lift_res
    | apply preserves_gets
    | apply preserves_bind; [|intros ?]
    | apply preserves_try; [|intros ?]
    | apply preserves_for_each; intros ?
    | apply preserves_for_each_break; intros ?
    | match goal with
      | |- preserves _ (if ?b then _ else _) => destruct b
      | |- preserves _ (match ?x with _ => _ end) => destruct x
      end ].

Lemma search_item_append items title url description query :
  Forall is_search_item items ->
  Forall is_search_item (items ++ [WebSearch.search_item title url description query]).
Proof.
  intros H. apply Forall_app. split; [done|].
  constructor; [|done]. by exists title, url, description, query.
Qed.

Lemma search_duckduckgo_inv e0 client query limit e :
  extends_by duckduckgo_only e0 e ->
  exists items e',
    WebSearch._search_duckduckgo client query limit e = (Ok items, e') /\
    extends_by duckduckgo_only e0 e' /\ Forall is_search_item items.
Proof.
  intros He. unfold WebSearch._search_duckduckgo.
  apply (with_locals_get_inv (extends_by duckduckgo_only e0) (Forall is_search_item));
    [apply total_try; intros ?; apply total_ret | | done | done].
  keeps; try (apply preserves_outer, preserves_client_get; done);
    apply preserves_local_modify; intros l Hl; by apply search_item_append.
Qed.

Lemma search_query_step e0 client query limit :
  preserves (fun sl : Http.Env * list JVal =>
               extends_by duckduckgo_only e0 sl.1 /\ Forall is_search_item sl.2)
    (try_except
       (let* search_items := outer (WebSearch._search_duckduckgo client query limit) in
        local_modify (fun items => items ++ search_items) >>
        outer (Http.sleep 500))
       (fun e => ret tt)).
Proof.
  intros [e items] [He Hi].
  destruct (search_duckduckgo_inv e0 client query limit e He) as (si & e1 & Heq & He1 & Hsi).
  unfold try_except, Py.bind, outer, zoom. cbn [fst snd]. rewrite Heq. cbn.
  split; [by apply (preserves_sleep duckduckgo_only e0 500) | by apply Forall_app].
Qed.

Lemma search_results_only_inv since limit e :
  exists items e',
    WebSearch.search_results_only since limit e = (Ok (slice_to limit items), e') /\
    extends_by duckduckgo_only e e' /\ Forall is_search_item items.
Proof.
  apply (with_locals_inv (extends_by duckduckgo_only e) (Forall is_search_item));
    [apply total_search_queries | | apply extends_by_refl | done].
  apply preserves_async_with_client.
  - apply preserves_outer, preserves_open_client.
  - intros c. apply preserves_outer, preserves_close_client.
  - intros c. apply preserves_bind; [|intros ?; apply preserves_ret].
    apply preserves_for_each. intros q. apply search_query_step.
Qed.

(** C10.  In [WebSearchIndexer.fetch_content] the discovery feeds are
    fetched on the client of the [async with] block after that block has
    closed it: the client refuses every request, the handlers swallow the
    error, and the feeds contribute nothing.  For every [since] and [limit]
    the function never raises and does just what its searches alone would
    do: it returns the DuckDuckGo items cut to [limit], and every request it
    sends goes to the search API, none to a feed. *)
Theorem websearch_discovery_contributes_nothing (since : option Z) (limit : Z)
    (e : Http.Env) :
  (exists client s,
     WebSearch.search_queries limit (e, []) = (Ok client, s) /\
     (client ∉ Http.opened (fst s)) /\
     WebSearch._fetch_discovery_feeds client (floordiv limit 2) (fst s) = (Ok [], fst s)) /\
  WebSearch.fetch_content since limit e = WebSearch.search_results_only since limit e /\
  exists items e',
    WebSearch.fetch_content since limit e = (Ok (slice_to limit items), e') /\
    Forall is_search_item items /\
    extends_by duckduckgo_only e e'.
Proof.
  split; [|split].
  - destruct (search_queries_closes limit (e, [])) as (c & s & Hs & Hc).
    exists c, s. split; [done|]. split; [done|]. by apply discovery_feeds_closed.
  - apply websearch_fetch_is_search_only.
  - rewrite websearch_fetch_is_search_only.
    destruct (search_results_only_inv since limit e) as (items & e' & H & He & Hi).
    by exists items, e'.
Qed.

(** ** The limit bound *)

(** C5.  For a positive [limit] (zero as well), whatever the upstreams
    answer, the collectors that merge several sub-sources (the subreddits of
    Reddit, the keywords of GitHub, the four sources of the dynamic
    collector, the searches of the web search) return normally, and what
    they return has at most [limit] items.  Two subreddits that answer with
    three posts each, at [limit = 4], give four items. *)
Theorem fetch_length_at_most_limit (since : option Z) (limit : Z) (e : Http.Env)
    (Hlimit : (0 < limit)%Z) :
  (exists items e',
     Reddit.fetch_content since limit e = (Ok items, e') /\
     (Z.of_nat (length items) <= limit)%Z) /\
  (forall strftime, exists items e',
     GitHub.fetch_content strftime since limit e = (Ok items, e') /\
     (Z.of_nat (length items) <= limit)%Z) /\
  (forall self, exists items e',
     Dynamic.fetch_content self since limit e = (Ok items, e') /\
     (Z.of_nat (length items) <= limit)%Z) /\
  (exists items e',
     WebSearch.fetch_content since limit e = (Ok items, e') /\
     (Z.of_nat (length items) <= limit)%Z) /\
  match (Reddit.fetch_content None 4 two_by_three).1 with
  | Ok items => length items = 4%nat
  | Raise _ => False
  end.
Proof.
  assert (Hle : (0 <= limit)%Z) by lia.
  split; [|split; [|split; [|split]]].
  - destruct (fetch_subreddits_returns (take 5 Reddit.AI_SUBREDDITS) limit e)
      as (items & e' & H).
    eexists _, _. split; [exact H | by apply slice_to_length].
  - intros strftime.
    destruct (fetch_keywords_returns strftime (take 5 GitHub.AI_KEYWORDS) since limit e)
      as (items & e' & H).
    eexists _, _. split; [exact H | by apply slice_to_length].
  - intros self.
    destruct (dynamic_fetch_returns self since limit e) as (items & e' & H).
    eexists _, _. split; [exact H | by apply slice_to_length].
  - destruct (search_results_only_inv since limit e) as (items & e' & H & _).
    rewrite websearch_fetch_is_search_only.
    eexists _, _. split; [exact H | by apply slice_to_length].
  - vm_compute. reflexivity.
Qed.

(** The bound at [limit = 4] in the world of the two subreddits. *)
Lemma fetch_length_at_most_limit_witness :
  exists items e',
    Reddit.fetch_content None 4 two_by_three = (Ok items, e') /\
    (Z.of_nat (length items) <= 4)%Z.
Proof.
  exact (proj1 (fetch_length_at_most_limit None 4 two_by_three eq_refl)).
Defined.

(** ** Rate limits *)

Lemma client_get_open c r e :
  c ∈ Http.opened e ->
  Http.client_get c r e = (Http.upstream e (Http.sent e) r, after_get c r e).
Proof. intros H. unfold Http.client_get. by rewrite bool_decide_eq_true_2. Qed.

Lemma flow_of_break code reply :
  code <> 200%Z -> flow_of code reply = Break <-> has_status code reply.
Proof.
  intros Hc. unfold flow_of, has_status. split.
  - destruct reply as [resp|]; [|done].
    destruct (Z.eqb_spec (Http.status_code resp) 200); [done|].
    destruct (Z.eqb_spec (Http.status_code resp) code); [|done]. eauto.
  - intros (resp & -> & <-).
    destruct (Z.eqb_spec (Http.status_code resp) 200); [done|].
    by rewrite Z.eqb_refl.
Qed.

(** A loop that sends one request per element on an open client and stops
    at the first reply with status [code]. *)
Section Loop.
Context {X : Type} (request : X -> Http.Request) (code : Z) (client : nat).
Context (body : X -> M (Http.Env * list JVal) Flow).

Hypothesis code_not_200 : code <> 200%Z.

Hypothesis body_spec : forall x e items,
  client ∈ Http.opened e ->
  exists items',
    body x (e, items)
    = (Ok (flow_of code (Http.upstream e (Http.sent e) (request x))),
       (after_get client (request x) e, items')) /\
    (flow_of code (Http.upstream e (Http.sent e) (request x)) = Break -> items' = items).

Lemma loop_spec xs : forall e items,
  client ∈ Http.opened e ->
  exists e' items' n,
    for_each_break xs body (e, items) = (Ok tt, (e', items')) /\
    Http.upstream e' = Http.upstream e /\
    Http.opened e' = Http.opened e /\
    Http.log e' = Http.log e ++ (Http.Sent client ∘ request <$> take n xs) /\
    n <= length xs /\
    forall i x,
      xs !! i = Some x -> i < n ->
      has_status code (Http.upstream e (Http.sent e + i) (request x)) ->
      n = S i /\
      exists e'', for_each_break (take i xs) body (e, items) = (Ok tt, (e'', items')).
Proof.
  induction xs as [|x xs IH]; intros e items Hopen.
  - exists e, items, 0. cbn. rewrite app_nil_r. repeat split; try done.
  - destruct (body_spec x e items Hopen) as (items1 & Hbody & Hbreak).
    cbn [for_each_break]. unfold Py.bind at 1. rewrite Hbody.
    destruct (flow_of code (Http.upstream e (Http.sent e) (request x))) eqn:Hflow.
    + destruct (IH (after_get client (request x) e) items1 Hopen)
        as (e' & items' & n & Hloop & Hup & Hop & Hlog & Hn & Hstop).
      exists e', items', (S n). rewrite Hloop.
      split_and!;
        [done | by rewrite Hup | by rewrite Hop
        | rewrite Hlog; cbn; by rewrite <- app_assoc | cbn; lia | ].
      intros [|i] y Hy Hi Hst.
      * cbn in Hy. injection Hy as <-. rewrite Nat.add_0_r in Hst.
        apply flow_of_break in Hst; [congruence | done].
      * cbn in Hy.
        replace (Http.sent e + S i) with (S (Http.sent e) + i) in Hst by lia.
        destruct (Hstop i y Hy ltac:(lia) Hst) as (-> & e'' & Hpre).
        split; [done|]. exists e''.
        cbn [take for_each_break]. unfold Py.bind at 1. by rewrite Hbody.
    + exists (after_get client (request x) e), items1, 1.
      split_and!; [done | done | done | by cbn; rewrite ?take_0 | cbn; lia | ].
      intros i y Hy Hi Hst. assert (i = 0) as -> by lia.
      split; [done|]. exists e. cbn. by rewrite Hbreak.
Qed.

End Loop.

Lemma returns_only_ret {S A} (Q : A -> Prop) (a : A) :
  Q a -> returns_only Q (ret a : M S A).
Proof. intros H s a' s' [= <- _]. exact H. Qed.

Lemma returns_only_bind {S A B} (Q : B -> Prop) (m : M S A) (k : A -> M S B) :
  (forall a, returns_only Q (k a)) -> returns_only Q (Py.bind m k).
Proof.
  intros Hk s b s'. unfold Py.bind.
  destruct (m s) as [[a|e] s1]; [apply Hk | done].
Qed.

(** The part of a loop body that reads a 200 reply: it touches the local
    list only and, when it returns, goes on to the next element. *)
Lemma reads_reply (m : M (Http.Env * list JVal) Flow) e items :
  preserves (fun sl => sl.1 = e /\ True) m ->
  returns_only (fun f => f = Next) m ->
  exists items',
    try_except m (fun _ => ret Next) (e, items) = (Ok Next, (e, items')).
Proof.
  intros Hp Hr. unfold try_except.
  specialize (Hp (e, items) (conj eq_refl Logic.I)).
  destruct (m (e, items)) as [[f|err] [e1 items1]] eqn:Hm; cbn in Hp.
  - destruct Hp as [-> _]. rewrite (Hr _ _ _ Hm). by exists items1.
  - destruct Hp as [-> _]. by exists items1.
Qed.

(** A request on an open client inside a [try] block. *)
Lemma try_get_open {L A} c r (k : Http.Response -> M (Http.Env * L) A) h e (l : L) :
  c ∈ Http.opened e ->
  try_except (let* response := outer (Http.client_get c r) in k response) h (e, l)
  = match Http.upstream e (Http.sent e) r with
    | Ok response => try_except (k response) h (after_get c r e, l)
    | Raise err => h err (after_get c r e, l)
    end.
Proof.
  intros Hopen. unfold try_except, Py.bind, outer, zoom. cbn [fst snd].
  rewrite client_get_open by done.
  by destruct (Http.upstream e (Http.sent e) r).
Qed.

Lemma fetch_subreddit_spec limit client subreddit e items :
  client ∈ Http.opened e ->
  exists items',
    Reddit.fetch_subreddit client limit subreddit (e, items)
    = (Ok (flow_of 429 (Http.upstream e (Http.sent e) (Reddit.hot_request subreddit limit))),
       (after_get client (Reddit.hot_request subreddit limit) e, items')) /\
    (flow_of 429 (Http.upstream e (Http.sent e) (Reddit.hot_request subreddit limit)) = Break ->
     items' = items).
Proof.
  intros Hopen. unfold Reddit.fetch_subreddit. rewrite try_get_open by done.
  destruct (Http.upstream e (Http.sent e) (Reddit.hot_request subreddit limit))
    as [resp|err]; [|by exists items].
  unfold flow_of.
  destruct (Http.status_code resp =? 200)%Z;
    [|destruct (Http.status_code resp =? 429)%Z; by exists items].
  match goal with
  | |- context [try_except ?m _ (?e1, _)] =>
      destruct (reads_reply m e1 items) as (items' & Hk)
  end.
  - keeps. apply (preserves_local_modify (fun e' => e' = _) (fun _ => True)). done.
  - repeat (apply returns_only_bind; intros ?). by apply returns_only_ret.
  - exists items'. by rewrite Hk.
Qed.

Lemma fetch_keyword_spec strftime since limit client keyword e items :
  client ∈ Http.opened e ->
  exists items',
    GitHub.fetch_keyword strftime client since limit keyword (e, items)
    = (Ok (flow_of 403 (Http.upstream e (Http.sent e)
                          (GitHub.search_request strftime keyword since limit))),
       (after_get client (GitHub.search_request strftime keyword since limit) e, items')) /\
    (flow_of 403 (Http.upstream e (Http.sent e)
                    (GitHub.search_request strftime keyword since limit)) = Break ->
     items' = items).
Proof.
  intros Hopen. unfold GitHub.fetch_keyword. rewrite try_get_open by done.
  destruct (Http.upstream e (Http.sent e) (GitHub.search_request strftime keyword since limit))
    as [resp|err]; [|by exists items].
  unfold flow_of.
  destruct (Http.status_code resp =? 200)%Z;
    [|destruct (Http.status_code resp =? 403)%Z; by exists items].
  match goal with
  | |- context [try_except ?m _ (?e1, _)] =>
      destruct (reads_reply m e1 items) as (items' & Hk)
  end.
  - keeps. apply (preserves_local_modify (fun e' => e' = _) (fun _ => True)). done.
  - repeat (apply returns_only_bind; intros ?). by apply returns_only_ret.
  - exists items'. by rewrite Hk.
Qed.

Lemma requests_sent c {X} (request : X -> Http.Request) (xs : list X) :
  Http.requests (Http.Sent c ∘ request <$> xs) = request <$> xs.
Proof. induction xs as [|x xs IH]; [done|]. cbn. by rewrite <- IH. Qed.

(** A collector made of such a loop inside an [async with] block. *)
Section Collector.
Context {X : Type} (request : X -> Http.Request) (code : Z).
Context (body : nat -> X -> M (Http.Env * list JVal) Flow) (limit : Z).

Hypothesis code_not_200 : code <> 200%Z.

Hypothesis body_spec : forall client x e items,
  client ∈ Http.opened e ->
  exists items',
    body client x (e, items)
    = (Ok (flow_of code (Http.upstream e (Http.sent e) (request x))),
       (after_get client (request x) e, items')) /\
    (flow_of code (Http.upstream e (Http.sent e) (request x)) = Break -> items' = items).


Lemma collector_spec xs e :
  exists items e' n,
    loop_collector body limit xs e = (Ok (slice_to limit items), e') /\
    n <= length xs /\
    new_events e e' = (Http.Sent (Http.next_client e) ∘ request <$> take n xs) /\
    forall i x,
      xs !! i = Some x -> i < n ->
      has_status code (Http.upstream e (Http.sent e + i) (request x)) ->
      n = S i /\ (loop_collector body limit (take i xs) e).1 = Ok (slice_to limit items).
Proof.
  set (c := Http.next_client e).
  set (e1 := {| Http.upstream := Http.upstream e; Http.log := Http.log e;
                Http.sent := Http.sent e; Http.next_client := S c;
                Http.opened := c :: Http.opened e; Http.clock := Http.clock e |}).
  assert (Hopen : c ∈ Http.opened e1) by left.
  destruct (loop_spec request code c (body c) code_not_200 (body_spec c) xs e1 [] Hopen)
    as (e2 & items & n & Hloop & Hup & Hop & Hlog & Hn & Hstop).
  assert (Hrun : forall ys e3 items3,
             for_each_break ys (body c) (e1, []) = (Ok tt, (e3, items3)) ->
             (loop_collector body limit ys e).1 = Ok (slice_to limit items3)).
  { intros ys e3 items3 H. unfold loop_collector, with_locals, Http.async_with_client.
    unfold Py.bind at 1 2. cbn [outer zoom Http.open_client fst snd].
    fold c. fold e1. unfold finally. rewrite H. done. }
  eexists items, _, n. split; [|split; [exact Hn|split]].
  - unfold loop_collector, with_locals, Http.async_with_client.
    unfold Py.bind at 1 2. cbn [outer zoom Http.open_client fst snd].
    fold c. fold e1. unfold finally. rewrite Hloop. cbn. reflexivity.
  - unfold new_events. cbn. rewrite Hlog. cbn. by rewrite drop_app_length.
  - intros i x Hx Hi Hst.
    destruct (Hstop i x Hx Hi Hst) as (-> & e'' & Hpre).
    split; [done|]. by apply (Hrun _ e'').
Qed.

Lemma collector_stops xs : stops_on [code] (loop_collector body limit xs).
Proof.
  intros e i r code' Hr Hcode Hst. apply list_elem_of_singleton in Hcode as ->.
  destruct (collector_spec xs e) as (items & e' & n & Hfetch & Hn & Hnew & Hstop).
  unfold requests_of in *. rewrite Hfetch in *. cbn [snd] in *.
  rewrite Hnew, requests_sent in *.
  rewrite length_fmap, length_take.
  apply list_lookup_fmap_Some in Hr as (x & -> & Hx).
  apply lookup_take_Some in Hx as [Hx Hi].
  destruct (Hstop i x Hx Hi Hst) as [-> _]. lia.
Qed.

Lemma collector_partial xs e i r :
  requests_of (loop_collector body limit xs) e !! i = Some r ->
  has_status code (reply_to e i r) ->
  exists items, (loop_collector body limit xs e).1 = Ok items /\ (loop_collector body limit (take i xs) e).1 = Ok items.
Proof.
  intros Hr Hst.
  destruct (collector_spec xs e) as (items & e' & n & Hfetch & Hn & Hnew & Hstop).
  unfold requests_of in *. rewrite Hfetch in *. cbn [snd fst] in *.
  rewrite Hnew, requests_sent in *.
  apply list_lookup_fmap_Some in Hr as (x & -> & Hx).
  apply lookup_take_Some in Hx as [Hx Hi].
  destruct (Hstop i x Hx Hi Hst) as [_ Hpre]. eauto.
Qed.

End Collector.

(** C7, as the code has it.  The Reddit collector stops on HTTP 429 and the
    GitHub collector on HTTP 403: in every run, the request answered with
    that status is the last request the collector sends (no further request,
    no retry), the collector returns normally, and what it returns is what
    the run over the sources before the rate-limited one gathers. *)
Theorem stops_on_own_rate_limit_status (strftime : Z -> string) (since : option Z)
    (limit : Z) :
  stops_on [429%Z] (Reddit.fetch_content since limit) /\
  stops_on [403%Z] (GitHub.fetch_content strftime since limit) /\
  (forall e i r,
     requests_of (Reddit.fetch_content since limit) e !! i = Some r ->
     has_status 429 (reply_to e i r) ->
     exists items,
       (Reddit.fetch_content since limit e).1 = Ok items /\
       (Reddit.fetch_subreddits (take i (take 5 Reddit.AI_SUBREDDITS)) limit e).1
       = Ok items) /\
  (forall e i r,
     requests_of (GitHub.fetch_content strftime since limit) e !! i = Some r ->
     has_status 403 (reply_to e i r) ->
     exists items,
       (GitHub.fetch_content strftime since limit e).1 = Ok items /\
       (GitHub.fetch_keywords strftime (take i (take 5 GitHub.AI_KEYWORDS)) since limit e).1
       = Ok items).
Proof.
  split_and!.
  - apply (collector_stops (fun x => Reddit.hot_request x limit) 429
             (fun c => Reddit.fetch_subreddit c limit) limit); [done|].
    intros c x e items. apply fetch_subreddit_spec.
  - apply (collector_stops (fun x => GitHub.search_request strftime x since limit) 403
             (fun c => GitHub.fetch_keyword strftime c since limit) limit); [done|].
    intros c x e items. apply fetch_keyword_spec.
  - apply (collector_partial (fun x => Reddit.hot_request x limit) 429
             (fun c => Reddit.fetch_subreddit c limit) limit); [done|].
    intros c x e items. apply fetch_subreddit_spec.
  - apply (collector_partial (fun x => GitHub.search_request strftime x since limit) 403
             (fun c => GitHub.fetch_keyword strftime c since limit) limit); [done|].
    intros c x e items. apply fetch_keyword_spec.
Qed.

(** At the second subreddit answering 429, two requests are sent in all. *)
Lemma stops_on_own_rate_limit_status_witness :
  length (requests_of (Reddit.fetch_content None 10) (second_is 429)) = 2.
Proof.
  apply (proj1 (stops_on_own_rate_limit_status (fun _ => ""%string) None 10)
           (second_is 429) 1 (Reddit.hot_request "ChatGPT" 10) 429%Z).
  - vm_compute. reflexivity.
  - apply list_elem_of_singleton. reflexivity.
  - exists (status_only 429). split; reflexivity.
Defined.

(** C7 as stated fails: Reddit answering 403 to the first request is asked
    four more times in the same run. *)
Lemma reddit_goes_on_after_403 :
  ~ stops_on [429%Z; 403%Z] (Reddit.fetch_content None 10).
Proof.
  intros H.
  specialize (H (always 403) 0 (Reddit.hot_request "LocalLLaMA" 10) 403%Z).
  assert (Hlen : length (requests_of (Reddit.fetch_content None 10) (always 403)) = 5)
    by (vm_compute; reflexivity).
  rewrite Hlen in H. discriminate H.
  - vm_compute. reflexivity.
  - right. left.
  - exists (status_only 403). split; reflexivity.
Qed.

(** ** The catalog writer *)

(** Unfolds the writer down to the operations on the database, and splits on
    every test it makes. *)
Ltac run_writer :=
  unfold Base.index_content, Base.write_content, Base.is_duplicate,
    Base.content_exists, Base.get_or_create_agent, Base.incr_indexed,
    Base.incr_skipped, Base.incr_errors, Base.set_stats, Base.on_db,
    Db.select_agent, Db.select_content, Db.add_agent, Db.add_content,
    Db.set_total_creations, Db.flush, Db.db_step, Db.scalar_one_or_none,
    try_except, Py.bind, zoom, lift_res, gets, modify, ret in *;
  cbn in *;
  repeat (case_match; cbn in *; simplify_eq).

Lemma index_content_written_inv c w row w' :
  Base.index_content c w = (Ok (Some row), w') ->
  Db.session (Base.db w') = written c (Db.session (Base.db w)) /\
  Db.contents (Db.session (Base.db w')) = Db.contents (Db.session (Base.db w)) ++ [row] /\
  stores_item row c /\
  not_duplicate c (Db.session (Base.db w)) /\
  length (Db.rows_of_agent (ContentCreate.agent_id_external c) (Db.session (Base.db w))) <= 1 /\
  Db.durable (Base.db w') = Db.durable (Base.db w) /\
  Db.fault (Base.db w') = Db.fault (Base.db w) /\
  Base.env w' = Base.env w /\
  Base.stats w' = one_more_indexed (Base.stats w).
Proof.
  intros H. destruct w as [e [dur ses ops flt] st].
  unfold written, not_duplicate, stores_item.
  run_writer; try congruence;
    repeat match goal with
           | H1 : ?x = _, H2 : ?x = _ |- _ => rewrite H1 in H2; simplify_eq
           end;
    split_and!; try done; eauto; try lia;
    try (left; by apply String.eqb_eq).
Qed.

Lemma total_index_content c : total (Base.index_content c).
Proof.
  apply total_try. intros e. apply total_bind; [apply total_modify|].
  intros _. apply total_ret.
Qed.

(** The same unfolding in a world where no database operation fails. *)
Ltac run_writer_without_faults Hnf :=
  unfold Base.index_content, Base.write_content, Base.is_duplicate,
    Base.content_exists, Base.get_or_create_agent, Base.incr_indexed,
    Base.incr_skipped, Base.incr_errors, Base.set_stats, Base.on_db,
    Db.select_agent, Db.select_content, Db.add_agent, Db.add_content,
    Db.set_total_creations, Db.flush, Db.db_step, Db.scalar_one_or_none,
    try_except, Py.bind, zoom, lift_res, gets, modify, ret in *;
  repeat (cbn in *; rewrite ?Hnf in *; simplify_eq; case_match).

(** Closes a case the hypotheses exclude. *)
Ltac excluded :=
  exfalso; cbn in *;
  repeat match goal with
         | H : (_ =? _)%string = false |- _ => apply String.eqb_neq in H
         | H : (_ =? _)%string = true |- _ => apply String.eqb_eq in H
         | H : ?x = _, H' : context [?x] |- _ => rewrite H in H'
         end;
  cbn in *; try lia; try congruence; naive_solver.

Lemma index_content_writes c w :
  no_faults (Base.db w) ->
  not_duplicate c (Db.session (Base.db w)) ->
  length (Db.rows_of_agent (ContentCreate.agent_id_external c) (Db.session (Base.db w))) <= 1 ->
  exists row w', Base.index_content c w = (Ok (Some row), w').
Proof.
  intros Hnf Hdup Hag. destruct w as [e [dur ses ops flt] st].
  unfold no_faults, not_duplicate in *.
  run_writer_without_faults Hnf;
    cbn in *; rewrite ?Hnf in *; simplify_eq; eauto; excluded.
Qed.

Lemma index_content_skips c u x w :
  no_faults (Base.db w) ->
  ContentCreate.source_url c = Some u ->
  u <> ""%string ->
  Db.rows_with_url u (Db.session (Base.db w)) = [x] ->
  exists w',
    Base.index_content c w = (Ok None, w') /\
    Db.session (Base.db w') = Db.session (Base.db w) /\
    Db.durable (Base.db w') = Db.durable (Base.db w) /\
    Db.fault (Base.db w') = Db.fault (Base.db w) /\
    Base.env w' = Base.env w /\
    Base.stats w' = one_more_skipped (Base.stats w).
Proof.
  intros Hnf Hu Hne Hrows. destruct w as [e [dur ses ops flt] st].
  unfold no_faults in *. apply String.eqb_neq in Hne.
  run_writer_without_faults Hnf;
    cbn in *; rewrite ?Hnf in *; simplify_eq; try congruence.
  eexists. by split_and!.
Qed.

(** *** What a write leaves in the store *)

Lemma with_total_creations_agent_id pk v a :
  Agent.agent_id (Db.with_total_creations pk v a) = Agent.agent_id a.
Proof. unfold Db.with_total_creations. by case_decide. Qed.

Lemma rows_of_agent_fmap (f : Agent.t -> Agent.t) a (l : list Agent.t) :
  (forall x, Agent.agent_id (f x) = Agent.agent_id x) ->
  filter (fun r => Agent.agent_id r = a) (f <$> l)
  = f <$> filter (fun r => Agent.agent_id r = a) l.
Proof.
  intros Hf. induction l as [|x l IH]; [done|].
  cbn [fmap list_fmap]. rewrite !filter_cons, Hf, IH.
  by case_decide.
Qed.

Lemma written_contents c s :
  exists row, stores_item row c /\ Db.contents (written c s) = Db.contents s ++ [row].
Proof.
  unfold written. destruct (Db.rows_of_agent _ s) as [|ag l];
    eexists; split; try reflexivity; by eexists _, _.
Qed.

Lemma written_agent_ids c s :
  Agent.agent_id <$> Db.agents (written c s)
  = (Agent.agent_id <$> Db.agents s)
    ++ match Db.rows_of_agent (ContentCreate.agent_id_external c) s with
       | [] => [ContentCreate.agent_id_external c]
       | _ => []
       end.
Proof.
  unfold written. destruct (Db.rows_of_agent _ s) as [|ag l]; cbn.
  - rewrite <- list_fmap_compose, fmap_app. cbn.
    rewrite with_total_creations_agent_id. cbn. f_equal.
    apply list_fmap_ext. intros i x _. apply with_total_creations_agent_id.
  - rewrite <- list_fmap_compose, app_nil_r.
    apply list_fmap_ext. intros i x _. apply with_total_creations_agent_id.
Qed.

Lemma filter_none {A} (P : A -> Prop) `{forall x, Decision (P x)} (l : list A) :
  (forall x, x ∈ l -> ~ P x) -> filter P l = [].
Proof.
  induction l as [|x l IH]; intros Hl; [done|].
  rewrite filter_cons_False by (apply Hl; left).
  apply IH. intros y Hy. apply Hl. by right.
Qed.

Lemma rows_of_agent_none a s :
  Db.rows_of_agent a s = [] <-> a ∉ Agent.agent_id <$> Db.agents s.
Proof.
  unfold Db.rows_of_agent. rewrite list_elem_of_fmap. split.
  - intros H (x & -> & Hx).
    by apply (filter_nil_not_elem_of _ _ x) in H.
  - intros H. apply filter_none. intros x Hx Heq.
    apply H. by exists x.
Qed.

Lemma unique_agents_rows a s :
  unique_agents s -> length (Db.rows_of_agent a s) <= 1.
Proof.
  unfold unique_agents, Db.rows_of_agent.
  induction (Db.agents s) as [|x l IH]; intros Hnd; [cbn; lia|].
  apply NoDup_cons in Hnd as [Hx Hnd]. rewrite filter_cons.
  case_decide as Heq; [|by apply IH]. subst a.
  rewrite filter_none; [cbn; lia|].
  intros y Hy Heq. apply Hx. rewrite <- Heq. by apply list_elem_of_fmap_2.
Qed.

Lemma written_unique_agents c s :
  unique_agents s -> unique_agents (written c s).
Proof.
  unfold unique_agents. intros Hnd. rewrite written_agent_ids.
  destruct (Db.rows_of_agent _ s) eqn:Hrows; [|by rewrite app_nil_r].
  apply NoDup_app. split; [done|]. split; [|apply NoDup_singleton].
  intros x Hx Hin. apply list_elem_of_singleton in Hin as ->.
  by apply rows_of_agent_none in Hrows.
Qed.

Lemma written_rows_with_url c s u :
  u <> ""%string ->
  checked_url c <> Some u ->
  Db.rows_with_url u s = [] ->
  Db.rows_with_url u (written c s) = [].
Proof.
  intros Hu Hne Hrows. destruct (written_contents c s) as (row & (aid & id & ->) & Hc).
  unfold Db.rows_with_url in *. rewrite Hc, filter_app, Hrows. cbn.
  case_decide as Heq; [|done].
  exfalso. apply Hne. unfold checked_url. rewrite Heq.
  by destruct (String.eqb_spec u "").
Qed.

Lemma written_rows_with_url_one c s u :
  checked_url c = Some u ->
  Db.rows_with_url u s = [] ->
  length (Db.rows_with_url u (written c s)) = 1.
Proof.
  intros Hcu Hrows. destruct (written_contents c s) as (row & (aid & id & ->) & Hc).
  unfold Db.rows_with_url in *. rewrite Hc, filter_app, Hrows. cbn.
  case_decide as Heq; [done|].
  exfalso. apply Heq.
  unfold checked_url in Hcu. destruct (ContentCreate.source_url c); [|done].
  by destruct (String.eqb s0 ""); simplify_eq.
Qed.

Lemma written_rows_of_agent c s :
  length (Db.rows_of_agent (ContentCreate.agent_id_external c) s) <= 1 ->
  Db.rows_of_agent (ContentCreate.agent_id_external c) (written c s)
  = match Db.rows_of_agent (ContentCreate.agent_id_external c) s with
    | [] =>
        [{| Agent.id := Db.fresh_id (Agent.id <$> Db.agents s);
            Agent.agent_id := ContentCreate.agent_id_external c;
            Agent.name := ContentCreate.agent_id_external c;
            Agent.total_creations := Some 1 |}]
    | ag :: _ =>
        [{| Agent.id := Agent.id ag;
            Agent.agent_id := Agent.agent_id ag;
            Agent.name := Agent.name ag;
            Agent.total_creations := Some (Base.or_zero (Agent.total_creations ag) + 1) |}]
    end.
Proof.
  intros Hlen. unfold written.
  destruct (Db.rows_of_agent _ s) as [|ag l] eqn:Hrows; unfold Db.rows_of_agent in *; cbn.
  - rewrite rows_of_agent_fmap by apply with_total_creations_agent_id.
    rewrite filter_app, Hrows. cbn. rewrite decide_True by done. cbn.
    unfold Db.with_total_creations. cbn. by rewrite decide_True.
  - destruct l; [|cbn in Hlen; lia].
    rewrite rows_of_agent_fmap by apply with_total_creations_agent_id.
    rewrite Hrows. cbn. unfold Db.with_total_creations. by rewrite decide_True.
Qed.

(** C4.  Two items of the same external agent id, written one after the
    other into a catalog that has no agent of that id, leave exactly one
    Agent row for the id: it is created at the first item, named after the
    id, with [total_creations = 1], and the second item finds it and raises
    the counter to 2.  Both content rows belong to that agent.  (Two items
    that are both written cannot share a non-empty source URL, so the
    difference of their URLs needs no hypothesis.) *)
Theorem agent_reused_and_counted (c1 c2 : ContentCreate.t) (a : string)
    (w w1 w2 : Base.Self) (row1 row2 : AgentContent.t) :
  ContentCreate.agent_id_external c1 = a ->
  ContentCreate.agent_id_external c2 = a ->
  Db.rows_of_agent a (Db.session (Base.db w)) = [] ->
  Base.index_content c1 w = (Ok (Some row1), w1) ->
  Base.index_content c2 w1 = (Ok (Some row2), w2) ->
  exists pk,
    Db.rows_of_agent a (Db.session (Base.db w1))
    = [{| Agent.id := pk; Agent.agent_id := a; Agent.name := a;
          Agent.total_creations := Some 1 |}] /\
    Db.rows_of_agent a (Db.session (Base.db w2))
    = [{| Agent.id := pk; Agent.agent_id := a; Agent.name := a;
          Agent.total_creations := Some 2 |}] /\
    AgentContent.agent_id row1 = pk /\
    AgentContent.agent_id row2 = pk /\
    Base.indexed (Base.stats w2) = Base.indexed (Base.stats w) + 2.
Proof.
  intros Ha1 Ha2 Hnew H1 H2.
  apply index_content_written_inv in H1
    as (Hs1 & Hc1 & _ & _ & Hlen1 & _ & _ & _ & Hst1).
  apply index_content_written_inv in H2
    as (Hs2 & Hc2 & _ & _ & Hlen2 & _ & _ & _ & Hst2).
  rewrite Ha1 in *. rewrite Ha2 in *.
  pose proof (written_rows_of_agent c1 (Db.session (Base.db w))) as Hr1.
  rewrite Ha1, Hnew, <- Hs1 in Hr1. specialize (Hr1 ltac:(cbn; lia)).
  pose proof (written_rows_of_agent c2 (Db.session (Base.db w1))) as Hr2.
  rewrite Ha2, Hr1, <- Hs2 in Hr2. specialize (Hr2 ltac:(cbn; lia)). cbn in Hr2.
  exists (Db.fresh_id (Agent.id <$> Db.agents (Db.session (Base.db w)))).
  split_and!; [done | done | | | ].
  - rewrite Hs1 in Hc1. unfold written in Hc1. rewrite Ha1, Hnew in Hc1. cbn in Hc1.
    by apply app_inv_head in Hc1 as [= <-].
  - rewrite Hs2 in Hc2. unfold written in Hc2. rewrite Ha2, Hr1 in Hc2. cbn in Hc2.
    by apply app_inv_head in Hc2 as [= <-].
  - rewrite Hst2, Hst1. cbn. lia.
Qed.

(** Two posts of one agent into an empty catalog. *)
Lemma agent_reused_and_counted_witness :
  exists pk,
    Db.rows_of_agent "reddit:alice"
      (Db.session (Base.db
         (Base.index_content (post_by "reddit:alice" "second" "https://reddit.com/r/x/2")
            (Base.index_content (post_by "reddit:alice" "first" "https://reddit.com/r/x/1")
               new_indexer_object).2).2))
    = [{| Agent.id := pk; Agent.agent_id := "reddit:alice"; Agent.name := "reddit:alice";
          Agent.total_creations := Some 2 |}].
Proof.
  set (c1 := post_by "reddit:alice" "first" "https://reddit.com/r/x/1").
  set (c2 := post_by "reddit:alice" "second" "https://reddit.com/r/x/2").
  set (w1 := (Base.index_content c1 new_indexer_object).2).
  set (w2 := (Base.index_content c2 w1).2).
  assert (H1 : Base.index_content c1 new_indexer_object
               = (Ok (Some (Db.new_content c1 1 1)), w1))
    by (vm_compute; reflexivity).
  assert (H2 : Base.index_content c2 w1 = (Ok (Some (Db.new_content c2 1 2)), w2))
    by (vm_compute; reflexivity).
  destruct (agent_reused_and_counted c1 c2 "reddit:alice" new_indexer_object w1 w2
              _ _ eq_refl eq_refl eq_refl H1 H2) as (pk & _ & H & _).
  exists pk. exact H.
Defined.

(** ** The run coordinator *)

(** The writer leaves the upstreams, the committed rows and the schedule of
    failures alone. *)
Lemma index_content_frame c w :
  Base.env (Base.index_content c w).2 = Base.env w /\
  Db.durable (Base.db (Base.index_content c w).2) = Db.durable (Base.db w) /\
  Db.fault (Base.db (Base.index_content c w).2) = Db.fault (Base.db w).
Proof.
  destruct w as [e [dur ses ops flt] st]. run_writer; done.
Qed.

Lemma process_item_none self raw w :
  Base.parse_content self raw = Ok None ->
  Base.process_item self raw w = (Ok tt, w).
Proof.
  intros H. unfold Base.process_item, try_except, Py.bind, lift_res. by rewrite H.
Qed.

Lemma process_item_raise self raw e w :
  Base.parse_content self raw = Raise e ->
  Base.process_item self raw w
  = (Ok tt, {| Base.env := Base.env w; Base.db := Base.db w;
               Base.stats := one_more_error (Base.stats w) |}).
Proof.
  intros H. unfold Base.process_item, try_except, Py.bind, lift_res. by rewrite H.
Qed.

Lemma process_item_some self raw c w :
  Base.parse_content self raw = Ok (Some c) ->
  Base.process_item self raw w = (Ok tt, (Base.index_content c w).2).
Proof.
  intros H. unfold Base.process_item, try_except, Py.bind, lift_res. rewrite H.
  destruct (total_index_content c w) as (r & w' & ->). done.
Qed.

Lemma total_process_item self raw : total (Base.process_item self raw).
Proof. apply total_try. intros e. apply total_modify. Qed.

Lemma process_item_frame self raw w :
  Base.env (Base.process_item self raw w).2 = Base.env w /\
  Db.durable (Base.db (Base.process_item self raw w).2) = Db.durable (Base.db w) /\
  Db.fault (Base.db (Base.process_item self raw w).2) = Db.fault (Base.db w).
Proof.
  destruct (Base.parse_content self raw) as [[c|]|e] eqn:Hp.
  - rewrite (process_item_some _ _ c) by done. apply index_content_frame.
  - by rewrite process_item_none.
  - by rewrite (process_item_raise _ _ e).
Qed.

Lemma process_items_frame self raws e dur flt :
  preserves (fun w => Base.env w = e /\ Db.durable (Base.db w) = dur /\
                      Db.fault (Base.db w) = flt)
    (for_each raws (Base.process_item self)).
Proof.
  apply preserves_for_each. intros raw w (He & Hd & Hf).
  destruct (process_item_frame self raw w) as (-> & -> & ->). done.
Qed.

(** A run whose fetch returns and whose commit goes through. *)
Lemma run_commits self since limit w raws e1 w2 :
  Base.fetch_content self since limit (Base.env w) = (Ok raws, e1) ->
  for_each raws (Base.process_item self)
    {| Base.env := e1; Base.db := Base.db w; Base.stats := Base.stats w |}
  = (Ok tt, w2) ->
  Db.fault (Base.db w2) Db.OpCommit (Db.ops (Base.db w2)) = false ->
  exists w',
    Base.run self since limit w = (Ok (Base.stats w2), w') /\
    Db.durable (Base.db w') = Db.session (Base.db w2) /\
    Db.session (Base.db w') = Db.session (Base.db w2) /\
    Db.fault (Base.db w') = Db.fault (Base.db w2) /\
    Base.env w' = Base.env w2 /\
    Base.stats w' = Base.stats w2.
Proof.
  intros Hf Hl Hc.
  unfold Base.run. unfold Py.bind at 1, try_except, Py.bind at 1.
  unfold Base.on_env at 1, zoom at 1. rewrite Hf.
  unfold Py.bind at 1. rewrite Hl.
  unfold Base.on_db, zoom, Db.commit, Py.bind, Db.db_step. rewrite Hc. cbn.
  eexists. by split_and!.
Qed.

(** A run whose fetch raises: the handler rolls back and the counters, which
    nothing has touched, are returned. *)
Lemma run_fetch_raises self since limit w err e1 :
  Base.fetch_content self since limit (Base.env w) = (Raise err, e1) ->
  Db.fault (Base.db w) Db.OpRollback (Db.ops (Base.db w)) = false ->
  exists w',
    Base.run self since limit w = (Ok (Base.stats w), w') /\
    Db.durable (Base.db w') = Db.durable (Base.db w) /\
    Db.session (Base.db w') = Db.durable (Base.db w) /\
    Db.fault (Base.db w') = Db.fault (Base.db w) /\
    Base.env w' = e1 /\
    Base.stats w' = Base.stats w.
Proof.
  intros Hf Hr.
  unfold Base.run. unfold Py.bind at 1, try_except, Py.bind at 1.
  unfold Base.on_env at 1, zoom at 1. rewrite Hf.
  unfold Base.on_db, zoom, Db.rollback, Py.bind, Db.db_step. cbn. rewrite Hr. cbn.
  eexists. by split_and!.
Qed.

(** A run whose commit fails: the handler rolls back what the run did. *)
Lemma run_commit_raises self since limit w raws e1 w2 :
  Base.fetch_content self since limit (Base.env w) = (Ok raws, e1) ->
  for_each raws (Base.process_item self)
    {| Base.env := e1; Base.db := Base.db w; Base.stats := Base.stats w |}
  = (Ok tt, w2) ->
  Db.fault (Base.db w2) Db.OpCommit (Db.ops (Base.db w2)) = true ->
  Db.fault (Base.db w2) Db.OpRollback (S (Db.ops (Base.db w2))) = false ->
  exists w',
    Base.run self since limit w = (Ok (Base.stats w2), w') /\
    Db.durable (Base.db w') = Db.durable (Base.db w2) /\
    Db.session (Base.db w') = Db.durable (Base.db w2) /\
    Db.fault (Base.db w') = Db.fault (Base.db w2) /\
    Base.env w' = Base.env w2 /\
    Base.stats w' = Base.stats w2.
Proof.
  intros Hf Hl Hc Hr.
  unfold Base.run. unfold Py.bind at 1, try_except, Py.bind at 1.
  unfold Base.on_env at 1, zoom at 1. rewrite Hf.
  unfold Py.bind at 1. rewrite Hl.
  unfold Base.on_db, zoom, Db.commit, Db.rollback, Py.bind, Db.db_step.
  rewrite Hc. cbn. rewrite Hr. cbn.
  eexists. by split_and!.
Qed.

(** What the loop of a run leaves, from the state after the fetch. *)
Lemma process_items_run self raws e1 w :
  exists w2,
    for_each raws (Base.process_item self)
      {| Base.env := e1; Base.db := Base.db w; Base.stats := Base.stats w |}
    = (Ok tt, w2) /\
    Base.env w2 = e1 /\
    Db.durable (Base.db w2) = Db.durable (Base.db w) /\
    Db.fault (Base.db w2) = Db.fault (Base.db w).
Proof.
  set (w1 := {| Base.env := e1; Base.db := Base.db w; Base.stats := Base.stats w |}).
  destruct (total_for_each raws (Base.process_item self) (total_process_item self) w1)
    as ([] & w2 & Hl).
  exists w2. split; [done|].
  pose proof (process_items_frame self raws e1 (Db.durable (Base.db w))
                (Db.fault (Base.db w)) w1 ltac:(done)) as H.
  by rewrite Hl in H.
Qed.

(** With a rollback that works, a run returns its counters whatever its
    steps do, and leaves the session equal to what is committed. *)
Lemma run_returns self since limit w :
  rollback_works (Base.db w) ->
  exists w',
    Base.run self since limit w = (Ok (Base.stats w'), w') /\
    Db.session (Base.db w') = Db.durable (Base.db w') /\
    Db.fault (Base.db w') = Db.fault (Base.db w).
Proof.
  intros Hrb.
  destruct (Base.fetch_content self since limit (Base.env w)) as [[raws|err] e1] eqn:Hf.
  - destruct (process_items_run self raws e1 w) as (w2 & Hl & _ & _ & Hflt).
    destruct (Db.fault (Base.db w2) Db.OpCommit (Db.ops (Base.db w2))) eqn:Hc.
    + destruct (run_commit_raises self since limit w raws e1 w2 Hf Hl Hc)
        as (w' & Hrun & Hd & Hs & Hfl & _ & Hst).
      { rewrite Hflt. apply Hrb. }
      exists w'. rewrite Hrun, Hst, Hd, Hs, Hfl. done.
    + destruct (run_commits self since limit w raws e1 w2 Hf Hl Hc)
        as (w' & Hrun & Hd & Hs & Hfl & _ & Hst).
      exists w'. rewrite Hrun, Hst, Hd, Hs, Hfl. done.
  - destruct (run_fetch_raises self since limit w err e1 Hf (Hrb _))
      as (w' & Hrun & Hd & Hs & Hfl & _ & Hst).
    exists w'. rewrite Hrun, Hst, Hd, Hs, Hfl. done.
Qed.

(** ** The scheduler *)

(** [run_indexer] on a known platform whose session opens and whose run
    returns: the statistics are returned and the watermark is set. *)
Lemma run_indexer_of_run I platform indexer limit s st o :
  Scheduler.get_indexer I platform = Some indexer ->
  Db.fault (Scheduler.database s) Db.OpOpen (Db.ops (Scheduler.database s)) = false ->
  Base.run indexer (Scheduler.last_run s !! platform) limit
    {| Base.env := Scheduler.world s;
       Base.db := {| Db.durable := Db.durable (Scheduler.database s);
                     Db.session := Db.durable (Scheduler.database s);
                     Db.ops := S (Db.ops (Scheduler.database s));
                     Db.fault := Db.fault (Scheduler.database s) |};
       Base.stats := Base.zero_stats |}
  = (Ok st, o) ->
  exists s',
    Scheduler.run_indexer I platform limit s = (Ok (Scheduler.Statistics st), s') /\
    Scheduler.last_run s' = <[platform := Http.clock (Base.env o)]> (Scheduler.last_run s) /\
    Scheduler.world s' = Base.env o /\
    Db.durable (Scheduler.database s') = Db.durable (Base.db o) /\
    Db.session (Scheduler.database s') = Db.durable (Base.db o) /\
    Db.fault (Scheduler.database s') = Db.fault (Base.db o).
Proof.
  intros Hg Ho Hrun. destruct s as [lr e d].
  unfold Scheduler.run_indexer. rewrite Hg.
  unfold Py.bind at 1. unfold Scheduler.on_database at 1, zoom at 1.
  unfold Db.open_session, Py.bind at 1, Db.db_step. cbn in Ho |- *. rewrite Ho. cbn.
  unfold finally, try_except, Py.bind at 1. cbn.
  unfold Py.bind at 1, Scheduler.indexer_run, zoom at 1, Db.set_session.
  cbn in Hrun |- *. rewrite Hrun. cbn.
  eexists. by split_and!.
Qed.




(** [run_indexer] on a platform whose fetch raises: the statistics, all
    zero, are returned as those of a good run, and the watermark is set. *)
Lemma run_indexer_fetch_failure I platform indexer limit s err e1 :
  Scheduler.get_indexer I platform = Some indexer ->
  Db.fault (Scheduler.database s) Db.OpOpen (Db.ops (Scheduler.database s)) = false ->
  Db.fault (Scheduler.database s) Db.OpRollback (S (Db.ops (Scheduler.database s))) = false ->
  Base.fetch_content indexer (Scheduler.last_run s !! platform) limit (Scheduler.world s)
  = (Raise err, e1) ->
  exists s',
    Scheduler.run_indexer I platform limit s
    = (Ok (Scheduler.Statistics Base.zero_stats), s') /\
    Scheduler.last_run s' = <[platform := Http.clock e1]> (Scheduler.last_run s) /\
    Db.durable (Scheduler.database s') = Db.durable (Scheduler.database s).
Proof.
  intros Hg Ho Hr Hf.
  destruct (run_fetch_raises indexer (Scheduler.last_run s !! platform) limit
              {| Base.env := Scheduler.world s;
                 Base.db := {| Db.durable := Db.durable (Scheduler.database s);
                               Db.session := Db.durable (Scheduler.database s);
                               Db.ops := S (Db.ops (Scheduler.database s));
                               Db.fault := Db.fault (Scheduler.database s) |};
                 Base.stats := Base.zero_stats |} err e1 Hf Hr)
    as (o & Hrun & Hd & _ & _ & He & _).
  destruct (run_indexer_of_run I platform indexer limit s _ o Hg Ho Hrun)
    as (s' & Hri & Hlr & _ & Hdur & _).
  exists s'. by rewrite Hri, Hlr, He, Hdur, Hd.
Qed.

(** C1, on the code.  The arXiv indexer's fetch raises on the first run of a
    scheduler: [BaseIndexer.run] swallows the exception, so [run_indexer]
    returns the plain zero statistics, without an error tag, and sets the
    watermark, which was absent before the run. *)
Theorem fetch_failure_advances_watermark :
  exists s',
    Scheduler.run_indexer (indexers_with (failing_indexer "arxiv" "ConnectError"))
      "arxiv" 100 (new_scheduler reliable)
    = (Ok (Scheduler.Statistics Base.zero_stats), s') /\
    Scheduler.last_run (new_scheduler reliable) !! "arxiv"%string = None /\
    Scheduler.last_run s' !! "arxiv"%string = Some 0%Z.
Proof.
  destruct (run_indexer_fetch_failure
              (indexers_with (failing_indexer "arxiv" "ConnectError")) "arxiv"
              (failing_indexer "arxiv" "ConnectError") 100 (new_scheduler reliable)
              "ConnectError" offline eq_refl eq_refl eq_refl eq_refl)
    as (s' & Hrun & Hlr & _).
  exists s'. split; [exact Hrun|]. split; [apply lookup_empty|].
  rewrite Hlr. apply lookup_insert_eq.
Qed.

(** ** Records that normalize to nothing *)

Lemma websearch_parse_missing netloc repr d :
  assoc_get d "title" = None ->
  assoc_get d "url" = None ->
  WebSearch.parse_content netloc repr (JDict d) = Ok None.
Proof.
  intros Ht Hu. unfold WebSearch.parse_content.
  destruct (truthy (JDict d)); [|done]. cbn. by rewrite Ht, Hu.
Qed.

(** C8.  A raw record on which [parse_content] returns [None] changes
    nothing: the three counters, the session and the world are after it as
    they were before, and the run goes on as if the record had not been
    fetched.  The web search indexer returns [None] on a record that has
    neither [title] nor [url]. *)
Theorem absent_record_is_not_counted (self : Base.Indexer) (raw : JVal)
    (before after : list JVal) (w : Base.Self)
    (Habsent : Base.parse_content self raw = Ok None) :
  Base.process_item self raw w = (Ok tt, w) /\
  for_each (before ++ raw :: after) (Base.process_item self) w
  = for_each (before ++ after) (Base.process_item self) w /\
  (forall netloc repr d,
     assoc_get d "title" = None ->
     assoc_get d "url" = None ->
     WebSearch.parse_content netloc repr (JDict d) = Ok None).
Proof.
  split_and!.
  - by apply process_item_none.
  - rewrite !for_each_app. unfold Py.bind.
    destruct (for_each before (Base.process_item self) w) as [[[]|e] w1]; [|done].
    cbn [for_each]. unfold Py.bind. by rewrite process_item_none.
  - apply websearch_parse_missing.
Qed.

(** The record without title and URL, in a run of the web search indexer. *)
Lemma absent_record_is_not_counted_witness :
  Base.process_item (replaying_indexer "websearch" []) anonymous_result new_indexer_object
  = (Ok tt, new_indexer_object).
Proof.
  exact (proj1 (absent_record_is_not_counted (replaying_indexer "websearch" [])
                  anonymous_result [] [] new_indexer_object eq_refl)).
Defined.

(** ** Failures of single records *)

Lemma write_content_raise c w e w1 :
  Base.write_content c w = (Raise e, w1) -> Base.stats w1 = Base.stats w.
Proof.
  intros H. destruct w as [e0 [dur ses ops flt] st]. run_writer; done.
Qed.

Lemma index_content_raise c w e w1 :
  Base.write_content c w = (Raise e, w1) ->
  Base.index_content c w
  = (Ok None, {| Base.env := Base.env w1; Base.db := Base.db w1;
                 Base.stats := one_more_error (Base.stats w) |}).
Proof.
  intros H. unfold Base.index_content, try_except. rewrite H.
  by rewrite <- (write_content_raise c w e w1 H).
Qed.

Lemma checked_url_nonempty c u : checked_url c = Some u -> u <> ""%string.
Proof.
  unfold checked_url. destruct (ContentCreate.source_url c) as [v|]; [|done].
  destruct (String.eqb_spec v ""); [done|]. by intros [= <-].
Qed.

Lemma new_urls_not_duplicate c cs s : new_urls (c :: cs) s -> not_duplicate c s.
Proof.
  intros [_ Hfresh]. unfold not_duplicate.
  destruct (ContentCreate.source_url c) as [u|] eqn:Hu; [|done].
  destruct (String.eqb_spec u ""); [by left|]. right. apply Hfresh.
  cbn. unfold checked_url at 1. rewrite Hu.
  destruct (String.eqb_spec u ""); [done|]. left.
Qed.

Lemma new_urls_tail c cs s : new_urls (c :: cs) s -> new_urls cs (written c s).
Proof.
  intros [Hnd Hfresh]. cbn in Hnd, Hfresh. split.
  - destruct (checked_url c); [by apply NoDup_cons in Hnd as []|done].
  - intros u Hu. apply written_rows_with_url.
    + apply list_elem_of_omap in Hu as (c' & _ & Hc'). by eapply checked_url_nonempty.
    + intros Hc. rewrite Hc in Hnd. by apply NoDup_cons in Hnd as [].
    + apply Hfresh. destruct (checked_url c); [by right|done].
Qed.

(** A batch of new items is written whole. *)
Lemma process_new_items self raws cs : forall w,
  parses_to self raws cs ->
  no_faults (Base.db w) ->
  unique_agents (Db.session (Base.db w)) ->
  new_urls cs (Db.session (Base.db w)) ->
  exists w' rows,
    for_each raws (Base.process_item self) w = (Ok tt, w') /\
    Db.contents (Db.session (Base.db w')) = Db.contents (Db.session (Base.db w)) ++ rows /\
    Forall2 stores_item rows cs /\
    Base.stats w'
    = {| Base.indexed := Base.indexed (Base.stats w) + length cs;
         Base.skipped := Base.skipped (Base.stats w);
         Base.errors := Base.errors (Base.stats w) |} /\
    unique_agents (Db.session (Base.db w')) /\
    Db.fault (Base.db w') = Db.fault (Base.db w) /\
    Db.durable (Base.db w') = Db.durable (Base.db w) /\
    Base.env w' = Base.env w /\
    (forall u, u <> ""%string -> u ∉ omap checked_url cs ->
               Db.rows_with_url u (Db.session (Base.db w)) = [] ->
               Db.rows_with_url u (Db.session (Base.db w')) = []).
Proof.
  intros w Hparse. revert w.
  induction Hparse as [|raw c raws cs Hraw Hparse IH]; intros w Hnf Hua Hnew.
  - exists w, []. cbn. rewrite app_nil_r, Nat.add_0_r.
    split_and!; try done. by destruct (Base.stats w).
  - destruct (index_content_writes c w Hnf) as (row & w1 & Hw1);
      [by eapply new_urls_not_duplicate | by apply unique_agents_rows |].
    pose proof Hw1 as Hinv. apply index_content_written_inv in Hinv
      as (Hs1 & Hc1 & Hrow & _ & _ & Hd1 & Hf1 & He1 & Hst1).
    destruct (IH w1) as (w' & rows & Hl & Hc & Hrows & Hst & Hua' & Hf & Hd & He & Hfresh).
    { unfold no_faults. by rewrite Hf1. }
    { rewrite Hs1. by apply written_unique_agents. }
    { rewrite Hs1. by eapply new_urls_tail. }
    exists w', (row :: rows).
    split_and!.
    + cbn [for_each]. unfold Py.bind. rewrite (process_item_some _ _ c) by done.
      by rewrite Hw1.
    + by rewrite Hc, Hc1, <- app_assoc.
    + by constructor.
    + rewrite Hst, Hst1. cbn. f_equal. lia.
    + done.
    + by rewrite Hf.
    + by rewrite Hd.
    + by rewrite He.
    + intros u Hu Hnot Hempty. apply Hfresh; [done| |].
      * intros Hin. apply Hnot. cbn. destruct (checked_url c); [by right|done].
      * rewrite Hs1. apply written_rows_with_url; [done| |done].
        intros Hc'. apply Hnot. cbn. rewrite Hc'. left.
Qed.

(** C2.  An exception thrown while one record is normalized or written is
    caught there: the loop body never raises, such a record adds exactly one
    to [errors] and nothing to the other counters, and the loop goes on with
    the next record.  In particular, in a batch where one record makes
    [parse_content] raise and the records before and after it are new items,
    the run returns [indexed] raised by the number of those items, [skipped]
    unchanged and [errors] raised by one, and all those items are committed
    (for a batch of five whose third record is the bad one: 4, 0, 1). *)
Theorem partial_failure_is_isolated (self : Base.Indexer) (since : option Z)
    (limit : Z) (w : Base.Self) (before after : list JVal) (bad : JVal)
    (cs_before cs_after : list ContentCreate.t) (err : Exn) (e1 : Http.Env)
    (Hfetch : Base.fetch_content self since limit (Base.env w)
              = (Ok (before ++ bad :: after), e1))
    (Hbad : Base.parse_content self bad = Raise err)
    (Hbefore : parses_to self before cs_before)
    (Hafter : parses_to self after cs_after)
    (Hreliable : no_faults (Base.db w))
    (Hunique : unique_agents (Db.session (Base.db w)))
    (Hnew : new_urls (cs_before ++ cs_after) (Db.session (Base.db w))) :
  (forall raw w0, exists w1, Base.process_item self raw w0 = (Ok tt, w1)) /\
  (forall w0 rest,
     Base.process_item self bad w0
     = (Ok tt, {| Base.env := Base.env w0; Base.db := Base.db w0;
                  Base.stats := one_more_error (Base.stats w0) |}) /\
     for_each (bad :: rest) (Base.process_item self) w0
     = for_each rest (Base.process_item self)
         {| Base.env := Base.env w0; Base.db := Base.db w0;
            Base.stats := one_more_error (Base.stats w0) |}) /\
  (forall raw c w0 e w1,
     Base.parse_content self raw = Ok (Some c) ->
     Base.write_content c w0 = (Raise e, w1) ->
     Base.process_item self raw w0
     = (Ok tt, {| Base.env := Base.env w1; Base.db := Base.db w1;
                  Base.stats := one_more_error (Base.stats w0) |})) /\
  exists w' rows,
    Base.run self since limit w
    = (Ok {| Base.indexed := Base.indexed (Base.stats w) + length before + length after;
             Base.skipped := Base.skipped (Base.stats w);
             Base.errors := Base.errors (Base.stats w) + 1 |}, w') /\
    Db.contents (Db.durable (Base.db w'))
    = Db.contents (Db.session (Base.db w)) ++ rows /\
    Forall2 stores_item rows (cs_before ++ cs_after).
Proof.
  split_and!.
  - intros raw w0. destruct (total_process_item self raw w0) as ([] & w1 & H). eauto.
  - intros w0 rest. rewrite (process_item_raise _ _ err) by done. split; [done|].
    cbn [for_each]. unfold Py.bind. by rewrite (process_item_raise _ _ err).
  - intros raw c w0 e w1 Hp Hw. rewrite (process_item_some _ _ c) by done.
    by rewrite (index_content_raise c w0 e w1).
  - destruct Hnew as [Hnd Hfresh]. rewrite omap_app in Hnd, Hfresh.
    apply NoDup_app in Hnd as (Hnd1 & Hdisj & Hnd2).
    set (w1 := {| Base.env := e1; Base.db := Base.db w; Base.stats := Base.stats w |}).
    destruct (process_new_items self before cs_before w1 Hbefore Hreliable Hunique)
      as (w2 & rows1 & Hl1 & Hc1 & Hr1 & Hst1 & Hu1 & Hf1 & Hd1 & He1 & Hfresh1).
    { split; [done|]. intros u Hu. apply Hfresh. apply elem_of_app. by left. }
    set (w3 := {| Base.env := Base.env w2; Base.db := Base.db w2;
                  Base.stats := one_more_error (Base.stats w2) |}).
    destruct (process_new_items self after cs_after w3 Hafter)
      as (w4 & rows2 & Hl2 & Hc2 & Hr2 & Hst2 & Hu2 & Hf2 & Hd2 & He2 & _).
    { unfold no_faults. cbn. rewrite Hf1. apply Hreliable. }
    { done. }
    { split; [done|]. intros u Hu. cbn. apply Hfresh1.
      - apply list_elem_of_omap in Hu as (c' & _ & Hc'). by eapply checked_url_nonempty.
      - intros Hin. by apply (Hdisj u).
      - apply Hfresh. apply elem_of_app. by right. }
    assert (Hloop : for_each (before ++ bad :: after) (Base.process_item self) w1
                    = (Ok tt, w4)).
    { rewrite for_each_app. unfold Py.bind at 1. rewrite Hl1.
      cbn [for_each]. unfold Py.bind at 1.
      rewrite (process_item_raise _ _ err) by done. exact Hl2. }
    destruct (run_commits self since limit w _ e1 w4 Hfetch Hloop)
      as (w' & Hrun & Hdur & _).
    { rewrite Hf2. cbn. rewrite Hf1. apply Hreliable. }
    exists w', (rows1 ++ rows2). split_and!.
    + rewrite Hrun, Hst2. cbn. rewrite Hst1. cbn.
      rewrite (Forall2_length _ _ _ Hbefore), (Forall2_length _ _ _ Hafter).
      f_equal.
    + rewrite Hdur, Hc2. cbn. by rewrite Hc1, <- app_assoc.
    + by apply Forall2_app.
Qed.

(** The batch of five whose third record is malformed, on an empty catalog:
    4 indexed, 0 skipped, 1 error, and the four items committed. *)
Lemma partial_failure_is_isolated_witness :
  exists w' rows,
    Base.run (replaying_indexer "websearch" batch_of_five) None 50 new_indexer_object
    = (Ok {| Base.indexed := 4; Base.skipped := 0; Base.errors := 1 |}, w') /\
    Db.contents (Db.durable (Base.db w')) = rows /\
    Forall2 stores_item rows
      [found_item "one" "https://example.org/1" "post";
       found_item "two" "https://example.org/2" "post";
       found_item "four" "https://github.com/a/4" "code";
       found_item "five" "https://example.org/5" "post"].
Proof.
  refine (proj2 (proj2 (proj2
    (partial_failure_is_isolated (replaying_indexer "websearch" batch_of_five)
       None 50 new_indexer_object
       [search_result "one" "https://example.org/1";
        search_result "two" "https://example.org/2"]
       [search_result "four" "https://github.com/a/4";
        search_result "five" "https://example.org/5"]
       malformed_result
       [found_item "one" "https://example.org/1" "post";
        found_item "two" "https://example.org/2" "post"]
       [found_item "four" "https://github.com/a/4" "code";
        found_item "five" "https://example.org/5" "post"]
       "TypeError: argument is not iterable" offline
       eq_refl _ _ _ _ _ _)))).
  - vm_compute. reflexivity.
  - repeat (constructor; [vm_compute; reflexivity|]). constructor.
  - repeat (constructor; [vm_compute; reflexivity|]). constructor.
  - intros op n. reflexivity.
  - constructor.
  - split; [|intros u _; reflexivity].
    apply (bool_decide_unpack _). vm_compute. exact Logic.I.
Defined.

(** ** Duplicates *)

Lemma checked_url_some c u :
  ContentCreate.source_url c = Some u -> u <> ""%string -> checked_url c = Some u.
Proof.
  intros Hu Hne. unfold checked_url. rewrite Hu.
  by destruct (String.eqb_spec u "").
Qed.

(** The first write of an item with a URL, in a catalog that holds the URL
    at most once: afterwards the URL is there exactly once. *)
Lemma index_content_first c u w :
  ContentCreate.source_url c = Some u ->
  u <> ""%string ->
  no_faults (Base.db w) ->
  unique_agents (Db.session (Base.db w)) ->
  length (Db.rows_with_url u (Db.session (Base.db w))) <= 1 ->
  exists r1 w1 x,
    Base.index_content c w = (Ok r1, w1) /\
    Db.rows_with_url u (Db.session (Base.db w1)) = [x] /\
    unique_agents (Db.session (Base.db w1)) /\
    Db.fault (Base.db w1) = Db.fault (Base.db w) /\
    Db.durable (Base.db w1) = Db.durable (Base.db w) /\
    Base.env w1 = Base.env w.
Proof.
  intros Hu Hne Hnf Hua Hlen.
  destruct (Db.rows_with_url u (Db.session (Base.db w))) as [|x [|y l]] eqn:Hrows.
  - destruct (index_content_writes c w Hnf) as (row & w1 & Hw1).
    { unfold not_duplicate. rewrite Hu. by right. }
    { by apply unique_agents_rows. }
    pose proof Hw1 as Hinv. apply index_content_written_inv in Hinv
      as (Hs1 & _ & _ & _ & _ & Hd1 & Hf1 & He1 & _).
    pose proof (written_rows_with_url_one c (Db.session (Base.db w)) u
                  (checked_url_some c u Hu Hne) Hrows) as Hone.
    rewrite <- Hs1 in Hone.
    destruct (Db.rows_with_url u (Db.session (Base.db w1))) as [|x [|y l]] eqn:Hrows1;
      try (cbn in Hone; lia).
    exists (Some row), w1, x. split_and!; try done.
    rewrite Hs1. by apply written_unique_agents.
  - destruct (index_content_skips c u x w Hnf Hu Hne Hrows)
      as (w1 & Hw1 & Hs1 & Hd1 & Hf1 & He1 & _).
    exists None, w1, x. split_and!; try done; by rewrite Hs1.
  - cbn in Hlen. lia.
Qed.

Lemma index_content_twice c u w :
  ContentCreate.source_url c = Some u ->
  u <> ""%string ->
  no_faults (Base.db w) ->
  unique_agents (Db.session (Base.db w)) ->
  length (Db.rows_with_url u (Db.session (Base.db w))) <= 1 ->
  exists r1 w1 w2,
    Base.index_content c w = (Ok r1, w1) /\
    Base.index_content c w1 = (Ok None, w2) /\
    length (Db.rows_with_url u (Db.session (Base.db w2))) = 1 /\
    Db.session (Base.db w2) = Db.session (Base.db w1) /\
    Db.durable (Base.db w2) = Db.durable (Base.db w1) /\
    Base.stats w2 = one_more_skipped (Base.stats w1).
Proof.
  intros Hu Hne Hnf Hua Hlen.
  destruct (index_content_first c u w Hu Hne Hnf Hua Hlen)
    as (r1 & w1 & x & Hw1 & Hrows1 & _ & Hf1 & _).
  destruct (index_content_skips c u x w1) as (w2 & Hw2 & Hs2 & Hd2 & _ & _ & Hst2);
    try done.
  { unfold no_faults. by rewrite Hf1. }
  exists r1, w1, w2. split_and!; try done. by rewrite Hs2, Hrows1.
Qed.

(** A run of an indexer that fetches the one record of item [c], in a world
    where no database operation fails. *)
Lemma run_single indexer since limit w raw c e1 :
  Base.fetch_content indexer since limit (Base.env w) = (Ok [raw], e1) ->
  Base.parse_content indexer raw = Ok (Some c) ->
  no_faults (Base.db w) ->
  exists w',
    Base.run indexer since limit w
    = (Ok (Base.stats
             (Base.index_content c
                {| Base.env := e1; Base.db := Base.db w; Base.stats := Base.stats w |}).2),
       w') /\
    Db.durable (Base.db w')
    = Db.session (Base.db
        (Base.index_content c
           {| Base.env := e1; Base.db := Base.db w; Base.stats := Base.stats w |}).2) /\
    Db.fault (Base.db w') = Db.fault (Base.db w) /\
    Base.env w' = e1.
Proof.
  intros Hf Hp Hnf.
  set (w1 := {| Base.env := e1; Base.db := Base.db w; Base.stats := Base.stats w |}).
  destruct (index_content_frame c w1) as (He & _ & Hflt).
  destruct (run_commits indexer since limit w [raw] e1 (Base.index_content c w1).2 Hf)
    as (w' & Hrun & Hd & _ & Hfl & Hen & _).
  { cbn [for_each]. unfold Py.bind. by rewrite (process_item_some _ _ c). }
  { rewrite Hflt. apply Hnf. }
  exists w'. by rewrite Hrun, Hd, Hfl, Hen, Hflt, He.
Qed.

(** C3.  Upsert is idempotent on the source URL.  For an item with a
    non-empty [source_url], in a catalog that holds that URL at most once
    and where no database operation fails: after the item is ingested twice
    in sequence exactly one Content row has the URL; the second
    [index_content] returns [None], leaves the session (Content rows, Agent
    rows, counters of the agents) and the committed rows as they were, and
    adds one to [skipped] only.  Likewise for two runs of an indexer that
    fetches the item's record: the second run returns [indexed = 0],
    [skipped = 1], [errors = 0] and changes nothing in the catalog. *)
Theorem upsert_is_idempotent (c : ContentCreate.t) (u : string) (w : Base.Self)
    (I : Scheduler.Indexers) (platform : string) (indexer : Base.Indexer)
    (raw : JVal) (limit : Z) (s : Scheduler.Sched)
    (Hurl : ContentCreate.source_url c = Some u)
    (Hnonempty : u <> ""%string)
    (Hreliable : no_faults (Base.db w))
    (Hunique : unique_agents (Db.session (Base.db w)))
    (Honce : length (Db.rows_with_url u (Db.session (Base.db w))) <= 1)
    (Hregistered : Scheduler.get_indexer I platform = Some indexer)
    (Hfetch : forall since e, exists e',
                Base.fetch_content indexer since limit e = (Ok [raw], e'))
    (Hparse : Base.parse_content indexer raw = Ok (Some c))
    (Hreliable' : no_faults (Scheduler.database s))
    (Hunique' : unique_agents (Db.durable (Scheduler.database s)))
    (Honce' : length (Db.rows_with_url u (Db.durable (Scheduler.database s))) <= 1) :
  (exists r1 w1 w2,
     Base.index_content c w = (Ok r1, w1) /\
     Base.index_content c w1 = (Ok None, w2) /\
     length (Db.rows_with_url u (Db.session (Base.db w2))) = 1 /\
     Db.session (Base.db w2) = Db.session (Base.db w1) /\
     Db.durable (Base.db w2) = Db.durable (Base.db w1) /\
     Base.stats w2 = one_more_skipped (Base.stats w1)) /\
  (exists st1 s1 s2,
     Scheduler.run_indexer I platform limit s = (Ok (Scheduler.Statistics st1), s1) /\
     Scheduler.run_indexer I platform limit s1
     = (Ok (Scheduler.Statistics
              {| Base.indexed := 0; Base.skipped := 1; Base.errors := 0 |}), s2) /\
     length (Db.rows_with_url u (Db.durable (Scheduler.database s2))) = 1 /\
     Db.durable (Scheduler.database s2) = Db.durable (Scheduler.database s1)).
Proof.
  split; [by apply index_content_twice|].
  (* the first run *)
  destruct (Hfetch (Scheduler.last_run s !! platform) (Scheduler.world s)) as (e1 & Hf1).
  set (o1 := {| Base.env := Scheduler.world s;
                Base.db := {| Db.durable := Db.durable (Scheduler.database s);
                              Db.session := Db.durable (Scheduler.database s);
                              Db.ops := S (Db.ops (Scheduler.database s));
                              Db.fault := Db.fault (Scheduler.database s) |};
                Base.stats := Base.zero_stats |}).
  destruct (run_single indexer _ limit o1 raw c e1 Hf1 Hparse Hreliable')
    as (o1' & Hrun1 & Hd1 & Hfl1 & _).
  destruct (run_indexer_of_run I platform indexer limit s _ o1' Hregistered (Hreliable' _ _) Hrun1)
    as (s1 & Hri1 & _ & _ & Hdur1 & _ & Hflt1).
  destruct (index_content_first c u
              {| Base.env := e1; Base.db := Base.db o1; Base.stats := Base.stats o1 |}
              Hurl Hnonempty Hreliable' Hunique' Honce')
    as (r1 & w1 & x & Hw1 & Hrows1 & Hua1 & _).
  rewrite Hw1 in Hd1. cbn [snd] in Hd1.
  (* the second run *)
  assert (Hnf1 : no_faults (Scheduler.database s1)).
  { unfold no_faults. rewrite Hflt1, Hfl1. apply Hreliable'. }
  destruct (Hfetch (Scheduler.last_run s1 !! platform) (Scheduler.world s1)) as (e2 & Hf2).
  set (o2 := {| Base.env := Scheduler.world s1;
                Base.db := {| Db.durable := Db.durable (Scheduler.database s1);
                              Db.session := Db.durable (Scheduler.database s1);
                              Db.ops := S (Db.ops (Scheduler.database s1));
                              Db.fault := Db.fault (Scheduler.database s1) |};
                Base.stats := Base.zero_stats |}).
  destruct (run_single indexer _ limit o2 raw c e2 Hf2 Hparse Hnf1)
    as (o2' & Hrun2 & Hd2 & _).
  destruct (run_indexer_of_run I platform indexer limit s1 _ o2' Hregistered (Hnf1 _ _) Hrun2)
    as (s2 & Hri2 & _ & _ & Hdur2 & _).
  destruct (index_content_skips c u x
              {| Base.env := e2; Base.db := Base.db o2; Base.stats := Base.stats o2 |}
              Hnf1 Hurl Hnonempty)
    as (w2 & Hw2 & Hs2 & _ & _ & _ & Hst2).
  { cbn. by rewrite Hdur1, Hd1. }
  rewrite Hw2 in Hri2, Hd2. cbn [snd] in Hri2, Hd2. rewrite Hst2 in Hri2.
  exists (Base.stats (Base.index_content c
            {| Base.env := e1; Base.db := Base.db o1; Base.stats := Base.stats o1 |}).2),
    s1, s2.
  split_and!; [done | exact Hri2 | |].
  - rewrite Hdur2, Hd2, Hs2. cbn. by rewrite Hdur1, Hd1, Hrows1.
  - rewrite Hdur2, Hd2, Hs2. done.
Qed.

(** ** What is committed stays *)

Lemma store_extends_refl s : store_extends s s.
Proof. by split. Qed.

Lemma store_extends_trans s1 s2 s3 :
  store_extends s1 s2 -> store_extends s2 s3 -> store_extends s1 s3.
Proof. intros [? ?] [? ?]. split; by etrans. Qed.

Lemma agent_ids_with_total_creations pk v (l : list Agent.t) :
  Agent.agent_id <$> (Db.with_total_creations pk v <$> l) = Agent.agent_id <$> l.
Proof.
  rewrite <- list_fmap_compose. apply list_fmap_ext.
  intros i x _. apply with_total_creations_agent_id.
Qed.

Lemma index_content_extends c w :
  store_extends (Db.session (Base.db w))
    (Db.session (Base.db (Base.index_content c w).2)).
Proof.
  destruct w as [e [dur ses ops flt] st]. unfold store_extends.
  run_writer; cbn; split;
    rewrite ?agent_ids_with_total_creations, ?fmap_app;
    try done; by apply prefix_app_r.
Qed.

Lemma keeps_store_step s0 op :
  preserves (keeps_store s0) (Db.db_step op).
Proof.
  intros d H. unfold Db.db_step. by destruct (Db.fault d op (Db.ops d)).
Qed.

Lemma keeps_store_commit s0 : preserves (keeps_store s0) Db.commit.
Proof.
  intros d [H1 H2]. unfold Db.commit, Py.bind, Db.db_step.
  destruct (Db.fault d Db.OpCommit (Db.ops d)); cbn; [done|].
  split; [by eapply store_extends_trans | apply store_extends_refl].
Qed.

Lemma keeps_store_rollback s0 : preserves (keeps_store s0) Db.rollback.
Proof.
  intros d [H1 H2]. unfold Db.rollback, Py.bind, Db.db_step.
  destruct (Db.fault d Db.OpRollback (Db.ops d)); cbn; [done|].
  split; [done | apply store_extends_refl].
Qed.

Lemma keeps_store_open s0 : preserves (keeps_store s0) Db.open_session.
Proof.
  intros d [H1 H2]. unfold Db.open_session, Py.bind, Db.db_step.
  destruct (Db.fault d Db.OpOpen (Db.ops d)); cbn; [done|].
  split; [done | apply store_extends_refl].
Qed.

Lemma keeps_store_close s0 : preserves (keeps_store s0) Db.close_session.
Proof. intros d [H1 H2]. split; [done | apply store_extends_refl]. Qed.

Lemma preserves_on_db {A} (P : Db.Db -> Prop) (m : M Db.Db A) :
  preserves P m -> preserves (fun w => P (Base.db w)) (Base.on_db m).
Proof.
  intros Hm w Hw. specialize (Hm _ Hw). unfold Base.on_db, zoom.
  by destruct (m (Base.db w)).
Qed.

Lemma preserves_on_env {A} (P : Db.Db -> Prop) (m : M Http.Env A) :
  preserves (fun w => P (Base.db w)) (Base.on_env m).
Proof.
  intros w Hw. unfold Base.on_env, zoom. by destruct (m (Base.env w)).
Qed.

Lemma keeps_store_process_item s0 self raw :
  preserves (fun w => keeps_store s0 (Base.db w)) (Base.process_item self raw).
Proof.
  intros w [H1 H2].
  destruct (process_item_frame self raw w) as (_ & Hd & _).
  split; rewrite Hd; [done|].
  eapply store_extends_trans; [exact H2|].
  destruct (Base.parse_content self raw) as [[c|]|e] eqn:Hp.
  - rewrite (process_item_some _ _ c) by done. apply index_content_extends.
  - rewrite process_item_none by done. apply store_extends_refl.
  - rewrite (process_item_raise _ _ e) by done. apply store_extends_refl.
Qed.

Lemma keeps_store_run s0 self since limit :
  preserves (fun w => keeps_store s0 (Base.db w)) (Base.run self since limit).
Proof.
  unfold Base.run.
  apply preserves_bind; [|intros _; apply preserves_gets].
  apply preserves_try.
  - apply preserves_bind; [apply (preserves_on_env (keeps_store s0))|].
    intros raws. apply preserves_bind.
    + apply preserves_for_each. intros raw. apply keeps_store_process_item.
    + intros _. apply (preserves_on_db (keeps_store s0)), keeps_store_commit.
  - intros e. apply (preserves_on_db (keeps_store s0)), keeps_store_rollback.
Qed.

Lemma preserves_on_database {A} (P : Db.Db -> Prop) (m : M Db.Db A) :
  preserves P m ->
  preserves (fun s => P (Scheduler.database s)) (Scheduler.on_database m).
Proof.
  intros Hm s Hs. specialize (Hm _ Hs). unfold Scheduler.on_database, zoom.
  by destruct (m (Scheduler.database s)).
Qed.

(** A source's run removes nothing that is committed. *)
Lemma keeps_store_run_indexer s0 I platform limit :
  preserves (fun s => keeps_store s0 (Scheduler.database s))
    (Scheduler.run_indexer I platform limit).
Proof.
  unfold Scheduler.run_indexer.
  apply preserves_bind;
    [apply (preserves_on_database (keeps_store s0)), keeps_store_open|].
  intros _. apply preserves_finally;
    [|apply (preserves_on_database (keeps_store s0)), keeps_store_close].
  destruct (Scheduler.get_indexer I platform) as [indexer|]; [|apply preserves_ret].
  apply preserves_try; [|intros e; apply preserves_ret].
  apply preserves_bind; [apply preserves_gets|]. intros since.
  apply preserves_bind.
  - intros s Hs. unfold Scheduler.indexer_run, zoom.
    pose proof (keeps_store_run s0 indexer since limit
                  {| Base.env := Scheduler.world s; Base.db := Scheduler.database s;
                     Base.stats := Base.zero_stats |} Hs) as H.
    by destruct (Base.run indexer since limit _).
  - intros st. apply preserves_bind.
    + intros s Hs. unfold Scheduler.on_world, zoom.
      by destruct (Http.utcnow (Scheduler.world s)).
    + intros now. apply preserves_bind; [by intros s Hs|].
      intros _. apply preserves_ret.
Qed.

(** A source's run that returns has closed its session. *)
Lemma run_indexer_closes I platform limit s r s' :
  Scheduler.run_indexer I platform limit s = (Ok r, s') ->
  Db.session (Scheduler.database s') = Db.durable (Scheduler.database s').
Proof.
  unfold Scheduler.run_indexer, Py.bind, finally.
  destruct (Scheduler.on_database Db.open_session s) as [[[]|e] s1]; [|done].
  match goal with |- context [match ?m s1 with _ => _ end] => destruct (m s1) as [r1 s2] end.
  cbn. by intros [= _ <-].
Qed.

(** ** [run_all_indexers] *)

(** One turn of the loop: the source runs, its result or its exception
    becomes its entry, and the loop pauses unless the source raised. *)
Lemma run_platforms_step I limit platform s (results : gmap string Scheduler.RunResult) :
  try_except
    (let* r := outer (Scheduler.run_indexer I platform limit) in
     local_modify (<[platform := r]>) >>
     outer (Scheduler.on_world (Http.sleep 2000)))
    (fun e => local_modify (<[platform := Scheduler.ErrorEntry e]>))
    (s, results)
  = (Ok tt,
     (next_start (Scheduler.run_indexer I platform limit s).1
        (Scheduler.run_indexer I platform limit s).2,
      <[platform := entry_of (Scheduler.run_indexer I platform limit s).1]> results)).
Proof.
  unfold try_except, Py.bind, outer, zoom. cbn [fst snd].
  by destruct (Scheduler.run_indexer I platform limit s) as [[r|e] s1].
Qed.

(** The loop never raises, and every platform of the list gets an entry. *)
Lemma run_platforms_loop I limit platforms :
  forall s (results : gmap string Scheduler.RunResult),
  exists s' results',
    for_each platforms (fun platform =>
      try_except
        (let* r := outer (Scheduler.run_indexer I platform limit) in
         local_modify (<[platform := r]>) >>
         outer (Scheduler.on_world (Http.sleep 2000)))
        (fun e => local_modify (<[platform := Scheduler.ErrorEntry e]>)))
      (s, results)
    = (Ok tt, (s', results')) /\
    forall p, p ∈ platforms \/ is_Some (results !! p) -> is_Some (results' !! p).
Proof.
  induction platforms as [|p ps IH]; intros s results.
  - exists s, results. split; [done|]. intros p [Hp|Hp]; [|done].
    by apply not_elem_of_nil in Hp.
  - cbn [for_each]. unfold Py.bind at 1. rewrite run_platforms_step.
    edestruct IH as (s' & results' & Hl & Hr). exists s', results'.
    split; [exact Hl|]. intros q Hq. apply Hr.
    destruct (decide (q = p)) as [->|Hne].
    + right. rewrite lookup_insert_eq. eauto.
    + destruct Hq as [Hq|Hq].
      * apply elem_of_cons in Hq as [->|Hq]; [done|by left].
      * right. by rewrite lookup_insert_ne.
Qed.

(** An exception that escapes a source's run is isolated.
    [run_all_indexers] walks its fixed list of seven platforms one after the
    other, never raises, and gives every platform an entry.  For three
    sources A, B, C run in this way, where A and C return statistics and B
    fails (its run raises, or returns the error entry of [run_indexer]): B
    starts after A has finished and the pause of two seconds has passed, C
    starts after B, the result maps A and C to their statistics and B to an
    error entry, and what A had committed is still in the catalog at the
    end, followed by what C committed.  (The pause follows every source
    whose [run_indexer] returns; an exception that escapes [run_indexer]
    skips it.) *)
Theorem run_all_isolates_failures (I : Scheduler.Indexers) (A B C : string)
    (limit : Z) (s sA sB sC : Scheduler.Sched) (stA stC : Base.Stats)
    (rB : Res Scheduler.RunResult) (reason : string)
    (Hdistinct : NoDup [A; B; C])
    (HA : Scheduler.run_indexer I A limit s = (Ok (Scheduler.Statistics stA), sA))
    (HB : Scheduler.run_indexer I B limit (paused sA) = (rB, sB))
    (Hfails : rB = Raise reason \/ rB = Ok (Scheduler.ErrorEntry reason))
    (HC : Scheduler.run_indexer I C limit (next_start rB sB)
          = (Ok (Scheduler.Statistics stC), sC)) :
  (exists results,
     Scheduler.run_platforms I [A; B; C] limit s = (Ok results, paused sC) /\
     results !! A = Some (Scheduler.Statistics stA) /\
     results !! B = Some (Scheduler.ErrorEntry reason) /\
     results !! C = Some (Scheduler.Statistics stC)) /\
  store_extends (Db.durable (Scheduler.database sA))
    (Db.durable (Scheduler.database (paused sC))) /\
  Db.durable (Scheduler.database (paused sC)) = Db.durable (Scheduler.database sC) /\
  (forall s0, exists results s',
     Scheduler.run_all_indexers I limit s0 = (Ok results, s') /\
     forall p, p ∈ Scheduler.platforms -> is_Some (results !! p)).
Proof.
  apply NoDup_cons in Hdistinct as [HAB Hdistinct].
  apply NoDup_cons in Hdistinct as [HBC _].
  assert (A <> B /\ A <> C /\ B <> C) as (HnAB & HnAC & HnBC).
  { split_and!; intros ->; [apply HAB|apply HAB|apply HBC]; set_solver. }
  split_and!.
  - eexists. split.
    + unfold Scheduler.run_platforms, with_locals, Py.bind at 1.
      cbn [for_each]. unfold Py.bind at 1. rewrite run_platforms_step, HA.
      unfold Py.bind at 1. cbn [fst snd next_start].
      rewrite run_platforms_step, HB.
      unfold Py.bind at 1. cbn [fst snd].
      rewrite run_platforms_step, HC. cbn. reflexivity.
    + assert (entry_of rB = Scheduler.ErrorEntry reason) as ->
        by (by destruct Hfails as [-> | ->]).
      cbn. split_and!.
      * by rewrite lookup_insert_ne, lookup_insert_ne, lookup_insert_eq.
      * by rewrite lookup_insert_ne, lookup_insert_eq.
      * by rewrite lookup_insert_eq.
  - assert (HkA : keeps_store (Db.durable (Scheduler.database sA))
                    (Scheduler.database (paused sA))).
    { cbn. split; [apply store_extends_refl|].
      rewrite (run_indexer_closes _ _ _ _ _ _ HA). apply store_extends_refl. }
    pose proof (keeps_store_run_indexer _ I B limit _ HkA) as HkB.
    rewrite HB in HkB. cbn [snd] in HkB.
    assert (HkB' : keeps_store (Db.durable (Scheduler.database sA))
                     (Scheduler.database (next_start rB sB)))
      by (by destruct rB).
    pose proof (keeps_store_run_indexer _ I C limit _ HkB') as HkC.
    rewrite HC in HkC. cbn [snd] in HkC. by destruct HkC.
  - done.
  - intros s0. unfold Scheduler.run_all_indexers, Scheduler.run_platforms, with_locals.
    destruct (run_platforms_loop I limit Scheduler.platforms s0 ∅)
      as (s' & results' & Hl & Hr).
    exists results', s'. unfold Py.bind at 1. rewrite Hl. split; [done|].
    intros p Hp. apply Hr. by left.
Qed.

(** GitHub, arXiv and the web search in a row, where the arXiv fetch raises
    and the rollback that follows fails too, so that the arXiv run raises. *)
Lemma run_all_isolates_failures_witness :
  exists results,
    Scheduler.run_platforms (indexers_with (failing_indexer "arxiv" "ConnectError"))
      ["github"; "arxiv"; "websearch"]%string 50 (new_scheduler (rollback_fails_at 6))
    = (Ok results,
       paused (Scheduler.run_indexer
                 (indexers_with (failing_indexer "arxiv" "ConnectError")) "websearch" 50
                 (paused (Scheduler.run_indexer
                            (indexers_with (failing_indexer "arxiv" "ConnectError"))
                            "arxiv" 50
                            (paused (Scheduler.run_indexer
                                       (indexers_with (failing_indexer "arxiv" "ConnectError"))
                                       "github" 50
                                       (new_scheduler (rollback_fails_at 6))).2)).2)).2) /\
    results !! "github"%string
    = Some (Scheduler.Statistics
              {| Base.indexed := 1; Base.skipped := 0; Base.errors := 0 |}) /\
    results !! "arxiv"%string
    = Some (Scheduler.ErrorEntry "OperationalError: database operation failed") /\
    results !! "websearch"%string
    = Some (Scheduler.Statistics
              {| Base.indexed := 4; Base.skipped := 0; Base.errors := 1 |}).
Proof.
  set (I := indexers_with (failing_indexer "arxiv" "ConnectError")).
  set (s := new_scheduler (rollback_fails_at 6)).
  set (sA := (Scheduler.run_indexer I "github" 50 s).2).
  set (sB := (Scheduler.run_indexer I "arxiv" 50 (paused sA)).2).
  set (sC := (Scheduler.run_indexer I "websearch" 50 (paused sB)).2).
  refine (proj1 (run_all_isolates_failures I "github" "arxiv" "websearch" 50
                   s sA sB sC
                   {| Base.indexed := 1; Base.skipped := 0; Base.errors := 0 |}
                   {| Base.indexed := 4; Base.skipped := 0; Base.errors := 1 |}
                   (Ok (Scheduler.ErrorEntry "OperationalError: database operation failed"))
                   "OperationalError: database operation failed"
                   _ _ _ (or_intror eq_refl) _)).
  - apply (bool_decide_unpack _). vm_compute. exact Logic.I.
  - vm_compute. reflexivity.
  - vm_compute. reflexivity.
  - vm_compute. reflexivity.
Defined.

(** C6, on the code.  [run_all_indexers] over three sources A, B, C, where
    the collector of B raises in its fetch and the database works:
    [BaseIndexer.run] swallows the exception, so the loop records for B the
    plain zero statistics of a run that found nothing, not an error entry,
    and B's watermark is set.  A and C are run as the claim says. *)
Theorem collector_failure_is_no_error_entry (I : Scheduler.Indexers) (A B C : string)
    (indexer : Base.Indexer) (limit : Z) (s sA sB sC : Scheduler.Sched)
    (stA stC : Base.Stats) (err : string) (e1 : Http.Env)
    (Hdistinct : NoDup [A; B; C])
    (HA : Scheduler.run_indexer I A limit s = (Ok (Scheduler.Statistics stA), sA))
    (Hregistered : Scheduler.get_indexer I B = Some indexer)
    (Hopen : Db.fault (Scheduler.database sA) Db.OpOpen
               (Db.ops (Scheduler.database sA)) = false)
    (Hrollback : Db.fault (Scheduler.database sA) Db.OpRollback
                   (S (Db.ops (Scheduler.database sA))) = false)
    (Hfetch : Base.fetch_content indexer (Scheduler.last_run sA !! B) limit
                (Scheduler.world (paused sA))
              = (Raise err, e1))
    (HB : (Scheduler.run_indexer I B limit (paused sA)).2 = sB)
    (HC : Scheduler.run_indexer I C limit (paused sB)
          = (Ok (Scheduler.Statistics stC), sC)) :
  exists results,
    Scheduler.run_platforms I [A; B; C] limit s = (Ok results, paused sC) /\
    results !! A = Some (Scheduler.Statistics stA) /\
    results !! B = Some (Scheduler.Statistics Base.zero_stats) /\
    results !! C = Some (Scheduler.Statistics stC) /\
    (forall reason, results !! B <> Some (Scheduler.ErrorEntry reason)) /\
    Scheduler.last_run sB !! B = Some (Http.clock e1).
Proof.
  apply NoDup_cons in Hdistinct as [HAB Hdistinct].
  apply NoDup_cons in Hdistinct as [HBC _].
  assert (A <> B /\ A <> C /\ B <> C) as (HnAB & HnAC & HnBC).
  { split_and!; intros ->; [apply HAB|apply HAB|apply HBC]; set_solver. }
  destruct (run_indexer_fetch_failure I B indexer limit (paused sA) err e1
              Hregistered Hopen Hrollback Hfetch) as (sB' & HrunB & Hlr & _).
  rewrite HrunB in HB. cbn [snd] in HB. subst sB'.
  assert (HlB : Scheduler.last_run sB !! B = Some (Http.clock e1))
    by (rewrite Hlr; apply lookup_insert_eq).
  eexists. split.
  { unfold Scheduler.run_platforms, with_locals, Py.bind at 1.
    cbn [for_each]. unfold Py.bind at 1. rewrite run_platforms_step, HA.
    unfold Py.bind at 1. cbn [fst snd next_start].
    rewrite run_platforms_step, HrunB.
    unfold Py.bind at 1. cbn [fst snd next_start].
    rewrite run_platforms_step, HC. cbn. reflexivity. }
  cbn [entry_of]. split_and!.
  - by rewrite lookup_insert_ne, lookup_insert_ne, lookup_insert_eq.
  - by rewrite lookup_insert_ne, lookup_insert_eq.
  - by rewrite lookup_insert_eq.
  - intros reason. by rewrite lookup_insert_ne, lookup_insert_eq.
  - done.
Qed.

(** GitHub, arXiv and the web search in a row over a database that works,
    where the arXiv fetch raises: arXiv is recorded with zero statistics. *)
Lemma collector_failure_is_no_error_entry_witness :
  exists results s',
    Scheduler.run_platforms (indexers_with (failing_indexer "arxiv" "ConnectError"))
      ["github"; "arxiv"; "websearch"]%string 50 (new_scheduler reliable)
    = (Ok results, s') /\
    results !! "github"%string
    = Some (Scheduler.Statistics
              {| Base.indexed := 1; Base.skipped := 0; Base.errors := 0 |}) /\
    results !! "arxiv"%string = Some (Scheduler.Statistics Base.zero_stats) /\
    results !! "websearch"%string
    = Some (Scheduler.Statistics
              {| Base.indexed := 4; Base.skipped := 0; Base.errors := 1 |}).
Proof.
  set (I := indexers_with (failing_indexer "arxiv" "ConnectError")).
  set (s := new_scheduler reliable).
  set (sA := (Scheduler.run_indexer I "github" 50 s).2).
  set (sB := (Scheduler.run_indexer I "arxiv" 50 (paused sA)).2).
  set (sC := (Scheduler.run_indexer I "websearch" 50 (paused sB)).2).
  destruct (collector_failure_is_no_error_entry I "github" "arxiv" "websearch"
              (failing_indexer "arxiv" "ConnectError") 50 s sA sB sC
              {| Base.indexed := 1; Base.skipped := 0; Base.errors := 0 |}
              {| Base.indexed := 4; Base.skipped := 0; Base.errors := 1 |}
              "ConnectError" (Scheduler.world (paused sA)))
    as (results & Hrun & Hg & Ha & Hw & _).
  - apply (bool_decide_unpack _). vm_compute. exact Logic.I.
  - vm_compute. reflexivity.
  - reflexivity.
  - reflexivity.
  - reflexivity.
  - reflexivity.
  - reflexivity.
  - vm_compute. reflexivity.
  - exists results, (paused sC). split; [exact Hrun|]. split; [exact Hg|].
    split; [exact Ha|exact Hw].
Defined.

(** The Reddit stand-in run twice from an empty catalog: the second run
    skips the one post. *)
Lemma upsert_is_idempotent_witness :
  exists st1 s1 s2,
    Scheduler.run_indexer (indexers_with (replaying_indexer "arxiv" [])) "reddit" 30
      (new_scheduler reliable)
    = (Ok (Scheduler.Statistics st1), s1) /\
    Scheduler.run_indexer (indexers_with (replaying_indexer "arxiv" [])) "reddit" 30 s1
    = (Ok (Scheduler.Statistics
             {| Base.indexed := 0; Base.skipped := 1; Base.errors := 0 |}), s2) /\
    length (Db.rows_with_url "https://reddit.com/r/x/1"
              (Db.durable (Scheduler.database s2))) = 1 /\
    Db.durable (Scheduler.database s2) = Db.durable (Scheduler.database s1).
Proof.
  refine (proj2 (upsert_is_idempotent
                   (found_item "post" "https://reddit.com/r/x/1" "post")
                   "https://reddit.com/r/x/1" new_indexer_object
                   (indexers_with (replaying_indexer "arxiv" [])) "reddit"
                   (replaying_indexer "reddit"
                      [search_result "post" "https://reddit.com/r/x/1"])
                   (search_result "post" "https://reddit.com/r/x/1") 30
                   (new_scheduler reliable)
                   eq_refl _ _ _ _ eq_refl _ _ _ _ _)).
  - discriminate.
  - intros op n. reflexivity.
  - constructor.
  - simpl. lia.
  - intros since e. exists e. reflexivity.
  - vm_compute. reflexivity.
  - intros op n. reflexivity.
  - constructor.
  - simpl. lia.
Defined.

(* ===================================================================== *)
(** * Further properties of the code *)
(* ===================================================================== *)

(** ** Accounting of a run *)

Lemma index_content_handled c w :
  handled (Base.stats (Base.index_content c w).2) = S (handled (Base.stats w)).
Proof.
  destruct w as [e [dur ses ops flt] [i s r]]. unfold handled.
  run_writer; lia.
Qed.

Lemma process_item_handled self raw w :
  handled (Base.stats (Base.process_item self raw w).2)
  = handled (Base.stats w) + (if counted self raw then 1 else 0).
Proof.
  unfold counted.
  destruct (Base.parse_content self raw) as [[c|]|e] eqn:Hp.
  - rewrite (process_item_some _ _ c) by done. cbn [snd].
    rewrite index_content_handled. lia.
  - rewrite process_item_none by done. cbn [snd]. lia.
  - rewrite (process_item_raise _ _ e) by done. unfold handled. cbn. lia.
Qed.

Lemma process_items_handled self raws : forall w,
  handled (Base.stats (for_each raws (Base.process_item self) w).2)
  = handled (Base.stats w) + length (List.filter (counted self) raws).
Proof.
  induction raws as [|raw raws IH]; intros w; [cbn; lia|].
  cbn [for_each List.filter]. unfold Py.bind at 1.
  pose proof (process_item_handled self raw w) as H1.
  destruct (total_process_item self raw w) as ([] & w1 & Hw1).
  rewrite Hw1 in H1 |- *. cbn [snd] in H1. rewrite IH, H1.
  destruct (counted self raw); cbn; lia.
Qed.

(** The counters a run leaves are those its loop leaves: commit and
    rollback touch the database only. *)
Lemma run_stats self since limit w raws e1 :
  Base.fetch_content self since limit (Base.env w) = (Ok raws, e1) ->
  Base.stats (Base.run self since limit w).2
  = Base.stats (for_each raws (Base.process_item self)
                  {| Base.env := e1; Base.db := Base.db w; Base.stats := Base.stats w |}).2.
Proof.
  intros Hf.
  destruct (process_items_run self raws e1 w) as (w2 & Hl & _).
  unfold Base.run. unfold Py.bind at 1, try_except, Py.bind at 1.
  unfold Base.on_env at 1, zoom at 1. rewrite Hf.
  unfold Py.bind at 1. rewrite Hl.
  unfold Base.on_db, zoom, Db.commit, Db.rollback, Py.bind, Db.db_step. cbn.
  repeat (case_match; cbn; simplify_eq); done.
Qed.

(** X1.  A run accounts for every fetched record exactly once: when the
    fetch returns, the three counters together grow by the number of records
    that [parse_content] does not turn into [None] (an item, or an
    exception), whatever the database does; and with a rollback that works
    these are the counters the run returns. *)
Theorem run_counts_each_record_once (self : Base.Indexer) (since : option Z)
    (limit : Z) (w : Base.Self) (raws : list JVal) (e1 : Http.Env)
    (Hfetch : Base.fetch_content self since limit (Base.env w) = (Ok raws, e1)) :
  handled (Base.stats (Base.run self since limit w).2)
  = handled (Base.stats w) + length (List.filter (counted self) raws) /\
  (rollback_works (Base.db w) ->
   exists st w',
     Base.run self since limit w = (Ok st, w') /\
     handled st = handled (Base.stats w) + length (List.filter (counted self) raws)).
Proof.
  assert (H : handled (Base.stats (Base.run self since limit w).2)
              = handled (Base.stats w) + length (List.filter (counted self) raws))
    by (by rewrite (run_stats _ _ _ _ raws e1), process_items_handled).
  split; [exact H|]. intros Hrb.
  destruct (run_returns self since limit w Hrb) as (w' & Hrun & _).
  exists (Base.stats w'), w'. split; [exact Hrun|]. by rewrite Hrun in H.
Qed.

(** The batch of five: four items and one record that raises. *)
Lemma run_counts_each_record_once_witness :
  handled (Base.stats (Base.run (replaying_indexer "websearch" batch_of_five) None 50
                         new_indexer_object).2) = 5.
Proof.
  exact (proj1 (run_counts_each_record_once (replaying_indexer "websearch" batch_of_five)
                  None 50 new_indexer_object batch_of_five offline eq_refl)).
Defined.

(** ** The duplicate check *)

Lemma no_url_not_duplicate c s : checked_url c = None -> not_duplicate c s.
Proof.
  unfold checked_url, not_duplicate.
  destruct (ContentCreate.source_url c) as [u|]; [|done].
  destruct (String.eqb_spec u ""); [by left|done].
Qed.

(** X2.  An item without a source URL ([None] or the empty string) is never
    taken for a duplicate: indexed twice in a row, it is written twice, as
    two rows with its fields, and counted twice as indexed. *)
Theorem item_without_url_is_written_again (c : ContentCreate.t) (w : Base.Self)
    (Hurl : checked_url c = None)
    (Hnf : no_faults (Base.db w))
    (Hag : length (Db.rows_of_agent (ContentCreate.agent_id_external c)
                     (Db.session (Base.db w))) <= 1) :
  exists row1 w1 row2 w2,
    Base.index_content c w = (Ok (Some row1), w1) /\
    Base.index_content c w1 = (Ok (Some row2), w2) /\
    Db.contents (Db.session (Base.db w2))
    = Db.contents (Db.session (Base.db w)) ++ [row1; row2] /\
    stores_item row1 c /\ stores_item row2 c /\
    Base.stats w2 = one_more_indexed (one_more_indexed (Base.stats w)).
Proof.
  destruct (index_content_writes c w Hnf (no_url_not_duplicate c _ Hurl) Hag)
    as (row1 & w1 & H1).
  pose proof (index_content_written_inv _ _ _ _ H1)
    as (Hs1 & Hc1 & Hrow1 & _ & _ & _ & Hf1 & _ & Hst1).
  assert (Hnf1 : no_faults (Base.db w1)) by (intros op n; rewrite Hf1; apply Hnf).
  assert (Hag1 : length (Db.rows_of_agent (ContentCreate.agent_id_external c)
                           (Db.session (Base.db w1))) <= 1).
  { rewrite Hs1, written_rows_of_agent by done.
    destruct (Db.rows_of_agent _ _); cbn; lia. }
  destruct (index_content_writes c w1 Hnf1 (no_url_not_duplicate c _ Hurl) Hag1)
    as (row2 & w2 & H2).
  pose proof (index_content_written_inv _ _ _ _ H2)
    as (_ & Hc2 & Hrow2 & _ & _ & _ & _ & _ & Hst2).
  exists row1, w1, row2, w2. split_and!; try done.
  - by rewrite Hc2, Hc1, <- app_assoc.
  - by rewrite Hst2, Hst1.
Qed.

(** A post whose URL is the empty string, into an empty catalog. *)
Lemma item_without_url_is_written_again_witness :
  exists row1 w1 row2 w2,
    Base.index_content (post_by "github:alice" "repo" "") new_indexer_object
    = (Ok (Some row1), w1) /\
    Base.index_content (post_by "github:alice" "repo" "") w1 = (Ok (Some row2), w2) /\
    Db.contents (Db.session (Base.db w2)) = [row1; row2].
Proof.
  destruct (item_without_url_is_written_again (post_by "github:alice" "repo" "")
              new_indexer_object eq_refl (fun _ _ => eq_refl) (le_S _ _ (le_n 0)))
    as (row1 & w1 & row2 & w2 & H1 & H2 & Hc & _).
  exists row1, w1, row2, w2. split; [exact H1|]. split; [exact H2|exact Hc].
Defined.

Lemma index_content_ambiguous c u w :
  ContentCreate.source_url c = Some u ->
  u <> ""%string ->
  2 <= length (Db.rows_with_url u (Db.session (Base.db w))) ->
  exists w',
    Base.index_content c w = (Ok None, w') /\
    Db.session (Base.db w') = Db.session (Base.db w) /\
    Db.durable (Base.db w') = Db.durable (Base.db w) /\
    Base.stats w' = one_more_error (Base.stats w).
Proof.
  intros Hurl Hne Htwice.
  destruct w as [e [dur ses ops flt] st]. apply String.eqb_neq in Hne.
  run_writer;
    try (match goal with
         | H : Db.rows_with_url _ _ = _ |- _ =>
             cbn in H; rewrite H in Htwice; cbn in Htwice; lia
         end);
    eexists; by split_and!.
Qed.

(** X3.  A URL the catalog already holds more than once is not skipped: the
    duplicate check raises on it, so an item with that URL is counted as an
    error, and nothing is written. *)
Theorem ambiguous_url_counts_as_error (c : ContentCreate.t) (u : string)
    (w : Base.Self)
    (Hurl : ContentCreate.source_url c = Some u)
    (Hne : u <> ""%string)
    (Htwice : 2 <= length (Db.rows_with_url u (Db.session (Base.db w)))) :
  exists w',
    Base.index_content c w = (Ok None, w') /\
    Db.session (Base.db w') = Db.session (Base.db w) /\
    Db.durable (Base.db w') = Db.durable (Base.db w) /\
    Base.stats w' = one_more_error (Base.stats w).
Proof. by apply (index_content_ambiguous c u). Qed.

(** ** Agents *)

Ltac run_agent :=
  unfold Base.get_or_create_agent, Db.select_agent, Db.add_agent, Db.flush,
    Db.db_step, Db.scalar_one_or_none, Py.bind, lift_res, gets, ret in *;
  cbn in *;
  repeat (case_match; cbn in *; simplify_eq).

(** X4.  [get_or_create_agent] finds what it made: the agent it returns is
    the one row of the session with that external id, and a second call for
    the id, under any name, returns the same row and leaves the session as
    it is.  The name of an agent is set when the agent is made and never
    after. *)
Theorem get_or_create_agent_finds_its_agent (agent_id name name' : string)
    (d d' : Db.Db) (a : Agent.t)
    (Hfirst : Base.get_or_create_agent agent_id name d = (Ok a, d')) :
  Agent.agent_id a = agent_id /\
  Db.rows_of_agent agent_id (Db.session d') = [a] /\
  (Db.rows_of_agent agent_id (Db.session d) = [] -> Agent.name a = name) /\
  (Db.fault d' Db.OpExecute (Db.ops d') = false ->
   exists d'',
     Base.get_or_create_agent agent_id name' d' = (Ok a, d'') /\
     Db.session d'' = Db.session d' /\
     Db.durable d'' = Db.durable d').
Proof.
  destruct d as [dur ses ops flt].
  assert (Hrows : Agent.agent_id a = agent_id /\
                  Db.rows_of_agent agent_id (Db.session d') = [a] /\
                  (Db.rows_of_agent agent_id ses = [] -> Agent.name a = name)).
  { run_agent.
    - cbn in H |- *. split_and!; [|done|congruence].
      assert (Hin : a ∈ Db.rows_of_agent agent_id ses)
        by (rewrite H; left).
      by apply list_elem_of_filter in Hin as [? _].
    - cbn in H |- *. split_and!; [done| |done].
      unfold Db.rows_of_agent in *. rewrite filter_app, H. cbn.
      by rewrite decide_True. }
  destruct Hrows as (Hid & Hrows & Hname). split_and!; try done.
  intros Hex. destruct d' as [dur' ses' ops' flt'].
  unfold Base.get_or_create_agent, Db.select_agent, Db.db_step, Db.scalar_one_or_none,
    Py.bind, lift_res, gets, ret.
  cbn in Hex, Hrows |- *. rewrite Hex. cbn. rewrite Hrows. cbn.
  eexists. by split_and!.
Qed.

(** The first post of an agent makes the agent. *)
Lemma get_or_create_agent_finds_its_agent_witness :
  exists a d',
    Base.get_or_create_agent "reddit:alice" "alice" (empty_db reliable) = (Ok a, d') /\
    Agent.name a = "alice"%string /\
    exists d'',
      Base.get_or_create_agent "reddit:alice" "bob" d' = (Ok a, d'') /\
      Db.session d'' = Db.session d'.
Proof.
  set (r := Base.get_or_create_agent "reddit:alice" "alice" (empty_db reliable)).
  assert (Hr : r = (r.1, r.2)) by (by destruct r).
  assert (H1 : r.1 = Ok (Db.new_agent "reddit:alice" "alice" [])) by reflexivity.
  rewrite H1 in Hr.
  destruct (get_or_create_agent_finds_its_agent "reddit:alice" "alice" "bob"
              (empty_db reliable) r.2 _ Hr) as (_ & _ & Hname & Hagain).
  exists (Db.new_agent "reddit:alice" "alice" []), r.2.
  split; [exact Hr|]. split; [exact (Hname eq_refl)|].
  destruct (Hagain eq_refl) as (d'' & H2 & Hs & _).
  exists d''. split; [exact H2|exact Hs].
Defined.

(** A catalog with the same post written twice, as by two posts to the API. *)
Lemma ambiguous_url_counts_as_error_witness :
  exists w',
    Base.index_content (post_by "reddit:alice" "first" "https://reddit.com/r/x/1")
      posted_twice
    = (Ok None, w') /\
    Base.stats w' = {| Base.indexed := 0; Base.skipped := 0; Base.errors := 1 |}.
Proof.
  destruct (ambiguous_url_counts_as_error
              (post_by "reddit:alice" "first" "https://reddit.com/r/x/1")
              "https://reddit.com/r/x/1" posted_twice eq_refl ltac:(discriminate)
              (le_n 2))
    as (w' & H & _ & _ & Hst).
  exists w'. split; [exact H|exact Hst].
Defined.

(** ** Invariants of the database through a run *)

Lemma preserves_with_locals {S L A} (I : S -> Prop) (init : L) (m : M (S * L) A) :
  preserves (fun sl => I sl.1 /\ True) m -> preserves I (with_locals init m).
Proof.
  intros Hm s Hs. specialize (Hm (s, init) (conj Hs Logic.I)).
  unfold with_locals. destruct (m (s, init)) as [r [s' l']]. by destruct Hm.
Qed.

Lemma preserves_for_each_in {S A} (I : S -> Prop) (l : list A) (body : A -> M S unit) :
  (forall x, x ∈ l -> preserves I (body x)) -> preserves I (for_each l body).
Proof.
  induction l as [|x l IH]; intros Hb; [apply preserves_ret|].
  cbn [for_each]. apply preserves_bind; [apply Hb; left|].
  intros _. apply IH. intros y Hy. apply Hb. by right.
Qed.

(** The loop of [run_all_indexers] keeps what every source's run and the
    pause keep. *)
Lemma preserves_run_platforms (P : Scheduler.Sched -> Prop) I platforms limit :
  (forall p, p ∈ platforms -> preserves P (Scheduler.run_indexer I p limit)) ->
  preserves P (Scheduler.on_world (Http.sleep 2000)) ->
  preserves P (Scheduler.run_platforms I platforms limit).
Proof.
  intros Hrun Hsleep. unfold Scheduler.run_platforms.
  apply preserves_with_locals.
  apply preserves_bind; [|intros _; apply preserves_gets].
  apply preserves_for_each_in. intros p Hp.
  apply preserves_try.
  - apply preserves_bind;
      [apply (preserves_outer P (fun _ => True)), Hrun, Hp|].
    intros r. apply preserves_bind;
      [by apply (preserves_local_modify P (fun _ => True))|].
    intros _. apply (preserves_outer P (fun _ => True)), Hsleep.
  - intros e. by apply (preserves_local_modify P (fun _ => True)).
Qed.

Section DbInvariant.
Context (P : Db.Db -> Prop).

Hypothesis P_commit : preserves P Db.commit.
Hypothesis P_rollback : preserves P Db.rollback.
Hypothesis P_open : preserves P Db.open_session.
Hypothesis P_close : preserves P Db.close_session.
Hypothesis P_item : forall self raw,
  preserves (fun w => P (Base.db w)) (Base.process_item self raw).

Lemma invariant_run self since limit :
  preserves (fun w => P (Base.db w)) (Base.run self since limit).
Proof.
  unfold Base.run.
  apply preserves_bind; [|intros _; apply preserves_gets].
  apply preserves_try.
  - apply preserves_bind; [apply (preserves_on_env P)|].
    intros raws. apply preserves_bind.
    + apply preserves_for_each. intros raw. apply P_item.
    + intros _. apply (preserves_on_db P), P_commit.
  - intros e. apply (preserves_on_db P), P_rollback.
Qed.

Lemma invariant_run_indexer I platform limit :
  preserves (fun s => P (Scheduler.database s)) (Scheduler.run_indexer I platform limit).
Proof.
  unfold Scheduler.run_indexer.
  apply preserves_bind; [apply (preserves_on_database P), P_open|].
  intros _. apply preserves_finally; [|apply (preserves_on_database P), P_close].
  destruct (Scheduler.get_indexer I platform) as [indexer|]; [|apply preserves_ret].
  apply preserves_try; [|intros e; apply preserves_ret].
  apply preserves_bind; [apply preserves_gets|]. intros since.
  apply preserves_bind.
  - intros s Hs. unfold Scheduler.indexer_run, zoom.
    pose proof (invariant_run indexer since limit
                  {| Base.env := Scheduler.world s; Base.db := Scheduler.database s;
                     Base.stats := Base.zero_stats |} Hs) as H.
    by destruct (Base.run indexer since limit _).
  - intros st. apply preserves_bind.
    + intros s Hs. unfold Scheduler.on_world, zoom.
      by destruct (Http.utcnow (Scheduler.world s)).
    + intros now. apply preserves_bind; [by intros s Hs|].
      intros _. apply preserves_ret.
Qed.

Lemma invariant_run_platforms I platforms limit :
  preserves (fun s => P (Scheduler.database s)) (Scheduler.run_platforms I platforms limit).
Proof.
  apply preserves_run_platforms.
  - intros p _. apply invariant_run_indexer.
  - by intros s Hs.
Qed.

End DbInvariant.

(** X5.  The ingestion path only appends to the committed catalog: whatever
    the upstreams answer and whichever database operations fail,
    [run_all_indexers] leaves every content row committed before it where it
    was and as it was, and every agent too (by external id), and adds after
    them. *)
Theorem run_all_only_appends (I : Scheduler.Indexers) (limit : Z)
    (s : Scheduler.Sched)
    (Hrest : at_rest (Scheduler.database s)) :
  store_extends (Db.durable (Scheduler.database s))
    (Db.durable (Scheduler.database (Scheduler.run_all_indexers I limit s).2)).
Proof.
  refine (proj1 (invariant_run_platforms (keeps_store (Db.durable (Scheduler.database s)))
                   _ _ _ _ _ I Scheduler.platforms limit s _)).
  - apply keeps_store_commit.
  - apply keeps_store_rollback.
  - apply keeps_store_open.
  - apply keeps_store_close.
  - intros self raw. apply keeps_store_process_item.
  - split; [apply store_extends_refl|]. rewrite Hrest. apply store_extends_refl.
Qed.

Lemma run_all_only_appends_witness :
  store_extends (Db.durable (Scheduler.database (new_scheduler (rollback_fails_at 6))))
    (Db.durable (Scheduler.database
       (Scheduler.run_all_indexers (indexers_with (failing_indexer "arxiv" "ConnectError"))
          50 (new_scheduler (rollback_fails_at 6))).2)).
Proof.
  apply (run_all_only_appends (indexers_with (failing_indexer "arxiv" "ConnectError")) 50
           (new_scheduler (rollback_fails_at 6))).
  reflexivity.
Defined.

(** ** Watermarks and platform names *)

Lemma run_indexer_other_watermark I p limit q v :
  p <> q ->
  preserves (fun s => Scheduler.last_run s !! q = v) (Scheduler.run_indexer I p limit).
Proof.
  intros Hne. unfold Scheduler.run_indexer.
  assert (Hdb : forall A (m : M Db.Db A),
             preserves (fun s => Scheduler.last_run s !! q = v) (Scheduler.on_database m)).
  { intros A m s Hs. unfold Scheduler.on_database, zoom.
    by destruct (m (Scheduler.database s)). }
  apply preserves_bind; [apply Hdb|].
  intros _. apply preserves_finally; [|apply Hdb].
  destruct (Scheduler.get_indexer I p) as [indexer|]; [|apply preserves_ret].
  apply preserves_try; [|intros e; apply preserves_ret].
  apply preserves_bind; [apply preserves_gets|]. intros since.
  apply preserves_bind.
  - intros s Hs. unfold Scheduler.indexer_run, zoom.
    by destruct (Base.run indexer since limit _).
  - intros st. apply preserves_bind.
    + intros s Hs. unfold Scheduler.on_world, zoom.
      by destruct (Http.utcnow (Scheduler.world s)).
    + intros now. apply preserves_bind; [|intros _; apply preserves_ret].
      intros s Hs. cbn. by rewrite lookup_insert_ne.
Qed.

(** X6.  A run sets no watermark but its own: [run_indexer] for a platform
    leaves the watermark of every other platform as it was, whatever
    happens in the run; so [run_all_indexers] never touches the watermark
    of a platform outside its list. *)
Theorem run_all_leaves_other_watermarks (I : Scheduler.Indexers) (limit : Z)
    (s : Scheduler.Sched) (q : string) :
  (forall p, p <> q ->
     Scheduler.last_run (Scheduler.run_indexer I p limit s).2 !! q
     = Scheduler.last_run s !! q) /\
  (q ∉ Scheduler.platforms ->
   Scheduler.last_run (Scheduler.run_all_indexers I limit s).2 !! q
   = Scheduler.last_run s !! q).
Proof.
  split.
  - intros p Hne. by apply (run_indexer_other_watermark I p limit q _ Hne s).
  - intros Hq.
    apply (preserves_run_platforms (fun s' => Scheduler.last_run s' !! q = _)
             I Scheduler.platforms limit); [| |done].
    + intros p Hp. apply run_indexer_other_watermark. by intros ->.
    + by intros s' Hs'.
Qed.

(** YouTube is not in the list of [run_all_indexers]. *)
Lemma run_all_leaves_other_watermarks_witness :
  Scheduler.last_run
    (Scheduler.run_all_indexers (indexers_with (failing_indexer "arxiv" "ConnectError"))
       50 (new_scheduler reliable)).2 !! "youtube"%string
  = Scheduler.last_run (new_scheduler reliable) !! "youtube"%string.
Proof.
  apply (proj2 (run_all_leaves_other_watermarks
                  (indexers_with (failing_indexer "arxiv" "ConnectError")) 50
                  (new_scheduler reliable) "youtube")).
  apply (bool_decide_unpack _). vm_compute. exact Logic.I.
Defined.

Lemma get_indexer_None I platform :
  Scheduler.get_indexer I platform = None <-> platform ∉ registered.
Proof.
  unfold Scheduler.get_indexer, registered.
  repeat match goal with
         | |- context [String.eqb platform ?x] =>
             destruct (String.eqb_spec platform x) as [->|?];
             [split; [done|intros H; exfalso; apply H; set_solver]|]
         end.
  split; [|done]. intros _ H.
  repeat (apply elem_of_cons in H as [->|H]; [done|]).
  by apply not_elem_of_nil in H.
Qed.

(** X7.  A platform name outside the nine that [get_indexer] knows gets the
    error entry [Unknown platform: <name>] from [run_indexer], and the call
    changes nothing: no watermark, no request, no row; the session it opened
    is closed again. *)
Theorem unknown_platform_changes_nothing (I : Scheduler.Indexers)
    (platform : string) (limit : Z) (s : Scheduler.Sched)
    (Hunknown : platform ∉ registered)
    (Hopen : Db.fault (Scheduler.database s) Db.OpOpen
               (Db.ops (Scheduler.database s)) = false) :
  exists s',
    Scheduler.run_indexer I platform limit s
    = (Ok (Scheduler.ErrorEntry ("Unknown platform: " +:+ platform)), s') /\
    Scheduler.last_run s' = Scheduler.last_run s /\
    Scheduler.world s' = Scheduler.world s /\
    Db.durable (Scheduler.database s') = Db.durable (Scheduler.database s) /\
    Db.session (Scheduler.database s') = Db.durable (Scheduler.database s).
Proof.
  apply (get_indexer_None I) in Hunknown. destruct s as [lr e d].
  unfold Scheduler.run_indexer. rewrite Hunknown.
  unfold Py.bind at 1. unfold Scheduler.on_database at 1, zoom at 1.
  unfold Db.open_session, Py.bind at 1, Db.db_step. cbn in Hopen |- *. rewrite Hopen. cbn.
  eexists. by split_and!.
Qed.

Lemma unknown_platform_changes_nothing_witness :
  exists s',
    Scheduler.run_indexer (indexers_with (failing_indexer "arxiv" "ConnectError"))
      "tiktok" 50 (new_scheduler reliable)
    = (Ok (Scheduler.ErrorEntry "Unknown platform: tiktok"), s') /\
    Scheduler.last_run s' = ∅.
Proof.
  destruct (unknown_platform_changes_nothing
              (indexers_with (failing_indexer "arxiv" "ConnectError")) "tiktok" 50
              (new_scheduler reliable)
              ltac:(apply (bool_decide_unpack _); vm_compute; exact Logic.I) eq_refl)
    as (s' & H & Hlr & _).
  exists s'. split; [exact H|exact Hlr].
Defined.

(** ** The denormalized counter *)

Lemma NoDup_fmap_eq {A B} (f : A -> B) (l : list A) x y :
  NoDup (f <$> l) -> x ∈ l -> y ∈ l -> f x = f y -> x = y.
Proof.
  induction l as [|z l IH]; intros Hnd Hx Hy Hf; [by apply not_elem_of_nil in Hx|].
  cbn in Hnd. apply NoDup_cons in Hnd as [Hz Hnd].
  apply elem_of_cons in Hx as [->|Hx]; apply elem_of_cons in Hy as [->|Hy].
  - done.
  - exfalso. apply Hz. rewrite Hf. by apply list_elem_of_fmap_2.
  - exfalso. apply Hz. rewrite <- Hf. by apply list_elem_of_fmap_2.
  - by apply IH.
Qed.

Lemma with_total_creations_id pk v a :
  Agent.id (Db.with_total_creations pk v a) = Agent.id a.
Proof. unfold Db.with_total_creations. by case_decide. Qed.

Lemma ids_with_total_creations pk v (l : list Agent.t) :
  Agent.id <$> (Db.with_total_creations pk v <$> l) = Agent.id <$> l.
Proof.
  rewrite <- list_fmap_compose. apply list_fmap_ext.
  intros i x _. apply with_total_creations_id.
Qed.

(** Writing a row for an agent of the store and raising its counter. *)
Lemma counters_agree_write s a c i :
  counters_agree s -> a ∈ Db.agents s ->
  counters_agree
    {| Db.agents :=
         Db.with_total_creations (Agent.id a)
           (Some (Base.or_zero (Agent.total_creations a) + 1)) <$> Db.agents s;
       Db.contents := Db.contents s ++ [Db.new_content c (Agent.id a) i] |}.
Proof.
  intros (Hnd & Hcount & Hfk) Ha. destruct s as [ags cts].
  unfold counters_agree, creations_of in *. cbn in *.
  split_and!.
  - by rewrite ids_with_total_creations.
  - intros b Hb. apply list_elem_of_fmap in Hb as (b0 & -> & Hb0).
    rewrite with_total_creations_id, filter_app, length_app. cbn.
    unfold Db.with_total_creations. case_decide as Hid.
    + assert (b0 = a) as -> by (by apply (NoDup_fmap_eq Agent.id ags)).
      cbn. rewrite (Hcount a Ha). rewrite decide_True by done. cbn. lia.
    + rewrite (Hcount b0 Hb0). rewrite decide_False by done. cbn. lia.
  - intros r Hr. rewrite ids_with_total_creations.
    apply elem_of_app in Hr as [Hr|Hr]; [by apply Hfk|].
    apply list_elem_of_singleton in Hr as ->. cbn.
    by apply list_elem_of_fmap_2.
Qed.

Lemma fresh_id_fresh (ids : list nat) : Db.fresh_id ids ∉ ids.
Proof.
  intros Hin. apply max_list_elem_of_le in Hin. unfold Db.fresh_id in Hin. lia.
Qed.

(** Adding a new agent, which has no content yet. *)
Lemma counters_agree_new_agent s agent_id name :
  counters_agree s ->
  counters_agree
    {| Db.agents := Db.agents s ++ [Db.new_agent agent_id name (Db.agents s)];
       Db.contents := Db.contents s |}.
Proof.
  intros (Hnd & Hcount & Hfk). destruct s as [ags cts].
  unfold counters_agree, creations_of in *. cbn in *.
  split_and!.
  - rewrite fmap_app. apply NoDup_app. split_and!; [done| |apply NoDup_singleton].
    intros x Hx Hin. apply list_elem_of_singleton in Hin as ->.
    by apply fresh_id_fresh in Hx.
  - intros b Hb.
    apply elem_of_app in Hb as [Hb|Hb]; [by apply Hcount|].
    apply list_elem_of_singleton in Hb as ->. cbn.
    rewrite filter_none; [done|].
    intros r Hr Hid. apply (fresh_id_fresh (Agent.id <$> ags)).
    rewrite <- Hid. by apply Hfk.
  - intros r Hr. rewrite fmap_app. apply elem_of_app. left. by apply Hfk.
Qed.

Lemma index_content_consistent c w :
  consistent (Base.db w) -> consistent (Base.db (Base.index_content c w).2).
Proof.
  intros [Hs Hd].
  destruct (index_content_frame c w) as (_ & Hdur & _).
  split; [|by rewrite Hdur]. clear Hd Hdur.
  destruct w as [e [dur ses ops flt] st]. cbn in Hs.
  run_writer.
  all: simpl in *; try done.
  all: try (by apply counters_agree_new_agent).
  all: try match goal with
           | |- counters_agree
                  {| Db.agents := _ <$> (?ags ++ [?ag]);
                     Db.contents := ?cts ++ [Db.new_content ?c _ ?i] |} =>
               exact (counters_agree_write
                        {| Db.agents := ags ++ [ag]; Db.contents := cts |} ag c i
                        (counters_agree_new_agent _ _ _ Hs)
                        ltac:(apply elem_of_app; right; left))
           end.
  all: apply counters_agree_write; [done|].
  all: match goal with
       | H : Db.rows_of_agent ?x ?s = [?a] |- ?a ∈ _ =>
           assert (Hin : a ∈ Db.rows_of_agent x s) by (rewrite H; left);
           by apply list_elem_of_filter in Hin as [_ ?]
       end.
Qed.

Lemma process_item_consistent self raw w :
  consistent (Base.db w) -> consistent (Base.db (Base.process_item self raw w).2).
Proof.
  intros H. destruct (Base.parse_content self raw) as [[c|]|e] eqn:Hp.
  - rewrite (process_item_some _ _ c) by done. by apply index_content_consistent.
  - by rewrite process_item_none.
  - by rewrite (process_item_raise _ _ e).
Qed.

Lemma consistent_commit : preserves consistent Db.commit.
Proof.
  intros d [H1 H2]. unfold Db.commit, Py.bind, Db.db_step.
  by destruct (Db.fault d Db.OpCommit (Db.ops d)).
Qed.

Lemma consistent_rollback : preserves consistent Db.rollback.
Proof.
  intros d [H1 H2]. unfold Db.rollback, Py.bind, Db.db_step.
  by destruct (Db.fault d Db.OpRollback (Db.ops d)).
Qed.

Lemma consistent_open : preserves consistent Db.open_session.
Proof.
  intros d [H1 H2]. unfold Db.open_session, Py.bind, Db.db_step.
  by destruct (Db.fault d Db.OpOpen (Db.ops d)).
Qed.

Lemma consistent_close : preserves consistent Db.close_session.
Proof. by intros d [H1 H2]. Qed.

(** X8.  The denormalized counter stays right.  In a catalog where every
    agent's [total_creations] is the number of content rows attributed to it
    (and primary keys are unique and every row has its agent), it is so
    again after [index_content], after a run, and after [run_all_indexers],
    in the session and in what is committed, whatever the upstreams answer
    and whichever database operations fail. *)
Theorem total_creations_counts_contents (I : Scheduler.Indexers) (limit : Z)
    (s : Scheduler.Sched)
    (Hcatalog : consistent (Scheduler.database s)) :
  consistent (Scheduler.database (Scheduler.run_all_indexers I limit s).2) /\
  (forall self since w,
     consistent (Base.db w) -> consistent (Base.db (Base.run self since limit w).2)) /\
  (forall c w,
     consistent (Base.db w) -> consistent (Base.db (Base.index_content c w).2)).
Proof.
  split_and!.
  - apply (invariant_run_platforms consistent consistent_commit consistent_rollback
             consistent_open consistent_close process_item_consistent
             I Scheduler.platforms limit s Hcatalog).
  - intros self since w.
    apply (invariant_run consistent consistent_commit consistent_rollback
             process_item_consistent self since limit w).
  - apply index_content_consistent.
Qed.

Lemma total_creations_counts_contents_witness :
  consistent (Scheduler.database
    (Scheduler.run_all_indexers (indexers_with (failing_indexer "arxiv" "ConnectError"))
       50 (new_scheduler (rollback_fails_at 6))).2).
Proof.
  assert (Hempty : counters_agree empty_store).
  { split_and!; [constructor | intros a Ha | intros c Hc].
    - by apply not_elem_of_nil in Ha.
    - by apply not_elem_of_nil in Hc. }
  exact (proj1 (total_creations_counts_contents
                  (indexers_with (failing_indexer "arxiv" "ConnectError")) 50
                  (new_scheduler (rollback_fails_at 6)) (conj Hempty Hempty))).
Defined.

(** ** The YouTube collector *)

Lemma fetch_term_spec api_key limit client query e items :
  client ∈ Http.opened e ->
  exists items',
    YouTubeIndexer.fetch_term api_key client limit query (e, items)
    = (Ok (flow_of 403 (Http.upstream e (Http.sent e)
                          (YouTubeIndexer.search_request api_key query limit))),
       (after_get client (YouTubeIndexer.search_request api_key query limit) e, items')) /\
    (flow_of 403 (Http.upstream e (Http.sent e)
                    (YouTubeIndexer.search_request api_key query limit)) = Break ->
     items' = items).
Proof.
  intros Hopen. unfold YouTubeIndexer.fetch_term. rewrite try_get_open by done.
  destruct (Http.upstream e (Http.sent e) (YouTubeIndexer.search_request api_key query limit))
    as [resp|err]; [|by exists items].
  unfold flow_of.
  destruct (Http.status_code resp =? 200)%Z;
    [|destruct (Http.status_code resp =? 403)%Z; by exists items].
  match goal with
  | |- context [try_except ?m _ (?e1, _)] =>
      destruct (reads_reply m e1 items) as (items' & Hk)
  end.
  - keeps. apply (preserves_local_modify (fun e' => e' = _) (fun _ => True)). done.
  - repeat (apply returns_only_bind; intros ?). by apply returns_only_ret.
  - exists items'. by rewrite Hk.
Qed.

(** X9.  With an API key, the YouTube collector stops on HTTP 403: the
    request answered with 403 is the last one of the run, the collector
    returns normally, and what it returns is what the run over the search
    terms before that one gathers. *)
Theorem youtube_stops_on_403 (rss : Z -> M Http.Env (list JVal)) (api_key : string)
    (since : option Z) (limit : Z)
    (Hkey : api_key <> ""%string) :
  stops_on [403%Z] (YouTubeIndexer.fetch_content rss (Some api_key) since limit) /\
  (forall e i r,
     requests_of (YouTubeIndexer.fetch_content rss (Some api_key) since limit) e !! i
     = Some r ->
     has_status 403 (reply_to e i r) ->
     exists items,
       (YouTubeIndexer.fetch_content rss (Some api_key) since limit e).1 = Ok items /\
       (YouTubeIndexer.fetch_terms api_key
          (take i (take 5 YouTubeIndexer.AI_SEARCH_TERMS)) limit e).1 = Ok items).
Proof.
  unfold YouTubeIndexer.fetch_content.
  apply String.eqb_neq in Hkey. rewrite Hkey. split.
  - apply (collector_stops (fun x => YouTubeIndexer.search_request api_key x limit) 403
             (fun c => YouTubeIndexer.fetch_term api_key c limit) limit); [done|].
    intros c x e items. apply fetch_term_spec.
  - apply (collector_partial (fun x => YouTubeIndexer.search_request api_key x limit) 403
             (fun c => YouTubeIndexer.fetch_term api_key c limit) limit); [done|].
    intros c x e items. apply fetch_term_spec.
Qed.

(** The quota runs out at the second search: two requests are sent. *)
Lemma youtube_stops_on_403_witness :
  length (requests_of (YouTubeIndexer.fetch_content (fun _ => ret []) (Some "key"%string)
                         None 10) (second_is 403)) = 2.
Proof.
  apply (proj1 (youtube_stops_on_403 (fun _ => ret []) "key" None 10 ltac:(discriminate))
           (second_is 403) 1
           (YouTubeIndexer.search_request "key" "autonomous AI agent" 10) 403%Z).
  - vm_compute. reflexivity.
  - apply list_elem_of_singleton. reflexivity.
  - exists (status_only 403). split; reflexivity.
Defined.

(** ** The sub-fetchers of the dynamic collector *)

Lemma async_with_client_run {L A} (body : nat -> M (Http.Env * L) A) e (l : L) :
  Http.async_with_client body (e, l)
  = finally (body (Http.next_client e))
      (outer (Http.close_client (Http.next_client e))) (after_open e, l).
Proof. reflexivity. Qed.

Lemma producthunt_run limit e :
  exists e',
    DynamicWebIndexer._fetch_producthunt limit e = (Ok [], e') /\
    Http.log e'
    = Http.log e
      ++ (Http.Sent (Http.next_client e)
          <$> DynamicWebIndexer.producthunt_posts limit
              :: (if not_ok (Http.upstream e (Http.sent e)
                               (DynamicWebIndexer.producthunt_posts limit))
                  then [DynamicWebIndexer.producthunt_feed] else [])).
Proof.
  unfold DynamicWebIndexer._fetch_producthunt, with_locals.
  unfold Py.bind at 1. rewrite async_with_client_run. unfold finally.
  assert (Hopen : Http.next_client e ∈ Http.opened (after_open e)) by left.
  rewrite try_get_open by done. cbn [after_open Http.upstream Http.sent].
  destruct (Http.upstream e (Http.sent e) (DynamicWebIndexer.producthunt_posts limit))
    as [resp|err]; cbn [not_ok].
  - destruct (Http.status_code resp =? 200)%Z; cbn [negb].
    + eexists. split; reflexivity.
    + unfold try_except, Py.bind, outer, zoom. cbn [fst snd].
      rewrite client_get_open by done.
      destruct (Http.upstream _ _ DynamicWebIndexer.producthunt_feed);
        (eexists; split; [reflexivity|]); cbn; by rewrite <- app_assoc.
  - eexists. split; reflexivity.
Qed.

(** X10.  The Product Hunt sub-fetcher contributes nothing: whatever the
    site answers, it returns the empty list, without raising.  It sends one
    request, and a second one to the feed exactly when the first is
    answered with a status other than 200. *)
Theorem producthunt_contributes_nothing (limit : Z) (e : Http.Env) :
  (DynamicWebIndexer._fetch_producthunt limit e).1 = Ok [] /\
  requests_of (DynamicWebIndexer._fetch_producthunt limit) e
  = DynamicWebIndexer.producthunt_posts limit
    :: (if not_ok (reply_to e 0 (DynamicWebIndexer.producthunt_posts limit))
        then [DynamicWebIndexer.producthunt_feed] else []).
Proof.
  destruct (producthunt_run limit e) as (e' & Hrun & Hlog).
  unfold requests_of, new_events, reply_to. rewrite Hrun, Nat.add_0_r. cbn [fst snd].
  split; [done|]. rewrite Hlog, drop_app_length.
  by rewrite (requests_sent (Http.next_client e) (fun r => r)), list_fmap_id.
Qed.

Lemma assoc_get_set d k v : assoc_get (assoc_set d k v) k = Some v.
Proof.
  induction d as [|[k' v'] d IH]; cbn.
  - by rewrite String.eqb_refl.
  - destruct (String.eqb_spec k' k) as [->|Hne]; cbn.
    + by rewrite String.eqb_refl.
    + by apply String.eqb_neq in Hne as ->.
Qed.

Lemma assoc_get_set_ne d k k' v : k <> k' -> assoc_get (assoc_set d k v) k' = assoc_get d k'.
Proof.
  intros Hne. induction d as [|[k0 v0] d IH]; cbn.
  - by apply String.eqb_neq in Hne as ->.
  - destruct (String.eqb_spec k0 k) as [->|Hne0]; cbn.
    + by apply String.eqb_neq in Hne as ->.
    + by rewrite IH.
Qed.

Lemma setitem_from_source source item item' :
  py_setitem item "_source" (JStr source) = Ok item' -> from_source source item'.
Proof.
  destruct item; try done. intros [= <-]. eexists. split; [done|]. apply assoc_get_set.
Qed.

(** A pure step followed by a step that may use what the pure step returned. *)
Lemma preserves_lift_bind {S A B} (I : S -> Prop) (r : Res A) (k : A -> M S B) :
  (forall a, r = Ok a -> preserves I (k a)) ->
  preserves I (let* a := lift_res r in k a).
Proof.
  intros Hk s Hs. unfold Py.bind, lift_res. destruct r as [a|e]; [by apply Hk|done].
Qed.

(** A [try] block that reads a reply into the local list and swallows what
    goes wrong: the world is untouched and the list keeps its invariant. *)
Lemma reads_into {A} (P : list A -> Prop) (m : M (Http.Env * list A) unit) e items :
  preserves (fun sl => sl.1 = e /\ P sl.2) m ->
  P items ->
  exists items',
    try_except m (fun _ => ret tt) (e, items) = (Ok tt, (e, items')) /\ P items'.
Proof.
  intros Hp Hi. unfold try_except.
  specialize (Hp (e, items) (conj eq_refl Hi)).
  destruct (m (e, items)) as [[[]|err] [e1 items1]] eqn:Hm; cbn in Hp;
    destruct Hp as [-> Hp]; by exists items1.
Qed.

Lemma devto_step client limit tag e items :
  client ∈ Http.opened e ->
  Forall (from_source "devto") items ->
  exists items',
    try_except
      (let* response := outer (Http.client_get client
                                 (DynamicWebIndexer.devto_request tag limit)) in
       if (Http.status_code response =? 200)%Z then
         let* articles := lift_res (Http.json response) in
         let* articles := lift_res (py_iter articles) in
         for_each articles (fun article =>
           let* article := lift_res (py_setitem article "_source" (JStr "devto")) in
           local_modify (fun items => items ++ [article]))
       else ret tt)
      (fun e => ret tt) (e, items)
    = (Ok tt, (after_get client (DynamicWebIndexer.devto_request tag limit) e, items')) /\
    Forall (from_source "devto") items'.
Proof.
  intros Hopen Hitems. rewrite try_get_open by done.
  destruct (Http.upstream e (Http.sent e) (DynamicWebIndexer.devto_request tag limit))
    as [resp|err]; [|by exists items].
  destruct (Http.status_code resp =? 200)%Z; [|by exists items].
  apply reads_into; [|done].
  apply preserves_bind; [apply preserves_lift_res|]. intros data.
  apply preserves_bind; [apply preserves_lift_res|]. intros articles.
  apply preserves_for_each. intros article0.
  apply preserves_lift_bind. intros article Hset.
  apply (preserves_local_modify (fun e' => e' = _) (Forall (from_source "devto"))).
  intros l Hl. apply Forall_app. split; [done|].
  constructor; [|done]. by eapply setitem_from_source.
Qed.

(** ** The admin endpoints *)

Lemma valid_platforms_registered platform :
  platform ∈ Api.valid_platforms <-> platform ∈ registered.
Proof. unfold Api.valid_platforms, registered. set_solver. Qed.

(** X12.  [trigger_index] accepts exactly the nine platform names
    [get_indexer] knows, so it never answers with the [Unknown platform]
    entry: for an accepted name (session opening, rollback working) it
    answers [completed] with the statistics of the run, whatever happened in
    the run, and has set the platform's watermark; for any other name it
    raises the 400 error and changes nothing.  [trigger_index_all] never
    raises and answers [completed] with an entry for each of the seven
    platforms of [run_all_indexers]. *)
Theorem trigger_index_runs_known_platforms (I : Scheduler.Indexers)
    (platform : string) (limit : Z) (s : Scheduler.Sched)
    (Hopen : Db.fault (Scheduler.database s) Db.OpOpen
               (Db.ops (Scheduler.database s)) = false)
    (Hrollback : rollback_works (Scheduler.database s)) :
  (platform ∈ Api.valid_platforms <-> is_Some (Scheduler.get_indexer I platform)) /\
  (platform ∈ Api.valid_platforms ->
   exists st s',
     Api.trigger_index I platform limit s
     = (Ok {| Api.platform := platform; Api.status := "completed";
              Api.result := Scheduler.Statistics st |}, s') /\
     Scheduler.last_run s' !! platform = Some (Http.clock (Scheduler.world s'))) /\
  (platform ∉ Api.valid_platforms ->
   Api.trigger_index I platform limit s = (Raise Api.invalid_platform, s)) /\
  (exists reply s',
     Api.trigger_index_all I limit s = (Ok reply, s') /\
     Api.all_status reply = "completed"%string /\
     forall p, p ∈ Scheduler.platforms -> is_Some (Api.results reply !! p)).
Proof.
  assert (Hknown : platform ∈ Api.valid_platforms
                   <-> is_Some (Scheduler.get_indexer I platform)).
  { rewrite valid_platforms_registered.
    pose proof (get_indexer_None I platform) as Hnone.
    destruct (Scheduler.get_indexer I platform) as [indexer|].
    - split; [eauto|]. intros _.
      destruct (decide (platform ∈ registered)) as [?|Hn]; [done|].
      by apply Hnone in Hn.
    - split; [|by intros [? ?]]. intros Hin. by apply Hnone in Hin. }
  split_and!; [done| | |].
  - intros Hvalid. pose proof Hvalid as Hv. apply Hknown in Hvalid as [indexer Hg].
    edestruct (run_returns indexer (Scheduler.last_run s !! platform) limit)
      as (o & Hrun & _); [|].
    2: { destruct (run_indexer_of_run I platform indexer limit s _ o Hg Hopen Hrun)
           as (s' & Hri & Hlr & Hw & _).
         exists (Base.stats o), s'. split.
         - unfold Api.trigger_index. rewrite bool_decide_eq_true_2 by done.
           cbn [negb]. unfold Py.bind. by rewrite Hri.
         - by rewrite Hlr, Hw, lookup_insert_eq. }
    intros n. apply Hrollback.
  - intros Hinvalid. unfold Api.trigger_index.
    by rewrite bool_decide_eq_false_2.
  - unfold Api.trigger_index_all, Scheduler.run_all_indexers, Scheduler.run_platforms,
      with_locals.
    destruct (run_platforms_loop I limit Scheduler.platforms s ∅)
      as (s' & results' & Hl & Hr).
    eexists _, s'. unfold Py.bind at 1 2. rewrite Hl. cbn. split_and!; [done|done|].
    intros p Hp. apply Hr. by left.
Qed.

(** The arXiv indexer, whose fetch fails, triggered by hand. *)
Lemma trigger_index_runs_known_platforms_witness :
  exists st s',
    Api.trigger_index (indexers_with (failing_indexer "arxiv" "ConnectError")) "arxiv" 100
      (new_scheduler reliable)
    = (Ok {| Api.platform := "arxiv"; Api.status := "completed";
             Api.result := Scheduler.Statistics st |}, s') /\
    Scheduler.last_run s' !! "arxiv"%string = Some (Http.clock (Scheduler.world s')).
Proof.
  apply (proj1 (proj2 (trigger_index_runs_known_platforms
                         (indexers_with (failing_indexer "arxiv" "ConnectError"))
                         "arxiv" 100 (new_scheduler reliable) eq_refl
                         (fun n => eq_refl)))).
  apply (bool_decide_unpack _). vm_compute. exact Logic.I.
Defined.

(** ** Parsers *)

(** Takes a successful chain of pure steps apart. *)
Ltac res_inv H :=
  repeat match type of H with
         | res_bind ?r _ = Ok _ =>
             let E := fresh "E" in
             destruct r eqn:E; cbn [res_bind] in H; [|discriminate H]
         | (if ?b then _ else _) = Ok _ =>
             let E := fresh "E" in destruct b eqn:E; try discriminate H
         | (let _ := _ in _) = Ok _ => cbv zeta in H
         end.

Lemma validate_str_inv v s : validate_str v = Ok s -> v = JStr s.
Proof. destruct v; try done. by intros [= ->]. Qed.

Lemma validate_opt_str_inv v o :
  validate_opt_str v = Ok o ->
  (v = JNull /\ o = None) \/ (exists s, v = JStr s /\ o = Some s).
Proof. destruct v; try done; intros [= <-]; eauto. Qed.

Lemma validate_list_str_inv l ss : validate_list_str l = Ok ss -> l = JStr <$> ss.
Proof.
  revert ss. induction l as [|v l IH]; intros ss H; cbn in H.
  - by injection H as <-.
  - destruct (validate_str v) as [s|] eqn:Hv; [|done]. cbn in H.
    destruct (validate_list_str l) as [ss'|]; [|done]. cbn in H.
    injection H as <-. apply validate_str_inv in Hv as ->. cbn. f_equal. by apply IH.
Qed.

Lemma truthy_str s : truthy (JStr s) = true <-> s <> ""%string.
Proof. cbn. destruct (String.eqb_spec s ""); naive_solver. Qed.

Lemma slice_to_subseteq {A} (n : Z) (l : list A) : slice_to n l ⊆ l.
Proof.
  unfold slice_to. destruct (0 <=? n)%Z; apply subseteq_take.
Qed.

Lemma tags_of_truthy topics v : v ∈ GitHubIndexer.tags_of topics -> truthy v = true.
Proof.
  unfold GitHubIndexer.tags_of.
  destruct (List.filter truthy topics) as [|t ts] eqn:Hf.
  - intros Hv. apply elem_of_cons in Hv as [->|Hv]; [done|].
    apply list_elem_of_singleton in Hv as ->. done.
  - rewrite <- Hf. intros Hv. apply list_elem_of_In, filter_In in Hv. tauto.
Qed.

Lemma tags_of_nonempty topics : GitHubIndexer.tags_of topics <> [].
Proof.
  unfold GitHubIndexer.tags_of. by destruct (List.filter truthy topics).
Qed.

(** X13.  The GitHub parser filters nothing: of a non-empty record it makes
    an item or raises, never [None].  An item it makes is of type [code] on
    platform [github], has the same content and source URL, and carries
    between one and ten tags, none of them empty; made of a record without
    [html_url], it has no URL for the duplicate check to go by. *)
Theorem github_parse_never_filters (repr : JVal -> string) (raw : JVal) :
  (truthy raw = true -> GitHubIndexer.parse_content repr raw <> Ok None) /\
  (forall c, GitHubIndexer.parse_content repr raw = Ok (Some c) ->
     ContentCreate.content_type c = "code"%string /\
     ContentCreate.source_platform c = Some "github"%string /\
     ContentCreate.source_url c = ContentCreate.content_url c /\
     (forall d, raw = JDict d -> assoc_get d "html_url" = None -> checked_url c = None) /\
     exists tags,
       ContentCreate.tags c = Some tags /\
       1 <= length tags <= 10 /\
       ""%string ∉ tags).
Proof.
  unfold GitHubIndexer.parse_content. split.
  - intros Ht H. rewrite Ht in H. cbn [negb] in H. res_inv H. discriminate H.
  - intros c H. res_inv H. injection H as <-. cbn.
    split_and!; [done|done|done| |].
    + intros d -> Hd.
      match goal with
      | H1 : py_get _ "html_url" _ = Ok ?a, H2 : validate_opt_str ?a = Ok _ |- _ =>
          cbn in H1; rewrite Hd in H1; injection H1 as <-;
          cbn in H2; by injection H2 as <-
      end.
    + match goal with
      | H1 : validate_list_str (slice_to 10 (GitHubIndexer.tags_of ?l)) = Ok ?ss |- _ =>
          rename H1 into Htags; rename l into topics; rename ss into tags
      end.
      exists tags. split; [done|].
      apply validate_list_str_inv in Htags.
      assert (Hlen : length tags = length (slice_to 10 (GitHubIndexer.tags_of topics)))
        by (by rewrite Htags, length_fmap).
      split.
      * rewrite Hlen. unfold slice_to. cbn. rewrite length_take.
        pose proof (tags_of_nonempty topics).
        destruct (GitHubIndexer.tags_of topics); [done|cbn; lia].
      * intros Hin.
        assert (Hm : JStr "" ∈ slice_to 10 (GitHubIndexer.tags_of topics))
          by (rewrite Htags; by apply list_elem_of_fmap_2).
        apply slice_to_subseteq, tags_of_truthy in Hm. done.
Qed.

(** A repository record without [html_url], with an empty topic. *)
Lemma github_parse_never_filters_witness :
  exists c,
    GitHubIndexer.parse_content (fun _ => ""%string)
      (github_record "agent" [JStr "llm"; JStr ""]) = Ok (Some c) /\
    checked_url c = None /\
    ContentCreate.tags c = Some ["llm"%string].
Proof.
  eexists. split; [vm_compute; reflexivity|]. split; [|reflexivity].
  eapply (proj1 (proj2 (proj2 (proj2
            (proj2 (github_parse_never_filters (fun _ => ""%string)
                      (github_record "agent" [JStr "llm"; JStr ""])) _ eq_refl))))).
  - reflexivity.
  - reflexivity.
Defined.

Lemma py_add_str_inv a s v :
  Values.py_add a (JStr s) = Ok v -> exists t, a = JStr t /\ v = JStr (t +:+ s).
Proof. destruct a as [| [] | | | |]; try done. intros [= <-]. eauto. Qed.

Lemma py_add_str_l_inv t b v :
  Values.py_add (JStr t) b = Ok v -> exists s, b = JStr s /\ v = JStr (t +:+ s).
Proof. destruct b; try done. intros [= <-]. eauto. Qed.

(** X14.  What the Reddit parser makes of a record.  An item is made only
    of a post whose title and text are strings and contain, in lower case
    and joined by a space, one of the seven keywords; it carries the title,
    is of type [post] on platform [reddit], is tagged [reddit] first and
    with one or two more tags, and is identified by [https://reddit.com]
    followed by the record's permalink: of a record without a permalink,
    by [https://reddit.com] alone. *)
Theorem reddit_parse_identity (lower : string -> string) (repr : JVal -> string)
    (raw : JVal) (c : ContentCreate.t)
    (Hparse : RedditIndexer.parse_content lower repr raw = Ok (Some c)) :
  exists title selftext permalink,
    py_get raw "title" (JStr "") = Ok (JStr title) /\
    py_get raw "selftext" (JStr "") = Ok (JStr selftext) /\
    py_get raw "permalink" (JStr "") = Ok permalink /\
    Values.any_in RedditIndexer.ai_keywords (lower ((title +:+ " ") +:+ selftext)) = true /\
    ContentCreate.title c = title /\
    ContentCreate.source_url c
    = Some ("https://reddit.com" +:+ WebSearch.format repr permalink) /\
    ContentCreate.content_url c = ContentCreate.source_url c /\
    ContentCreate.content_type c = "post"%string /\
    ContentCreate.source_platform c = Some "reddit"%string /\
    (exists tags,
       ContentCreate.tags c = Some ("reddit"%string :: tags) /\ 1 <= length tags <= 2) /\
    (forall d, raw = JDict d -> assoc_get d "permalink" = None ->
       ContentCreate.source_url c = Some "https://reddit.com"%string).
Proof.
  unfold RedditIndexer.parse_content in Hparse. res_inv Hparse.
  injection Hparse as <-.
  cbn [ContentCreate.title ContentCreate.source_url ContentCreate.content_url
       ContentCreate.content_type ContentCreate.source_platform ContentCreate.tags].
  repeat match goal with
         | H : Values.py_add _ (JStr _) = Ok _ |- _ =>
             apply py_add_str_inv in H as (? & -> & ->)
         | H : Values.py_add (JStr _) _ = Ok _ |- _ =>
             apply py_add_str_l_inv in H as (? & -> & ->)
         | H : Values.py_lower _ (JStr _) = Ok _ |- _ => cbn in H; injection H as <-
         | H : validate_str (JStr _) = Ok _ |- _ => cbn in H; injection H as <-
         | H : negb _ = false |- _ => apply negb_false_iff in H
         end.
  eexists _, _, _. split_and!; try done.
  - match goal with
    | H : (if truthy ?f then res_bind (Values.py_getitem _ _) _ else _) = Ok _ |- _ =>
        destruct (truthy f); res_inv H; injection H as <-
    end; eexists; (split; [reflexivity|cbn; lia]).
  - intros d -> Hd.
    match goal with
    | H : py_get _ "permalink" _ = Ok _ |- _ =>
        cbn in H; rewrite Hd in H; injection H as <-
    end.
    reflexivity.
Qed.

(** A post about an agent, without a permalink. *)
Lemma reddit_parse_identity_witness :
  exists c,
    RedditIndexer.parse_content ascii_lower (fun _ => ""%string)
      (reddit_record "t3_1" "My AI Agent") = Ok (Some c) /\
    ContentCreate.source_url c = Some "https://reddit.com"%string.
Proof.
  eexists. split; [vm_compute; reflexivity|].
  match goal with
  | |- ContentCreate.source_url ?c = _ =>
      destruct (reddit_parse_identity ascii_lower (fun _ => ""%string)
                  (reddit_record "t3_1" "My AI Agent") c
                  ltac:(vm_compute; reflexivity))
        as (_ & _ & _ & _ & _ & _ & _ & _ & _ & _ & _ & _ & _ & H)
  end.
  exact (H _ eq_refl eq_refl).
Defined.

Lemma eq_str_true v s : Values.eq_str v s = true -> v = JStr s.
Proof. destruct v; try done. cbn. by intros ->%String.eqb_eq. Qed.

Lemma from_source_get source raw :
  from_source source raw ->
  truthy raw = true /\ py_get raw "_source" (JStr "unknown") = Ok (JStr source).
Proof.
  intros (d & -> & Hd). split; [by destruct d|]. cbn. by rewrite Hd.
Qed.

Lemma parse_hackernews_some repr raw r :
  DynamicWebIndexer._parse_hackernews repr raw = Ok r ->
  exists c, r = Some c /\
    ContentCreate.source_platform c = Some "hackernews"%string /\
    ContentCreate.content_url c = ContentCreate.source_url c.
Proof.
  unfold DynamicWebIndexer._parse_hackernews. intros H. res_inv H.
  all: injection H as <-; eexists; by split_and!.
Qed.

Lemma parse_devto_some repr raw r :
  DynamicWebIndexer._parse_devto repr raw = Ok r ->
  exists c, r = Some c /\
    ContentCreate.source_platform c = Some "devto"%string /\
    ContentCreate.content_url c = ContentCreate.source_url c.
Proof.
  unfold DynamicWebIndexer._parse_devto. intros H. res_inv H.
  all: injection H as <-; eexists; by split_and!.
Qed.

Lemma parse_medium_some raw r :
  DynamicWebIndexer._parse_medium raw = Ok r ->
  exists c, r = Some c /\
    ContentCreate.source_platform c = Some "medium"%string /\
    ContentCreate.content_url c = ContentCreate.source_url c /\
    ContentCreate.agent_id_external c = "medium:author"%string.
Proof.
  unfold DynamicWebIndexer._parse_medium. intros H. res_inv H.
  all: injection H as <-; eexists; by split_and!.
Qed.

(** X15.  The parser of the dynamic collector goes by the [_source] mark of
    a record.  A record marked [hackernews], [devto] or [medium] becomes an
    item of that platform or raises, and is never dropped; a record with
    any other mark is dropped without being looked at.  An item has the
    same content and source URL, and every Medium item is attributed to the
    one agent [medium:author]. *)
Theorem dynamic_parse_goes_by_source (repr : JVal -> string) (raw : JVal) :
  (forall c, DynamicWebIndexer.parse_content repr raw = Ok (Some c) ->
     exists source,
       source ∈ dynamic_sources /\
       py_get raw "_source" (JStr "unknown") = Ok (JStr source) /\
       ContentCreate.source_platform c = Some source /\
       ContentCreate.content_url c = ContentCreate.source_url c /\
       (source = "medium"%string ->
        ContentCreate.agent_id_external c = "medium:author"%string)) /\
  (forall source, from_source source raw ->
     (source ∉ dynamic_sources -> DynamicWebIndexer.parse_content repr raw = Ok None) /\
     (source ∈ dynamic_sources -> DynamicWebIndexer.parse_content repr raw <> Ok None)).
Proof.
  unfold DynamicWebIndexer.parse_content, dynamic_sources. split.
  - intros c H. res_inv H;
      repeat match goal with
             | H : Values.eq_str _ _ = true |- _ => apply eq_str_true in H as ->
             end.
    + apply parse_hackernews_some in H as (c' & [= <-] & Hp & Hu).
      exists "hackernews"%string. split_and!; [set_solver|done|done|done|done].
    + apply parse_devto_some in H as (c' & [= <-] & Hp & Hu).
      exists "devto"%string. split_and!; [set_solver|done|done|done|done].
    + apply parse_medium_some in H as (c' & [= <-] & Hp & Hu & Ha).
      exists "medium"%string. split_and!; [set_solver|done|done|done|done].
  - intros source Hsrc. apply from_source_get in Hsrc as [-> ->]. cbn.
    split.
    + intros Hn.
      repeat match goal with
             | |- context [String.eqb source ?x] =>
                 destruct (String.eqb_spec source x) as [->|?];
                 [exfalso; apply Hn; set_solver|]
             end.
      done.
    + intros Hin H.
      repeat (apply elem_of_cons in Hin as [->|Hin]; cbn in H;
              [first [apply parse_hackernews_some in H as (? & [=] & _)
                     |apply parse_devto_some in H as (? & [=] & _)
                     |apply parse_medium_some in H as (? & [=] & _)]|]).
      by apply not_elem_of_nil in Hin.
Qed.

Lemma content_type_of_types url t :
  WebSearch.content_type_of url = Ok t -> t ∈ websearch_types.
Proof.
  unfold WebSearch.content_type_of, WebSearch.or_else, websearch_types. intros H.
  repeat match type of H with
         | res_bind ?r _ = Ok _ =>
             let E := fresh "E" in
             destruct r as [[]|] eqn:E; cbn [res_bind] in H; [| |discriminate H]
         end;
    injection H as <-; set_solver.
Qed.

(** X16.  Every item the web search parser makes can be recognised again:
    it has a title that is not empty, one of the five content types, and a
    URL that is not empty, taken as it is from the record, which serves as
    content URL, as source URL and as the key of the duplicate check. *)
Theorem websearch_items_have_identity (netloc : string -> Res string)
    (repr : JVal -> string) (raw : JVal) (c : ContentCreate.t)
    (Hparse : WebSearch.parse_content netloc repr raw = Ok (Some c)) :
  exists u,
    py_get raw "url" (JStr "") = Ok (JStr u) /\
    u <> ""%string /\
    ContentCreate.source_url c = Some u /\
    ContentCreate.content_url c = Some u /\
    checked_url c = Some u /\
    py_get raw "title" (JStr "") = Ok (JStr (ContentCreate.title c)) /\
    ContentCreate.title c <> ""%string /\
    ContentCreate.content_type c ∈ websearch_types.
Proof.
  unfold WebSearch.parse_content in Hparse. res_inv Hparse.
  injection Hparse as <-.
  match goal with
  | H : negb _ || negb _ = false |- _ =>
      apply orb_false_iff in H as [Hu Ht];
      apply negb_false_iff in Hu; apply negb_false_iff in Ht
  end.
  repeat match goal with
         | H : validate_str _ = Ok _ |- _ => apply validate_str_inv in H as ->
         | H : validate_opt_str ?v = Ok _, Hv : truthy ?v = true |- _ =>
             apply validate_opt_str_inv in H as [[-> _]|(? & -> & ->)]; [done|]
         end.
  apply truthy_str in Hu. apply truthy_str in Ht.
  unfold checked_url. cbn.
  eexists. split_and!; try done.
  - by apply String.eqb_neq in Hu as ->.
  - by eapply content_type_of_types.
Qed.

Lemma websearch_items_have_identity_witness :
  exists u,
    ContentCreate.source_url (found_item "four" "https://github.com/a/4" "code") = Some u /\
    u <> ""%string.
Proof.
  destruct (websearch_items_have_identity (fun u => Ok u) (fun _ => ""%string)
              (search_result "four" "https://github.com/a/4")
              (found_item "four" "https://github.com/a/4" "code") eq_refl)
    as (u & _ & Hne & Hu & _).
  exists u. split; [exact Hu|exact Hne].
Defined.

(** X11.  The Dev.to sub-fetcher asks for two tags, [ai] and
    [machinelearning], one request each whatever the answers, never raises,
    and every article it returns is a record marked with [_source] =
    [devto], which the parser of the collector therefore treats as a Dev.to
    article. *)
Theorem devto_articles_are_marked (repr : JVal -> string) (limit : Z) (e : Http.Env) :
  exists items e',
    DynamicWebIndexer._fetch_devto limit e = (Ok items, e') /\
    Forall (from_source "devto") items /\
    Forall (fun item => DynamicWebIndexer.parse_content repr item
                        = DynamicWebIndexer._parse_devto repr item) items /\
    requests_of (DynamicWebIndexer._fetch_devto limit) e
    = [DynamicWebIndexer.devto_request "ai" limit;
       DynamicWebIndexer.devto_request "machinelearning" limit].
Proof.
  assert (Hopen : Http.next_client e ∈ Http.opened (after_open e)) by left.
  destruct (devto_step (Http.next_client e) limit "ai" (after_open e) [] Hopen)
    as (items1 & H1 & Hi1); [done|].
  destruct (devto_step (Http.next_client e) limit "machinelearning"
              (after_get (Http.next_client e) (DynamicWebIndexer.devto_request "ai" limit)
                 (after_open e)) items1 Hopen Hi1)
    as (items2 & H2 & Hi2).
  assert (Hrun : exists e',
             DynamicWebIndexer._fetch_devto limit e = (Ok items2, e') /\
             Http.log e'
             = Http.log e
               ++ (Http.Sent (Http.next_client e)
                   <$> [DynamicWebIndexer.devto_request "ai" limit;
                        DynamicWebIndexer.devto_request "machinelearning" limit])).
  { unfold DynamicWebIndexer._fetch_devto, with_locals.
    unfold Py.bind at 1. rewrite async_with_client_run. unfold finally.
    cbn [take DynamicWebIndexer.devto_tags for_each].
    unfold Py.bind at 1. rewrite H1.
    unfold Py.bind at 1. rewrite H2.
    eexists. split; [reflexivity|]. cbn. by rewrite <- app_assoc. }
  destruct Hrun as (e' & Hrun & Hlog).
  exists items2, e'. split_and!; [done|done| |].
  { eapply Forall_impl; [exact Hi2|]. intros item Hitem.
    apply from_source_get in Hitem as [Ht Hs].
    unfold DynamicWebIndexer.parse_content. by rewrite Ht, Hs. }
  unfold requests_of, new_events. rewrite Hrun. cbn [snd].
  rewrite Hlog, drop_app_length.
  by rewrite (requests_sent (Http.next_client e) (fun r => r)), list_fmap_id.
Qed.

(** ** The Hacker News sub-fetcher *)

(** A loop whose body raises a measure of the state by at most one raises
    it by at most the number of turns. *)
Lemma for_each_grows {S X} (mu : S -> nat) (body : X -> M S unit) (l : list X) :
  (forall x s, mu (body x s).2 <= Datatypes.S (mu s)) ->
  forall s, mu (for_each l body s).2 <= mu s + length l.
Proof.
  intros Hb. induction l as [|x l IH]; intros s; [cbn; lia|].
  cbn [for_each length]. unfold Py.bind at 1.
  specialize (Hb x s). destruct (body x s) as [[[]|err] s1]; cbn [snd] in *.
  - specialize (IH s1). lia.
  - lia.
Qed.

Lemma sliced_length limit v v' l :
  (0 <= limit)%Z ->
  py_slice_to limit v = Ok v' -> py_iter v' = Ok l ->
  length l <= Z.to_nat limit.
Proof.
  intros Hl Hs Hi. destruct v; try done; injection Hs as <-; injection Hi as <-.
  - unfold str_slice_to, slice_to. rewrite (proj2 (Z.leb_le 0 limit)) by done.
    rewrite list_ascii_of_string_of_list_ascii, length_map, length_take. lia.
  - unfold slice_to. rewrite (proj2 (Z.leb_le 0 limit)) by done.
    rewrite length_take. lia.
Qed.

Lemma requests_length (l : list Http.Event) : length (Http.requests l) <= length l.
Proof.
  unfold Http.requests, omap. induction l as [|[c r|ms] l IH]; simpl; lia.
Qed.

Section HackerNews.
Context (lower : string -> string) (repr : JVal -> string) (client : nat).

Lemma fetch_story_step story_id e items :
  client ∈ Http.opened e ->
  exists items',
    DynamicWebIndexer.fetch_story lower repr client story_id (e, items)
    = (Ok tt, (after_get client (DynamicWebIndexer.story_request repr story_id) e, items')) /\
    (items' = items \/
     exists story, items' = items ++ [story] /\ from_source "hackernews" story).
Proof.
  intros Hopen. unfold DynamicWebIndexer.fetch_story. rewrite try_get_open by done.
  destruct (Http.upstream e (Http.sent e) (DynamicWebIndexer.story_request repr story_id))
    as [resp|err]; [|exists items; by split; [|left]].
  unfold try_except, Py.bind, lift_res, local_modify, modify, ret.
  repeat (case_match; simplify_eq; cbn [fst snd]);
    try (exists items; by split; [|left]).
  eexists. split; [reflexivity|]. right. eexists. split; [done|].
  by eapply setitem_from_source.
Qed.

Lemma fetch_stories_spec story_ids : forall e items,
  client ∈ Http.opened e ->
  Forall (from_source "hackernews") items ->
  exists e' items',
    for_each story_ids (DynamicWebIndexer.fetch_story lower repr client) (e, items)
    = (Ok tt, (e', items')) /\
    Http.log e'
    = Http.log e
      ++ (Http.Sent client ∘ DynamicWebIndexer.story_request repr <$> story_ids) /\
    length items' <= length items + length story_ids /\
    Forall (from_source "hackernews") items'.
Proof.
  induction story_ids as [|story_id story_ids IH]; intros e items Hopen Hitems.
  - exists e, items. cbn. rewrite app_nil_r. split_and!; [done|done|lia|done].
  - destruct (fetch_story_step story_id e items Hopen) as (items1 & Hstep & Hitems1).
    assert (Hlen : length items1 <= S (length items))
      by (destruct Hitems1 as [->|(story & -> & _)]; rewrite ?length_app; cbn; lia).
    assert (HP : Forall (from_source "hackernews") items1).
    { destruct Hitems1 as [->|(story & -> & Hs)]; [done|].
      apply Forall_app. split; [done|]. by constructor. }
    destruct (IH (after_get client (DynamicWebIndexer.story_request repr story_id) e)
                items1 Hopen HP)
      as (e' & items' & Hloop & Hlog & Hlen' & HP').
    exists e', items'. cbn [for_each]. unfold Py.bind at 1. rewrite Hstep.
    split_and!; [done| |cbn; lia|done].
    rewrite Hlog. cbn. by rewrite <- app_assoc.
Qed.

End HackerNews.

(** X17.  The Hacker News sub-fetcher never raises, and for a limit that is
    not negative it returns at most [limit] stories and sends at most
    [1 + limit] requests: the list of ids, then one request per story.
    Every story it returns is marked with [_source] = [hackernews], so that
    the parser of the collector treats it as a Hacker News story. *)
Theorem hackernews_fetch_is_bounded (lower : string -> string) (repr : JVal -> string)
    (limit : Z) (e : Http.Env)
    (Hlimit : (0 <= limit)%Z) :
  exists items e',
    DynamicWebIndexer._fetch_hackernews lower repr limit e = (Ok items, e') /\
    length items <= Z.to_nat limit /\
    length (requests_of (DynamicWebIndexer._fetch_hackernews lower repr limit) e)
    <= 1 + Z.to_nat limit /\
    Forall (from_source "hackernews") items /\
    Forall (fun item => DynamicWebIndexer.parse_content repr item
                        = DynamicWebIndexer._parse_hackernews repr item) items.
Proof.
  set (c := Http.next_client e).
  assert (Hopen : c ∈ Http.opened (after_open e)) by left.
  assert (Hrun : exists items e' n,
             DynamicWebIndexer._fetch_hackernews lower repr limit e = (Ok items, e') /\
             length items <= n /\ n <= Z.to_nat limit /\
             length (Http.log e') = length (Http.log e) + 1 + n /\
             Forall (from_source "hackernews") items).
  { unfold DynamicWebIndexer._fetch_hackernews, with_locals.
    unfold Py.bind at 1. rewrite async_with_client_run. fold c. unfold finally.
    rewrite try_get_open by done.
    destruct (Http.upstream (after_open e) (Http.sent (after_open e))
                DynamicWebIndexer.topstories) as [resp|err].
    2: { eexists [], _, 0. cbn. split_and!; [reflexivity|lia|lia| |done].
         cbn. rewrite length_app. cbn. lia. }
    unfold try_except at 1. unfold Py.bind at 1, lift_res at 1.
    destruct (Http.json resp) as [ids|err].
    2: { eexists [], _, 0. cbn. split_and!; [reflexivity|lia|lia| |done].
         cbn. rewrite length_app. cbn. lia. }
    unfold Py.bind at 1, lift_res at 1.
    destruct (py_slice_to (limit * 2) ids) as [story_ids|err].
    2: { eexists [], _, 0. cbn. split_and!; [reflexivity|lia|lia| |done].
         cbn. rewrite length_app. cbn. lia. }
    unfold Py.bind at 1, lift_res at 1.
    destruct (py_slice_to limit story_ids) as [first|err] eqn:Hslice.
    2: { eexists [], _, 0. cbn. split_and!; [reflexivity|lia|lia| |done].
         cbn. rewrite length_app. cbn. lia. }
    unfold Py.bind at 1, lift_res at 1.
    destruct (py_iter first) as [stories|err] eqn:Hiter.
    2: { eexists [], _, 0. cbn. split_and!; [reflexivity|lia|lia| |done].
         cbn. rewrite length_app. cbn. lia. }
    destruct (fetch_stories_spec lower repr c stories
                (after_get c DynamicWebIndexer.topstories (after_open e)) [] Hopen)
      as (e' & items' & Hloop & Hlog & Hlen & HP); [done|].
    rewrite Hloop. eexists items', _, (length stories). cbn.
    split_and!; [reflexivity|cbn in Hlen; lia|by eapply sliced_length| |done].
    cbn. rewrite Hlog. cbn. rewrite !length_app, length_fmap. cbn. lia. }
  destruct Hrun as (items & e' & n & Hrun & Hlen & Hn & Hlog & HP).
  exists items, e'. split_and!; [done|lia| |done|].
  - unfold requests_of, new_events. rewrite Hrun. cbn [snd].
    etrans; [apply requests_length|]. rewrite length_drop. lia.
  - eapply Forall_impl; [exact HP|]. intros item Hitem.
    apply from_source_get in Hitem as [Ht Hs].
    unfold DynamicWebIndexer.parse_content. by rewrite Ht, Hs.
Qed.

(** Three ids on offer and a limit of two: two stories, three requests. *)
Lemma hackernews_fetch_is_bounded_witness :
  exists items e',
    DynamicWebIndexer._fetch_hackernews ascii_lower (fun _ => ""%string) 2 hackernews_world
    = (Ok items, e') /\
    length items <= 2 /\
    length (requests_of (DynamicWebIndexer._fetch_hackernews ascii_lower
                           (fun _ => ""%string) 2) hackernews_world) <= 3.
Proof.
  destruct (hackernews_fetch_is_bounded ascii_lower (fun _ => ""%string) 2
              hackernews_world ltac:(discriminate))
    as (items & e' & H & Hl & Hr & _ & _).
  exists items, e'. split; [exact H|]. split; [exact Hl|exact Hr].
Defined.

(** ** One web search *)

Ltac found_nothing := exists []; cbn; split; [reflexivity|lia].

Lemma search_duckduckgo_run client query limit e :
  (0 <= limit)%Z ->
  client ∈ Http.opened e ->
  exists items,
    WebSearch._search_duckduckgo client query limit e
    = (Ok items, after_get client (WebSearch.duckduckgo_request query) e) /\
    length items <= Z.to_nat limit + 1.
Proof.
  intros Hlimit Hopen. unfold WebSearch._search_duckduckgo, with_locals.
  unfold Py.bind at 1. rewrite try_get_open by done.
  destruct (Http.upstream e (Http.sent e) (WebSearch.duckduckgo_request query))
    as [resp|err]; [|found_nothing].
  destruct (Http.status_code resp =? 200)%Z; [|found_nothing].
  unfold try_except. unfold Py.bind at 1, lift_res at 1.
  destruct (Http.json resp) as [data|err]; [|found_nothing].
  unfold Py.bind at 1, lift_res at 1.
  destruct (py_get data "RelatedTopics" (JList [])) as [related|err]; [|found_nothing].
  unfold Py.bind at 1, lift_res at 1.
  destruct (py_slice_to limit related) as [sliced|err] eqn:Hslice; [|found_nothing].
  unfold Py.bind at 1, lift_res at 1.
  destruct (py_iter sliced) as [topics|err] eqn:Hiter; [|found_nothing].
  pose proof (sliced_length limit related sliced topics Hlimit Hslice Hiter) as Htopics.
  unfold Py.bind at 1.
  match goal with
  | |- context [for_each topics ?body ?s] =>
      pose proof (for_each_grows (fun sl : Http.Env * list JVal => length sl.2)
                    body topics) as Hgrow;
      assert (Hframe : (for_each topics body s).2.1 = s.1);
      [|specialize (Hgrow ltac:(
          intros topic [e1 l1]; unfold Py.bind, lift_res, local_modify, modify, ret;
          repeat (case_match; simplify_eq; cbn [fst snd]);
          rewrite ?length_app; cbn; lia) s);
        destruct (for_each topics body s) as [[[]|err] [e2 items2]] eqn:Hloop]
  end.
  - match goal with
    | |- (for_each topics ?body ?s).2.1 = _ =>
        apply (preserves_for_each (fun sl : Http.Env * list JVal => sl.1 = s.1)
                 topics body); [|done]
    end.
    intros topic [e1 l1] He1. cbn in He1. subst e1.
    unfold Py.bind, lift_res, local_modify, modify, ret.
    repeat (case_match; simplify_eq; cbn [fst snd]); done.
  - cbn in Hframe, Hgrow. subst e2.
    unfold Py.bind, lift_res, local_modify, local_get, gets, modify, ret.
    repeat (case_match; simplify_eq; cbn [fst snd]);
      eexists; (split; [reflexivity|]); rewrite ?length_app; cbn; lia.
  - cbn in Hframe, Hgrow. subst e2.
    eexists. split; [reflexivity|cbn; lia].
Qed.

(** X18.  One DuckDuckGo search never raises and, for a limit that is not
    negative, returns at most [limit + 1] items: at most [limit] related
    topics, and the abstract on top of them.  On an open client it sends
    exactly one request; on a closed one it sends nothing and finds
    nothing. *)
Theorem search_duckduckgo_at_most_limit_plus_one (client : nat) (query : string)
    (limit : Z) (e : Http.Env)
    (Hlimit : (0 <= limit)%Z) :
  exists items e',
    WebSearch._search_duckduckgo client query limit e = (Ok items, e') /\
    length items <= Z.to_nat limit + 1 /\
    (client ∈ Http.opened e ->
     requests_of (WebSearch._search_duckduckgo client query limit) e
     = [WebSearch.duckduckgo_request query]) /\
    (client ∉ Http.opened e -> items = [] /\ e' = e).
Proof.
  destruct (decide (client ∈ Http.opened e)) as [Hopen|Hclosed].
  - destruct (search_duckduckgo_run client query limit e Hlimit Hopen)
      as (items & Hrun & Hlen).
    exists items, (after_get client (WebSearch.duckduckgo_request query) e).
    split_and!; [done|done| |done].
    intros _. unfold requests_of, new_events. rewrite Hrun. cbn.
    by rewrite drop_app_length.
  - exists [], e.
    assert (Hrun : WebSearch._search_duckduckgo client query limit e = (Ok [], e)).
    { unfold WebSearch._search_duckduckgo, with_locals, Py.bind, try_except, outer, zoom.
      cbn [fst snd]. by rewrite client_get_closed. }
    split_and!; [done|cbn; lia|done|done].
Qed.

Lemma search_duckduckgo_at_most_limit_plus_one_witness :
  exists items e',
    WebSearch._search_duckduckgo 0 "AI agent" 1 (after_open two_by_three) = (Ok items, e') /\
    length items <= 2.
Proof.
  destruct (search_duckduckgo_at_most_limit_plus_one 0 "AI agent" 1
              (after_open two_by_three) ltac:(discriminate))
    as (items & e' & H & Hl & _).
  exists items, e'. split; [exact H|exact Hl].
Defined.

(** ** Posting content through the API *)

Ltac run_service :=
  unfold SearchService.create_content, SearchService.create_agent,
    SearchService.refresh, Db.select_agent, Db.add_agent, Db.add_content,
    Db.set_total_creations, Db.commit, Db.db_step, Db.scalar_one_or_none,
    Py.bind, lift_res, gets, modify, ret in *.

Lemma create_content_writes c d :
  no_faults d ->
  length (Db.rows_of_agent (ContentCreate.agent_id_external c) (Db.session d)) <= 1 ->
  exists row d',
    SearchService.create_content c d = (Ok row, d') /\
    Db.session d' = written c (Db.session d) /\
    Db.durable d' = written c (Db.session d) /\
    Db.fault d' = Db.fault d /\
    Db.contents (written c (Db.session d)) = Db.contents (Db.session d) ++ [row] /\
    stores_item row c.
Proof.
  intros Hnf Hag. destruct d as [dur ses ops flt]. unfold no_faults in Hnf.
  cbn in Hnf, Hag |- *. unfold written, stores_item.
  run_service. cbn. rewrite !Hnf. cbn.
  destruct (Db.rows_of_agent (ContentCreate.agent_id_external c) ses)
    as [|a [|a' rows]] eqn:Hrows; cbn in Hag |- *; [| |lia].
  - rewrite !Hnf. cbn. eexists _, _. split_and!; try reflexivity. by eexists _, _.
  - rewrite !Hnf. cbn. eexists _, _. split_and!; try reflexivity. by eexists _, _.
Qed.

Lemma stores_item_url row c : stores_item row c ->
  AgentContent.source_url row = ContentCreate.source_url c.
Proof. by intros (aid & id & ->). Qed.

(** X19.  [create_content] commits what it writes at once and never looks
    for a duplicate: posted twice, an item is written twice, as the two last
    rows of the committed catalog, both with its source URL.  When that URL
    is not empty, an indexer that later meets it does not skip the item but
    counts an error. *)
Theorem create_content_never_deduplicates (c : ContentCreate.t) (d : Db.Db)
    (Hnf : no_faults d)
    (Hagent : length (Db.rows_of_agent (ContentCreate.agent_id_external c)
                        (Db.session d)) <= 1) :
  exists row1 d1 row2 d2,
    SearchService.create_content c d = (Ok row1, d1) /\
    SearchService.create_content c d1 = (Ok row2, d2) /\
    Db.durable d1 = Db.session d1 /\
    Db.durable d2 = Db.session d2 /\
    Db.contents (Db.durable d2) = Db.contents (Db.session d) ++ [row1; row2] /\
    stores_item row1 c /\ stores_item row2 c /\
    (forall u w,
       ContentCreate.source_url c = Some u -> u <> ""%string -> Base.db w = d2 ->
       exists w',
         Base.index_content c w = (Ok None, w') /\
         Base.stats w' = one_more_error (Base.stats w)).
Proof.
  destruct (create_content_writes c d Hnf Hagent)
    as (row1 & d1 & H1 & Hs1 & Hd1 & Hf1 & Hc1 & Hr1).
  assert (Hnf1 : no_faults d1) by (intros op n; rewrite Hf1; apply Hnf).
  assert (Hagent1 : length (Db.rows_of_agent (ContentCreate.agent_id_external c)
                              (Db.session d1)) <= 1).
  { rewrite Hs1, written_rows_of_agent by done.
    destruct (Db.rows_of_agent _ _); cbn; lia. }
  destruct (create_content_writes c d1 Hnf1 Hagent1)
    as (row2 & d2 & H2 & Hs2 & Hd2 & Hf2 & Hc2 & Hr2).
  assert (Hcontents : Db.contents (Db.session d2)
                      = Db.contents (Db.session d) ++ [row1; row2]).
  { rewrite Hs2, Hc2, Hs1, Hc1, <- app_assoc. done. }
  exists row1, d1, row2, d2. split_and!; try done; try congruence.
  intros u w Hu Hne <-.
  destruct (index_content_ambiguous c u w Hu Hne) as (w' & Hi & _ & _ & Hst); [|eauto].
  unfold Db.rows_with_url. rewrite Hcontents, filter_app, length_app.
  rewrite !filter_cons, !decide_True; [cbn; lia| |];
    by erewrite stores_item_url.
Qed.

(** The same post sent twice to an empty catalog. *)
Lemma create_content_never_deduplicates_witness :
  exists row1 d1 row2 d2,
    SearchService.create_content (post_by "reddit:alice" "first" "https://reddit.com/r/x/1")
      (empty_db reliable) = (Ok row1, d1) /\
    SearchService.create_content (post_by "reddit:alice" "first" "https://reddit.com/r/x/1")
      d1 = (Ok row2, d2) /\
    Db.contents (Db.durable d2) = [row1; row2].
Proof.
  destruct (create_content_never_deduplicates
              (post_by "reddit:alice" "first" "https://reddit.com/r/x/1")
              (empty_db reliable) (fun _ _ => eq_refl) (le_S _ _ (le_n 0)))
    as (row1 & d1 & row2 & d2 & H1 & H2 & _ & _ & Hc & _).
  exists row1, d1, row2, d2. split; [exact H1|]. split; [exact H2|exact Hc].
Defined.

Lemma create_content_consistent c d :
  consistent d -> consistent (SearchService.create_content c d).2.
Proof.
  intros [Hs Hd]. destruct d as [dur ses ops flt]. unfold consistent. cbn in Hs, Hd.
  run_service. cbn.
  repeat (case_match; simplify_eq; cbn [fst snd]).
  all: simpl in *; try (split; done).
  all: split;
    first
      [ assumption
      | by apply counters_agree_new_agent
      | match goal with
        | Hs0 : counters_agree ?s0
          |- counters_agree
               {| Db.agents := _ <$> (Db.agents ?s0 ++ [?ag]);
                  Db.contents := Db.contents ?s0 ++ [Db.new_content ?c _ ?i] |} =>
            exact (counters_agree_write
                     {| Db.agents := Db.agents s0 ++ [ag]; Db.contents := Db.contents s0 |}
                     ag c i (counters_agree_new_agent s0 _ _ Hs0)
                     ltac:(apply elem_of_app; right; left))
        end
      | apply counters_agree_write; [assumption|];
        match goal with
        | H : Db.rows_of_agent ?x ?s = [?a] |- ?a ∈ _ =>
            assert (Hin : a ∈ Db.rows_of_agent x s) by (rewrite H; left);
            by apply list_elem_of_filter in Hin as [_ ?]
        end ].
Qed.

(** X20.  Posting through the API keeps the denormalized counter right as
    well: in a catalog where every agent's [total_creations] is the number
    of its content rows, it is so again after [create_content], in the
    session and in what is committed, whichever database operations fail. *)
Theorem create_content_keeps_counters (c : ContentCreate.t) (d : Db.Db)
    (Hcatalog : consistent d) :
  consistent (SearchService.create_content c d).2.
Proof. by apply create_content_consistent. Qed.

(** A post to an empty catalog whose commit fails. *)
Lemma create_content_keeps_counters_witness :
  consistent (SearchService.create_content (post_by "reddit:alice" "first" "")
                (empty_db (fun op n => match op with Db.OpCommit => true | _ => false end))).2.
Proof.
  assert (Hempty : counters_agree empty_store).
  { split_and!; [constructor | intros a Ha | intros c Hc].
    - by apply not_elem_of_nil in Ha.
    - by apply not_elem_of_nil in Hc. }
  exact (create_content_keeps_counters (post_by "reddit:alice" "first" "")
           (empty_db (fun op n => match op with Db.OpCommit => true | _ => false end))
           (conj Hempty Hempty)).
Defined.

(** ** Paging of the search *)

Lemma pages_enough total page_size :
  1 <= page_size -> total <= Api.pages total page_size * page_size.
Proof.
  intros Hk. unfold Api.pages. destruct (Nat.ltb_spec 0 total) as [Ht|Ht]; [|lia].
  pose proof (Nat.div_mod_eq (total + page_size - 1) page_size) as Hdm.
  pose proof (Nat.mod_upper_bound (total + page_size - 1) page_size ltac:(lia)) as Hm.
  nia.
Qed.

Lemma pages_least total page_size :
  1 <= page_size -> 0 < total -> (Api.pages total page_size - 1) * page_size < total.
Proof.
  intros Hk Ht. unfold Api.pages. rewrite (proj2 (Nat.ltb_lt 0 total)) by done.
  pose proof (Nat.div_mod_eq (total + page_size - 1) page_size) as Hdm.
  pose proof (Nat.mod_upper_bound (total + page_size - 1) page_size ltac:(lia)) as Hm.
  nia.
Qed.

Lemma concat_pages {A} (l : list A) (page_size n : nat) :
  concat ((fun page => take page_size (drop ((page - 1) * page_size) l)) <$> seq 1 n)
  = take (n * page_size) l.
Proof.
  induction n as [|n IH]; [done|].
  rewrite seq_S, fmap_app, concat_app, IH. cbn [fmap list_fmap concat].
  rewrite app_nil_r. replace (1 + n - 1) with n by lia.
  rewrite take_take_drop. f_equal. lia.
Qed.

Lemma search_run selected page page_size d :
  no_faults d ->
  exists d',
    Api.search selected page page_size d
    = (Ok {| Api.rows := take page_size (drop ((page - 1) * page_size)
                                           (selected (Db.session d)));
             Api.total := length (selected (Db.session d));
             Api.total_pages := Api.pages (length (selected (Db.session d))) page_size |},
       d') /\
    Db.session d' = Db.session d /\ Db.durable d' = Db.durable d.
Proof.
  intros Hnf. destruct d as [dur ses ops flt]. unfold no_faults in Hnf. cbn in Hnf.
  unfold Api.search, SearchService.search_content, Db.db_step, Py.bind, gets, ret.
  cbn. rewrite !Hnf. cbn. eexists. by split_and!.
Qed.

(** X21.  The pages of a search partition its result.  With a page size of
    at least one and no database failure, a search for any page returns the
    rows of that page, the number of all selected rows, and as the number
    of pages the least number of pages of that size that hold them all, and
    changes nothing in the catalog; the rows of the pages 1 to that number,
    one after the other, are the selected rows, every one of these pages
    holds at least one row and at most [page_size], and a page beyond them
    is empty. *)
Theorem search_pages_partition (selected : Db.Store -> list AgentContent.t)
    (page_size : nat) (d : Db.Db)
    (Hsize : 1 <= page_size)
    (Hnf : no_faults d) :
  (forall page,
     exists d',
       Api.search selected page page_size d
       = (Ok {| Api.rows := take page_size (drop ((page - 1) * page_size)
                                              (selected (Db.session d)));
                Api.total := length (selected (Db.session d));
                Api.total_pages := Api.pages (length (selected (Db.session d))) page_size |},
          d') /\
       Db.session d' = Db.session d /\ Db.durable d' = Db.durable d) /\
  length (selected (Db.session d))
  <= Api.pages (length (selected (Db.session d))) page_size * page_size /\
  (selected (Db.session d) <> [] ->
   (Api.pages (length (selected (Db.session d))) page_size - 1) * page_size
   < length (selected (Db.session d))) /\
  concat ((fun page => rows_of (Api.search selected page page_size d))
          <$> seq 1 (Api.pages (length (selected (Db.session d))) page_size))
  = selected (Db.session d) /\
  (forall page,
     1 <= page <= Api.pages (length (selected (Db.session d))) page_size ->
     1 <= length (rows_of (Api.search selected page page_size d)) <= page_size) /\
  (forall page,
     Api.pages (length (selected (Db.session d))) page_size < page ->
     rows_of (Api.search selected page page_size d) = []).
Proof.
  set (found := selected (Db.session d)).
  assert (Hrows : forall page,
             rows_of (Api.search selected page page_size d)
             = take page_size (drop ((page - 1) * page_size) found)).
  { intros page. destruct (search_run selected page page_size d Hnf) as (d' & H & _).
    unfold rows_of. by rewrite H. }
  pose proof (pages_enough (length found) page_size Hsize) as Henough.
  split_and!.
  - intros page. by apply search_run.
  - done.
  - intros Hne. apply pages_least; [done|]. destruct found; [done|cbn; lia].
  - erewrite list_fmap_ext; [|intros i page _; apply Hrows].
    rewrite concat_pages. by apply take_ge.
  - intros page [H1 Hn]. rewrite Hrows, length_take, length_drop.
    assert (0 < length found) as Hpos.
    { destruct (Nat.eq_dec (length found) 0) as [H0|]; [|lia].
      unfold Api.pages in Hn. rewrite H0 in Hn. cbn in Hn. lia. }
    pose proof (pages_least (length found) page_size Hsize Hpos). nia.
  - intros page Hpage. rewrite Hrows. rewrite drop_ge; [by rewrite take_nil|]. nia.
Qed.

Lemma search_pages_partition_witness :
  concat ((fun page => rows_of (Api.search Db.contents page 2
                                  (Base.db posted_twice)))
          <$> seq 1 (Api.pages (length (Db.contents (Db.session (Base.db posted_twice)))) 2))
  = Db.contents (Db.session (Base.db posted_twice)).
Proof.
  exact (proj1 (proj2 (proj2 (proj2
           (search_pages_partition Db.contents 2 (Base.db posted_twice)
              (le_S _ _ (le_n 1)) (fun _ _ => eq_refl)))))).
Defined.

(** ** The Hugging Face collector *)

Lemma setitem_of_content_type content_type item item' :
  py_setitem item "_content_type" (JStr content_type) = Ok item' ->
  of_content_type content_type item'.
Proof.
  destruct item; try done. intros [= <-]. eexists. split; [done|]. apply assoc_get_set.
Qed.

(** One listing: one request, and whatever is read is marked. *)
Lemma fetch_listing_step (P : list JVal -> Prop) client kind content_type limit e items :
  client ∈ Http.opened e ->
  (forall l item, P l -> of_content_type content_type item -> P (l ++ [item])) ->
  P items ->
  exists items',
    HuggingFaceIndexer.fetch_listing client kind content_type limit (e, items)
    = (Ok tt, (after_get client (HuggingFaceIndexer.listing_request kind limit) e, items')) /\
    P items'.
Proof.
  intros Hopen HP Hitems. unfold HuggingFaceIndexer.fetch_listing.
  rewrite try_get_open by done.
  destruct (Http.upstream e (Http.sent e) (HuggingFaceIndexer.listing_request kind limit))
    as [resp|err]; [|by exists items].
  destruct (Http.status_code resp =? 200)%Z; [|by exists items].
  apply reads_into; [|done].
  apply preserves_bind; [apply preserves_lift_res|]. intros data.
  apply preserves_bind; [apply preserves_lift_res|]. intros records.
  apply preserves_for_each. intros record0.
  apply preserves_lift_bind. intros record Hset.
  apply (preserves_local_modify (fun e' => e' = _) P).
  intros l Hl. apply HP; [done|]. by eapply setitem_of_content_type.
Qed.

(** Marking the records of a listing, when all of them are objects. *)
Lemma mark_all {S} key value (ds : list (list (string * JVal))) : forall (s : S) items,
  for_each (JDict <$> ds) (fun record =>
    let* record := lift_res (py_setitem record key (JStr value)) in
    local_modify (fun items => items ++ [record])) (s, items)
  = (Ok tt, (s, items ++ (marked key value <$> ds))).
Proof.
  induction ds as [|d ds IH]; intros s items; cbn.
  - by rewrite app_nil_r.
  - unfold Py.bind at 1. cbn. rewrite IH. by rewrite <- app_assoc.
Qed.

Lemma fetch_listing_full client kind content_type limit e items response ds :
  client ∈ Http.opened e ->
  Http.upstream e (Http.sent e) (HuggingFaceIndexer.listing_request kind limit) = Ok response ->
  Http.status_code response = 200%Z ->
  Http.json response = Ok (JList (JDict <$> ds)) ->
  HuggingFaceIndexer.fetch_listing client kind content_type limit (e, items)
  = (Ok tt, (after_get client (HuggingFaceIndexer.listing_request kind limit) e,
             items ++ (marked "_content_type" content_type <$> ds))).
Proof.
  intros Hopen Hreply Hstatus Hjson. unfold HuggingFaceIndexer.fetch_listing.
  rewrite try_get_open by done. rewrite Hreply, Hstatus. cbn [Z.eqb Pos.eqb].
  unfold try_except, Py.bind at 1, lift_res at 1. rewrite Hjson.
  unfold Py.bind at 1, lift_res at 1. cbn [py_iter].
  by rewrite mark_all.
Qed.

Lemma huggingface_run (P : list JVal -> Prop) since limit e items1 :
  HuggingFaceIndexer.fetch_listing (Http.next_client e) "models" "model" limit
    (after_open e, [])
  = (Ok tt, (after_get (Http.next_client e)
               (HuggingFaceIndexer.listing_request "models" limit) (after_open e),
             items1)) ->
  P items1 ->
  (forall l item, P l -> of_content_type "dataset" item -> P (l ++ [item])) ->
  exists items e',
    HuggingFaceIndexer.fetch_content since limit e = (Ok (slice_to limit items), e') /\
    P items /\
    Http.log e'
    = Http.log e
      ++ (Http.Sent (Http.next_client e)
          <$> [HuggingFaceIndexer.listing_request "models" limit;
               HuggingFaceIndexer.listing_request "datasets" (floordiv limit 2)]).
Proof.
  intros H1 HP1 HP.
  assert (Hopen : Http.next_client e ∈ Http.opened (after_open e)) by left.
  destruct (fetch_listing_step P (Http.next_client e) "datasets" "dataset"
              (floordiv limit 2)
              (after_get (Http.next_client e)
                 (HuggingFaceIndexer.listing_request "models" limit) (after_open e))
              items1 Hopen HP HP1) as (items2 & H2 & HP2).
  exists items2. unfold HuggingFaceIndexer.fetch_content, with_locals.
  unfold Py.bind at 1. rewrite async_with_client_run. unfold finally.
  unfold Py.bind at 1. rewrite H1. rewrite H2.
  eexists. split; [reflexivity|]. split; [done|]. cbn. by rewrite <- app_assoc.
Qed.

(** X22.  The Hugging Face collector sends exactly two requests whatever
    the answers are, for the models with [limit] and then for the datasets
    with half of it, and never raises.  Every record it returns is marked
    with [_content_type], as a model or as a dataset. *)
Theorem huggingface_sends_two_requests (since : option Z) (limit : Z) (e : Http.Env) :
  exists items e',
    HuggingFaceIndexer.fetch_content since limit e = (Ok items, e') /\
    Forall (fun item => of_content_type "model" item \/ of_content_type "dataset" item)
      items /\
    requests_of (HuggingFaceIndexer.fetch_content since limit) e
    = [HuggingFaceIndexer.listing_request "models" limit;
       HuggingFaceIndexer.listing_request "datasets" (floordiv limit 2)].
Proof.
  set (P := Forall (fun item => of_content_type "model" item
                                \/ of_content_type "dataset" item)).
  assert (Hopen : Http.next_client e ∈ Http.opened (after_open e)) by left.
  destruct (fetch_listing_step P (Http.next_client e) "models" "model" limit
              (after_open e) [] Hopen) as (items1 & H1 & HP1).
  { intros l item Hl Hitem. apply Forall_app. split; [done|]. constructor; [by left|done]. }
  { constructor. }
  destruct (huggingface_run P since limit e items1 H1 HP1) as (items & e' & Hrun & HP & Hlog).
  { intros l item Hl Hitem. apply Forall_app. split; [done|]. constructor; [by right|done]. }
  exists (slice_to limit items), e'. split_and!; [done| |].
  - eapply Forall_forall. intros item Hitem.
    apply (slice_to_subseteq limit items) in Hitem.
    by eapply Forall_forall in HP.
  - unfold requests_of, new_events. rewrite Hrun. cbn [snd].
    rewrite Hlog, drop_app_length.
    by rewrite (requests_sent (Http.next_client e) (fun r => r)), list_fmap_id.
Qed.

(** X23.  When the hub answers the request for models with a full listing,
    at least [limit] records, the collector returns the first [limit] models
    and nothing else: the datasets come after the models in [items], and
    [items[:limit]] cuts them off, although the request for them is
    sent all the same. *)
Theorem huggingface_models_crowd_out_datasets (since : option Z) (limit : Z)
    (e : Http.Env) (response : Http.Response) (models : list (list (string * JVal)))
    (Hlimit : (0 <= limit)%Z)
    (Hreply : reply_to e 0 (HuggingFaceIndexer.listing_request "models" limit)
              = Ok response)
    (Hstatus : Http.status_code response = 200%Z)
    (Hjson : Http.json response = Ok (JList (JDict <$> models)))
    (Hfull : Z.to_nat limit <= length models) :
  (HuggingFaceIndexer.fetch_content since limit e).1
  = Ok (marked "_content_type" "model" <$> take (Z.to_nat limit) models) /\
  requests_of (HuggingFaceIndexer.fetch_content since limit) e !! 1
  = Some (HuggingFaceIndexer.listing_request "datasets" (floordiv limit 2)).
Proof.
  set (items1 := marked "_content_type" "model" <$> models).
  set (P := fun l : list JVal => exists more, l = items1 ++ more).
  assert (Hopen : Http.next_client e ∈ Http.opened (after_open e)) by left.
  unfold reply_to in Hreply. rewrite Nat.add_0_r in Hreply.
  pose proof (fetch_listing_full (Http.next_client e) "models" "model" limit
                (after_open e) [] response models Hopen Hreply Hstatus Hjson) as H1.
  destruct (huggingface_run P since limit e items1 H1) as (items & e' & Hrun & HP & Hlog).
  { exists []. by rewrite app_nil_r. }
  { intros l item [more ->] _. exists (more ++ [item]). by rewrite app_assoc. }
  destruct HP as [more ->]. split.
  - rewrite Hrun. cbn [fst]. f_equal. unfold slice_to.
    rewrite (proj2 (Z.leb_le 0 limit)) by done.
    rewrite take_app_le by (unfold items1; rewrite length_fmap; lia).
    unfold items1. by rewrite fmap_take.
  - unfold requests_of, new_events. rewrite Hrun. cbn [snd].
    rewrite Hlog, drop_app_length.
    by rewrite (requests_sent (Http.next_client e) (fun r => r)), list_fmap_id.
Qed.

(** Four records are asked for and the hub has them: four models, and none
    of the two datasets it answers with. *)
Lemma huggingface_models_crowd_out_datasets_witness :
  (HuggingFaceIndexer.fetch_content None 4 hub_world).1
  = Ok (replicate 4 (JDict [("id", JStr "org/name"); ("_content_type", JStr "model")])).
Proof.
  exact (proj1 (huggingface_models_crowd_out_datasets None 4 hub_world (hub_listing 4)
                  (replicate 4 [("id", JStr "org/name")])
                  ltac:(discriminate) eq_refl eq_refl eq_refl ltac:(vm_compute; lia))).
Defined.

(** ** The Moltbook collector *)

Section Moltbook.
Context (client : nat).

(** The platform's own posts: one request, and whatever is read is marked. *)
Lemma fetch_posts_step (P : list JVal -> Prop) limit e items :
  client ∈ Http.opened e ->
  (forall l item, P l -> from_source "moltbook" item -> P (l ++ [item])) ->
  P items ->
  exists items',
    MoltbookIndexer.fetch_posts client limit (e, items)
    = (Ok tt, (after_get client (MoltbookIndexer.posts_request limit) e, items')) /\
    P items'.
Proof.
  intros Hopen HP Hitems. unfold MoltbookIndexer.fetch_posts.
  rewrite try_get_open by done.
  destruct (Http.upstream e (Http.sent e) (MoltbookIndexer.posts_request limit))
    as [resp|err]; [|by exists items].
  destruct (Http.status_code resp =? 200)%Z; [|by exists items].
  apply reads_into; [|done].
  apply preserves_bind; [apply preserves_lift_res|]. intros data.
  apply preserves_bind; [apply preserves_lift_res|]. intros posts0.
  apply preserves_bind; [apply preserves_lift_res|]. intros posts.
  apply preserves_for_each. intros post0.
  apply preserves_lift_bind. intros post Hset.
  apply (preserves_local_modify (fun e' => e' = _) P).
  intros l Hl. apply HP; [done|]. by eapply setitem_from_source.
Qed.

(** A bare list of posts is not read: [data.get] raises on it. *)
Lemma fetch_posts_list limit e items response posts :
  client ∈ Http.opened e ->
  Http.upstream e (Http.sent e) (MoltbookIndexer.posts_request limit) = Ok response ->
  Http.json response = Ok (JList posts) ->
  MoltbookIndexer.fetch_posts client limit (e, items)
  = (Ok tt, (after_get client (MoltbookIndexer.posts_request limit) e, items)).
Proof.
  intros Hopen Hreply Hjson. unfold MoltbookIndexer.fetch_posts.
  rewrite try_get_open by done. rewrite Hreply.
  destruct (Http.status_code response =? 200)%Z; [|done].
  unfold try_except, Py.bind, lift_res. by rewrite Hjson.
Qed.

Lemma twitter_step (P : list JVal -> Prop) account e items :
  client ∈ Http.opened e ->
  (forall l, P l -> P (l ++ [MoltbookIndexer.twitter_item account])) ->
  P items ->
  exists items',
    try_except
      (let* response := outer (Http.client_get client
                                 (MoltbookIndexer.nitter_request account)) in
       if (Http.status_code response =? 200)%Z then
         local_modify (fun items => items ++ [MoltbookIndexer.twitter_item account])
       else ret tt)
      (fun e => ret tt) (e, items)
    = (Ok tt, (after_get client (MoltbookIndexer.nitter_request account) e, items')) /\
    P items'.
Proof.
  intros Hopen HP Hitems. rewrite try_get_open by done.
  destruct (Http.upstream e (Http.sent e) (MoltbookIndexer.nitter_request account))
    as [resp|err]; [|by exists items].
  destruct (Http.status_code resp =? 200)%Z; [|by exists items].
  eexists. split; [reflexivity|]. by apply HP.
Qed.

Lemma twitter_run (P : list JVal -> Prop) limit e :
  client ∈ Http.opened e ->
  P [] ->
  (forall l account, account ∈ take 3 MoltbookIndexer.accounts ->
     P l -> P (l ++ [MoltbookIndexer.twitter_item account])) ->
  exists items e',
    MoltbookIndexer._fetch_twitter_ai_posts client limit e = (Ok items, e') /\
    P items /\
    Http.opened e' = Http.opened e /\
    Http.log e'
    = Http.log e
      ++ (Http.Sent client ∘ MoltbookIndexer.nitter_request
          <$> ["autogpt"; "crewaiinc"; "langchainai"]).
Proof.
  intros Hopen HP0 HP.
  set (e1 := after_get client (MoltbookIndexer.nitter_request "autogpt") e).
  set (e2 := after_get client (MoltbookIndexer.nitter_request "crewaiinc") e1).
  destruct (twitter_step P "autogpt" e [] Hopen) as (items1 & H1 & HP1); [|done|].
  { intros l. apply HP. cbn. set_solver. }
  destruct (twitter_step P "crewaiinc" e1 items1 Hopen) as (items2 & H2 & HP2); [|done|].
  { intros l. apply HP. cbn. set_solver. }
  destruct (twitter_step P "langchainai" e2 items2 Hopen) as (items3 & H3 & HP3); [|done|].
  { intros l. apply HP. cbn. set_solver. }
  subst e1 e2.
  exists items3. unfold MoltbookIndexer._fetch_twitter_ai_posts, with_locals.
  cbn [take MoltbookIndexer.accounts for_each].
  unfold Py.bind at 1. unfold try_except at 1.
  unfold Py.bind at 1. rewrite H1. cbv beta iota.
  unfold Py.bind at 1. rewrite H2. cbv beta iota.
  unfold Py.bind at 1. rewrite H3.
  eexists. split; [reflexivity|]. cbn. split_and!; try done.
  by rewrite <- !app_assoc.
Qed.

Lemma twitter_item_from_source account :
  from_source "twitter" (MoltbookIndexer.twitter_item account).
Proof. eexists. split; reflexivity. Qed.

Lemma bluesky_run limit e :
  client ∈ Http.opened e ->
  exists items,
    MoltbookIndexer._fetch_bluesky_posts client limit e
    = (Ok items, after_get client (MoltbookIndexer.bluesky_request limit) e) /\
    Forall (from_source "bluesky") items.
Proof.
  intros Hopen. unfold MoltbookIndexer._fetch_bluesky_posts, with_locals.
  unfold Py.bind at 1. rewrite try_get_open by done.
  destruct (Http.upstream e (Http.sent e) (MoltbookIndexer.bluesky_request limit))
    as [resp|err]; [|by exists []].
  destruct (Http.status_code resp =? 200)%Z; [|by exists []].
  destruct (reads_into (Forall (from_source "bluesky"))
              (let* data := lift_res (Http.json resp) in
               let* posts := lift_res (py_get data "posts" (JList [])) in
               let* posts := lift_res (py_iter posts) in
               for_each posts (fun post =>
                 let* post := lift_res (py_setitem post "_source" (JStr "bluesky")) in
                 local_modify (fun items => items ++ [post])))
              (after_get client (MoltbookIndexer.bluesky_request limit) e) [])
    as (items & Hrun & HP); [|done|].
  - apply preserves_bind; [apply preserves_lift_res|]. intros data.
    apply preserves_bind; [apply preserves_lift_res|]. intros posts0.
    apply preserves_bind; [apply preserves_lift_res|]. intros posts.
    apply preserves_for_each. intros post0.
    apply preserves_lift_bind. intros post Hset.
    apply (preserves_local_modify (fun e' => e' = _) (Forall (from_source "bluesky"))).
    intros l Hl. apply Forall_app. split; [done|].
    constructor; [|done]. by eapply setitem_from_source.
  - exists items. by rewrite Hrun.
Qed.

End Moltbook.

Lemma moltbook_run (P : list JVal -> Prop) since limit e items1 :
  MoltbookIndexer.fetch_posts (Http.next_client e) limit (after_open e, [])
  = (Ok tt, (after_get (Http.next_client e) (MoltbookIndexer.posts_request limit)
               (after_open e), items1)) ->
  P items1 ->
  (forall l l', P l -> Forall (from_one_of ["twitter"; "bluesky"]) l' -> P (l ++ l')) ->
  exists items e',
    MoltbookIndexer.fetch_content since limit e = (Ok (slice_to limit items), e') /\
    P items /\
    Http.log e'
    = Http.log e
      ++ (Http.Sent (Http.next_client e)
          <$> MoltbookIndexer.posts_request limit
              :: (MoltbookIndexer.nitter_request <$> ["autogpt"; "crewaiinc"; "langchainai"])
              ++ [MoltbookIndexer.bluesky_request (floordiv limit 2)]).
Proof.
  intros H1 HP1 HP. set (c := Http.next_client e) in *.
  assert (Hopen : c ∈ Http.opened (after_get c (MoltbookIndexer.posts_request limit)
                                     (after_open e))) by left.
  destruct (twitter_run c (Forall (from_source "twitter")) (floordiv limit 2) _ Hopen)
    as (tw & e2 & H2 & Htw & Hopened & Hlog2).
  { constructor. }
  { intros l account _ Hl. apply Forall_app. split; [done|].
    constructor; [apply twitter_item_from_source|done]. }
  assert (Hopen2 : c ∈ Http.opened e2) by (rewrite Hopened; left).
  destruct (bluesky_run c (floordiv limit 2) e2 Hopen2) as (bs & H3 & Hbs).
  exists ((items1 ++ tw) ++ bs).
  unfold MoltbookIndexer.fetch_content, with_locals.
  unfold Py.bind at 1. rewrite async_with_client_run. fold c. unfold finally.
  unfold Py.bind at 1. rewrite H1. cbv beta iota.
  unfold Py.bind at 1. unfold try_except at 1, Py.bind at 1, outer at 1, zoom at 1.
  cbn [fst snd]. rewrite H2. cbv beta iota.
  unfold try_except at 1, Py.bind at 1, outer at 1, zoom at 1.
  cbn [fst snd local_modify modify]. rewrite H3.
  eexists. split; [reflexivity|]. split.
  - apply HP; [apply HP; [done|]|].
    + eapply Forall_impl; [exact Htw|]. intros item Hitem.
      exists "twitter"%string. split; [set_solver|done].
    + eapply Forall_impl; [exact Hbs|]. intros item Hitem.
      exists "bluesky"%string. split; [set_solver|done].
  - cbn. rewrite Hlog2. cbn. by rewrite <- !app_assoc.
Qed.

Lemma fetch_posts_full client limit e items response d ps :
  client ∈ Http.opened e ->
  Http.upstream e (Http.sent e) (MoltbookIndexer.posts_request limit) = Ok response ->
  Http.status_code response = 200%Z ->
  Http.json response = Ok (JDict d) ->
  assoc_get d "posts" = Some (JList (JDict <$> ps)) ->
  MoltbookIndexer.fetch_posts client limit (e, items)
  = (Ok tt, (after_get client (MoltbookIndexer.posts_request limit) e,
             items ++ (marked "_source" "moltbook" <$> ps))).
Proof.
  intros Hopen Hreply Hstatus Hjson Hposts. unfold MoltbookIndexer.fetch_posts.
  rewrite try_get_open by done. rewrite Hreply, Hstatus. cbn [Z.eqb Pos.eqb].
  unfold try_except, Py.bind at 1, lift_res at 1. rewrite Hjson.
  unfold Py.bind at 1, lift_res at 1. cbn [py_get]. rewrite Hposts.
  unfold Py.bind at 1, lift_res at 1. cbn [py_iter].
  by rewrite mark_all.
Qed.

Lemma requests_of_run {A} (fetch : M Http.Env A) e r e' c rs :
  fetch e = (r, e') ->
  Http.log e' = Http.log e ++ (Http.Sent c <$> rs) ->
  requests_of fetch e = rs.
Proof.
  intros Hrun Hlog. unfold requests_of, new_events. rewrite Hrun. cbn [snd].
  rewrite Hlog, drop_app_length.
  by rewrite (requests_sent c (fun r => r)), list_fmap_id.
Qed.

(** X24.  The Moltbook collector sends exactly five requests whatever the
    answers are: for the posts of the platform, for the pages of three
    accounts, and for the posts of Bluesky with half of the limit.  It never
    raises, and every record it returns is marked with [_source], as
    [moltbook], [twitter] or [bluesky]. *)
Theorem moltbook_sends_five_requests (since : option Z) (limit : Z) (e : Http.Env) :
  exists items e',
    MoltbookIndexer.fetch_content since limit e = (Ok items, e') /\
    Forall (from_one_of moltbook_sources) items /\
    requests_of (MoltbookIndexer.fetch_content since limit) e
    = MoltbookIndexer.posts_request limit
      :: (MoltbookIndexer.nitter_request <$> ["autogpt"; "crewaiinc"; "langchainai"])
      ++ [MoltbookIndexer.bluesky_request (floordiv limit 2)].
Proof.
  set (P := Forall (from_one_of moltbook_sources)).
  assert (Hopen : Http.next_client e ∈ Http.opened (after_open e)) by left.
  destruct (fetch_posts_step (Http.next_client e) P limit (after_open e) [] Hopen)
    as (items1 & H1 & HP1).
  { intros l item Hl Hitem. apply Forall_app. split; [done|].
    constructor; [|done]. exists "moltbook"%string. split; [left|done]. }
  { constructor. }
  destruct (moltbook_run P since limit e items1 H1 HP1) as (items & e' & Hrun & HP & Hlog).
  { intros l l' Hl Hl'. apply Forall_app. split; [done|].
    eapply Forall_impl; [exact Hl'|]. intros item (source & Hin & Hitem).
    exists source. split; [|done]. unfold moltbook_sources. set_solver. }
  exists (slice_to limit items), e'. split_and!; [done| |].
  - eapply Forall_forall. intros item Hitem.
    apply (slice_to_subseteq limit items) in Hitem.
    by eapply Forall_forall in HP.
  - by eapply requests_of_run.
Qed.

(** X25.  When the platform answers the request for posts with a bare JSON
    list, none of its posts is returned: [data.get] raises on a list before
    the default [data if isinstance(data, list) else []] can be used, and
    the [except] passes over it.  What is returned comes from the two other
    sources. *)
Theorem moltbook_bare_list_is_dropped (since : option Z) (limit : Z) (e : Http.Env)
    (response : Http.Response) (posts : list JVal)
    (Hreply : reply_to e 0 (MoltbookIndexer.posts_request limit) = Ok response)
    (Hjson : Http.json response = Ok (JList posts)) :
  exists items e',
    MoltbookIndexer.fetch_content since limit e = (Ok items, e') /\
    Forall (from_one_of ["twitter"; "bluesky"]) items /\
    Forall (fun item => ~ from_source "moltbook" item) items.
Proof.
  set (P := Forall (from_one_of ["twitter"; "bluesky"])).
  assert (Hopen : Http.next_client e ∈ Http.opened (after_open e)) by left.
  unfold reply_to in Hreply. rewrite Nat.add_0_r in Hreply.
  pose proof (fetch_posts_list (Http.next_client e) limit (after_open e) []
                response posts Hopen Hreply Hjson) as H1.
  destruct (moltbook_run P since limit e [] H1) as (items & e' & Hrun & HP & Hlog).
  { constructor. }
  { intros l l' Hl Hl'. apply Forall_app. by split. }
  assert (HP' : P (slice_to limit items)).
  { eapply Forall_forall. intros item Hitem.
    apply (slice_to_subseteq limit items) in Hitem.
    by eapply Forall_forall in HP. }
  exists (slice_to limit items), e'. split_and!; [done|done|].
  eapply Forall_impl; [exact HP'|].
  intros item (source & Hin & d & -> & Hs) (d' & [= <-] & Hm).
  rewrite Hs in Hm. injection Hm as ->. set_solver.
Qed.

(** A list of two posts is answered, and nothing else answers: nothing is
    returned. *)
Lemma moltbook_bare_list_is_dropped_witness :
  exists items e',
    MoltbookIndexer.fetch_content None 10 bare_list_world = (Ok items, e') /\
    Forall (fun item => ~ from_source "moltbook" item) items.
Proof.
  destruct (moltbook_bare_list_is_dropped None 10 bare_list_world _ _ eq_refl eq_refl)
    as (items & e' & Hrun & _ & Hno).
  exists items, e'. split; [exact Hrun|exact Hno].
Defined.

(** X26.  When the platform answers with status 200 and an object whose
    [posts] is a list of objects, these posts come first in what is
    returned, each marked with [_source] = [moltbook], in the order of the
    answer; the records of the two other sources only follow them, and
    [items[:limit]] cuts the whole. *)
Theorem moltbook_posts_come_first (since : option Z) (limit : Z) (e : Http.Env)
    (response : Http.Response) (d : list (string * JVal))
    (posts : list (list (string * JVal)))
    (Hreply : reply_to e 0 (MoltbookIndexer.posts_request limit) = Ok response)
    (Hstatus : Http.status_code response = 200%Z)
    (Hjson : Http.json response = Ok (JDict d))
    (Hposts : assoc_get d "posts" = Some (JList (JDict <$> posts))) :
  exists others,
    (MoltbookIndexer.fetch_content since limit e).1
    = Ok (slice_to limit ((marked "_source" "moltbook" <$> posts) ++ others)) /\
    Forall (from_one_of ["twitter"; "bluesky"]) others.
Proof.
  set (items1 := marked "_source" "moltbook" <$> posts).
  set (P := fun l : list JVal =>
              exists others, l = items1 ++ others /\
                             Forall (from_one_of ["twitter"; "bluesky"]) others).
  assert (Hopen : Http.next_client e ∈ Http.opened (after_open e)) by left.
  unfold reply_to in Hreply. rewrite Nat.add_0_r in Hreply.
  pose proof (fetch_posts_full (Http.next_client e) limit (after_open e) []
                response d posts Hopen Hreply Hstatus Hjson Hposts) as H1.
  destruct (moltbook_run P since limit e items1 H1) as (items & e' & Hrun & HP & Hlog).
  { exists []. by rewrite app_nil_r. }
  { intros l l' (others & -> & Ho) Hl'. exists (others ++ l').
    split; [by rewrite app_assoc|]. apply Forall_app. by split. }
  destruct HP as (others & -> & Ho). exists others. by rewrite Hrun.
Qed.

(** Two posts are answered, and nothing else answers: the two posts are
    returned, marked. *)
Lemma moltbook_posts_come_first_witness :
  exists others,
    (MoltbookIndexer.fetch_content None 10 posts_world).1
    = Ok (slice_to 10 ([JDict [("title", JStr "one"); ("_source", JStr "moltbook")];
                        JDict [("title", JStr "two"); ("_source", JStr "moltbook")]]
                       ++ others)).
Proof.
  destruct (moltbook_posts_come_first None 10 posts_world _
              [("posts", JList [JDict [("title", JStr "one")];
                                JDict [("title", JStr "two")]])]
              [[("title", JStr "one")]; [("title", JStr "two")]]
              eq_refl eq_refl eq_refl eq_refl)
    as (others & Hrun & _).
  exists others. exact Hrun.
Defined.

Lemma parse_twitter_item repr account :
  account ∈ take 3 MoltbookIndexer.accounts ->
  exists c,
    MoltbookIndexer.parse_content repr (MoltbookIndexer.twitter_item account) = Ok (Some c) /\
    ContentCreate.agent_id_external c = "twitter:" +:+ account /\
    ContentCreate.title c = "AI agent posts from " +:+ account /\
    ContentCreate.content_url c = Some ("https://x.com/" +:+ account) /\
    ContentCreate.source_platform c = Some "twitter"%string.
Proof.
  cbn [take MoltbookIndexer.accounts]. intros Hin.
  repeat (apply elem_of_cons in Hin as [->|Hin]);
    [| | |by apply elem_of_nil in Hin];
    (eexists; split; [vm_compute; reflexivity|]; split_and!; reflexivity).
Qed.

(** X27.  Every record the Twitter fallback of the Moltbook collector makes
    is accepted by the parser of the collector: it yields a post of the
    agent [twitter:<account>] at [https://x.com/<account>], for one of the
    first three accounts, and its title is the [content] of the record, not
    its [title].  The fallback itself never raises. *)
Theorem twitter_records_are_parsed (repr : JVal -> string) (client : nat) (limit : Z)
    (e : Http.Env)
    (Hopen : client ∈ Http.opened e) :
  exists items e',
    MoltbookIndexer._fetch_twitter_ai_posts client limit e = (Ok items, e') /\
    Forall (fun item =>
              exists account c,
                account ∈ ["autogpt"; "crewaiinc"; "langchainai"] /\
                MoltbookIndexer.parse_content repr item = Ok (Some c) /\
                ContentCreate.agent_id_external c = "twitter:" +:+ account /\
                ContentCreate.title c = "AI agent posts from " +:+ account /\
                ContentCreate.content_url c = Some ("https://x.com/" +:+ account) /\
                ContentCreate.source_platform c = Some "twitter"%string) items.
Proof.
  destruct (twitter_run client
              (Forall (fun item =>
                 exists account c,
                   account ∈ ["autogpt"; "crewaiinc"; "langchainai"] /\
                   MoltbookIndexer.parse_content repr item = Ok (Some c) /\
                   ContentCreate.agent_id_external c = "twitter:" +:+ account /\
                   ContentCreate.title c = "AI agent posts from " +:+ account /\
                   ContentCreate.content_url c = Some ("https://x.com/" +:+ account) /\
                   ContentCreate.source_platform c = Some "twitter"%string))
              limit e Hopen) as (items & e' & Hrun & HP & _).
  { constructor. }
  { intros l account Hin Hl. apply Forall_app. split; [done|]. constructor; [|done].
    destruct (parse_twitter_item repr account Hin) as (c & Hc).
    exists account, c. split; [exact Hin|exact Hc]. }
  by exists items, e'.
Qed.

(** Every page answers: three records, each of them parsed. *)
Lemma twitter_records_are_parsed_witness :
  exists items e',
    MoltbookIndexer._fetch_twitter_ai_posts 0 5 (after_open (always 200)) = (Ok items, e') /\
    length items = 3.
Proof.
  destruct (twitter_records_are_parsed (fun _ => ""%string) 0 5 (after_open (always 200))
              ltac:(left)) as (items & e' & Hrun & _).
  exists items, e'. split; [exact Hrun|].
  assert (H : (MoltbookIndexer._fetch_twitter_ai_posts 0 5 (after_open (always 200))).1
              = Ok items) by (by rewrite Hrun).
  vm_compute in H. by injection H as <-.
Defined.

(** ** What the Hugging Face parser makes of a marked record *)

Lemma huggingface_parse_marked repr title_case content_type item c :
  of_content_type content_type item ->
  HuggingFaceIndexer.parse_content repr title_case item = Ok (Some c) ->
  ContentCreate.content_type c = content_type /\
  ContentCreate.categories c = Some [content_type] /\
  ContentCreate.source_platform c = Some "huggingface"%string /\
  ContentCreate.content_url c = Some (hub_prefix content_type +:+ ContentCreate.title c) /\
  ContentCreate.source_url c = ContentCreate.content_url c.
Proof.
  intros (d & -> & Hd) H. unfold HuggingFaceIndexer.parse_content in H.
  cbn [py_get] in H. rewrite Hd in H. res_inv H. injection H as <-. cbn.
  repeat match goal with
         | H : Ok _ = Ok _ |- _ => injection H as <-
         | H : validate_str _ = Ok _ |- _ => apply validate_str_inv in H
         end.
  simplify_eq. cbn. unfold hub_prefix. split_and!; try done.
  match goal with H : _ = JStr _ |- _ => rewrite H end.
  cbn. by destruct (String.eqb _ "dataset").
Qed.

(** X28.  Whatever the hub answers, a content item the parser makes of a
    record the collector returns is of type [model] or [dataset], is filed
    under that one category on platform [huggingface], and its URL is
    made of the type and its title: [https://huggingface.co/<title>] for
    a model, [https://huggingface.co/datasets/<title>] for a dataset. *)
Theorem huggingface_content_identity (repr : JVal -> string)
    (title_case : string -> string) (since : option Z) (limit : Z) (e : Http.Env)
    (items : list JVal) (item : JVal) (c : ContentCreate.t)
    (Hrun : (HuggingFaceIndexer.fetch_content since limit e).1 = Ok items)
    (Hitem : item ∈ items)
    (Hparse : HuggingFaceIndexer.parse_content repr title_case item = Ok (Some c)) :
  ContentCreate.content_type c ∈ ["model"; "dataset"] /\
  ContentCreate.categories c = Some [ContentCreate.content_type c] /\
  ContentCreate.source_platform c = Some "huggingface"%string /\
  ContentCreate.content_url c
  = Some (hub_prefix (ContentCreate.content_type c) +:+ ContentCreate.title c) /\
  ContentCreate.source_url c = ContentCreate.content_url c.
Proof.
  set (P := Forall (fun item => of_content_type "model" item
                                \/ of_content_type "dataset" item)).
  assert (Hopen : Http.next_client e ∈ Http.opened (after_open e)) by left.
  destruct (fetch_listing_step P (Http.next_client e) "models" "model" limit
              (after_open e) [] Hopen) as (items1 & H1 & HP1).
  { intros l x Hl Hx. apply Forall_app. split; [done|]. constructor; [by left|done]. }
  { constructor. }
  destruct (huggingface_run P since limit e items1 H1 HP1) as (all & e' & Hrun' & HP & _).
  { intros l x Hl Hx. apply Forall_app. split; [done|]. constructor; [by right|done]. }
  rewrite Hrun' in Hrun. cbn [fst] in Hrun. injection Hrun as <-.
  apply (slice_to_subseteq limit all) in Hitem.
  eapply Forall_forall in HP; [|exact Hitem].
  destruct HP as [Hm|Hd].
  - destruct (huggingface_parse_marked repr title_case "model" item c Hm Hparse)
      as (Ht & Hc & Hp & Hu & Hs).
    rewrite Ht. split_and!; [set_solver|done|done|done|done].
  - destruct (huggingface_parse_marked repr title_case "dataset" item c Hd Hparse)
      as (Ht & Hc & Hp & Hu & Hs).
    rewrite Ht. split_and!; [set_solver|done|done|done|done].
Qed.

(** A model of the full listing, parsed. *)
Lemma huggingface_content_identity_witness :
  exists c,
    HuggingFaceIndexer.parse_content (fun _ => ""%string) (fun s => s)
      (JDict [("id", JStr "org/name"); ("_content_type", JStr "model")]) = Ok (Some c) /\
    ContentCreate.content_url c = Some "https://huggingface.co/org/name"%string.
Proof.
  eexists. split; [vm_compute; reflexivity|].
  eapply (proj1 (proj2 (proj2 (proj2
            (huggingface_content_identity (fun _ => ""%string) (fun s => s) None 4
               hub_world
               (replicate 4 (JDict [("id", JStr "org/name");
                                    ("_content_type", JStr "model")]))
               (JDict [("id", JStr "org/name"); ("_content_type", JStr "model")])
               _ eq_refl ltac:(left) eq_refl))))).
Defined.

(** ** The Civitai collector *)

(** X29.  The Civitai collector hands on what the reply holds under
    [items] as it is: when the site answers with status 200 and an object
    with [items], that value is returned, neither cut at [limit] nor
    checked to be a list.  One request is sent. *)
Theorem civitai_returns_items_uncut (since : option Z) (limit : Z) (e : Http.Env)
    (response : Http.Response) (d : list (string * JVal)) (items : JVal)
    (Hreply : reply_to e 0 (CivitaiIndexer.models_request limit) = Ok response)
    (Hstatus : Http.status_code response = 200%Z)
    (Hjson : Http.json response = Ok (JDict d))
    (Hitems : assoc_get d "items" = Some items) :
  (CivitaiIndexer.fetch_content since limit e).1 = Ok items /\
  requests_of (CivitaiIndexer.fetch_content since limit) e
  = [CivitaiIndexer.models_request limit].
Proof.
  assert (Hopen : Http.next_client e ∈ Http.opened (after_open e)) by left.
  unfold reply_to in Hreply. rewrite Nat.add_0_r in Hreply.
  assert (Hrun : exists e',
             CivitaiIndexer.fetch_content since limit e = (Ok items, e') /\
             Http.log e'
             = Http.log e
               ++ (Http.Sent (Http.next_client e) <$> [CivitaiIndexer.models_request limit])).
  { unfold CivitaiIndexer.fetch_content, with_locals.
    unfold Py.bind at 1. rewrite async_with_client_run. unfold finally.
    rewrite try_get_open by done. cbn [after_open Http.upstream Http.sent].
    rewrite Hreply, Hstatus. cbn [Z.eqb Pos.eqb].
    unfold try_except, Py.bind at 1, lift_res at 1. rewrite Hjson.
    unfold Py.bind at 1, lift_res at 1. cbn [py_get]. rewrite Hitems.
    eexists. split; reflexivity. }
  destruct Hrun as (e' & Hrun & Hlog). split; [by rewrite Hrun|].
  by eapply requests_of_run.
Qed.

(** One model is asked for and three are answered: three are returned. *)
Lemma civitai_returns_items_uncut_witness :
  (CivitaiIndexer.fetch_content None 1 civitai_world).1 = Ok (JList three_models).
Proof.
  exact (proj1 (civitai_returns_items_uncut None 1 civitai_world _
                  [("items", JList three_models)] (JList three_models)
                  eq_refl eq_refl eq_refl eq_refl)).
Defined.
